(** * Training glue of a neural machine translation model: [src/train.py]

    A shallow embedding of [check_params], [build_learner] and
    [train_worker], and the properties of the specification proved about
    them.

    The program is orchestration code: it reads a nested configuration,
    performs a few string and integer computations of its own, and calls
    into torch, fastai, the data loader and the network.  The embedding
    keeps the program's own computations executable and records every call
    into the framework in a trace; what a framework call answers is given
    by a [platform], over which the theorems quantify.

    Conventions of the model:
    - a string is a sequence of code points below 256;
    - the configuration is what a YAML or JSON file gives: [None],
      booleans, integers, floats, strings, lists and dictionaries with
      string keys; lists and dictionaries live in a store and are referred
      to by location;
    - floats are carried, not computed with: their arithmetic and their
      text are the platform's;
    - a call into the framework may return or raise, depending on the calls
      made before; reading a field of a framework object, printing and
      assigning to an attribute do not raise. *)

From Stdlib Require Import ZArith String Ascii List Bool Lia DecimalString.
From stdpp Require Import base option list gmap strings.

Local Open Scope Z_scope.

(** ** Python strings *)

Module PyStr.

(** [s.split(sep)] for a one-character separator: [n] separators give
    [n + 1] fields, the empty string gives one empty field. *)
Fixpoint split (sep : ascii) (s : string) : list string :=
  match s with
  | EmptyString => [EmptyString]
  | String c s' =>
      if Ascii.eqb c sep then EmptyString :: split sep s'
      else match split sep s' with
           | f :: fs => String c f :: fs
           | [] => [String c EmptyString]
           end
  end.

(** [s[-n:]]: the last [n] characters, all of [s] when it is shorter. *)
Definition last_chars (n : nat) (s : string) : string :=
  substring (String.length s - n) n s.

(** [s[:-n]] for [n > 0]: all but the last [n] characters, empty when
    [s] is no longer than [n]. *)
Definition drop_last_chars (n : nat) (s : string) : string :=
  substring 0 (String.length s - n) s.

(** [l[-1]] of a list that [split] returned (never empty). *)
Definition last_field (l : list string) : string := List.last l EmptyString.

(** [str(n)] of an [int]. *)
Definition of_int (n : Z) : string := NilZero.string_of_int (Z.to_int n).

(** The white space [int()] skips around a number: the six ASCII
    characters of C's [isspace] and, beyond ASCII, the Unicode spaces,
    of which two lie below 256. *)
Definition is_space (c : ascii) : bool :=
  let n := nat_of_ascii c in
  ((9 <=? n) && (n <=? 13) || (n =? 32) || (n =? 133) || (n =? 160))%nat.

Definition digit_of (c : ascii) : option Z :=
  let n := nat_of_ascii c in
  if ((48 <=? n) && (n <=? 57))%nat then Some (Z.of_nat n - 48) else None.

Fixpoint lstrip (s : string) : string :=
  match s with
  | String c s' => if is_space c then lstrip s' else s
  | EmptyString => EmptyString
  end.

(** Reads decimal digits, most significant first, then optional
    trailing white space up to the end of the string; [seen] tells
    whether a digit was read already. *)
Fixpoint digits (seen : bool) (acc : Z) (s : string) : option Z :=
  match s with
  | EmptyString => if seen then Some acc else None
  | String c s' =>
      match digit_of c with
      | Some d => digits true (10 * acc + d) s'
      | None =>
          if seen && is_space c
          then match lstrip s' with EmptyString => Some acc | _ => None end
          else None
      end
  end.

(** The number of decimal digits among the characters of [s]. *)
Fixpoint digit_count (s : string) : nat :=
  match s with
  | EmptyString => 0
  | String c s' =>
      match digit_of c with
      | Some _ => S (digit_count s')
      | None => digit_count s'
      end
  end.

(** The most digits [int()] reads: the default of
    [sys.int_max_str_digits] in CPython 3.11.  Leading zeros count, the
    sign and the white space do not. *)
Definition max_str_digits : nat := 4300.

(** [int(s)] in base ten: white space, an optional sign, digits, white
    space.  [None] stands for the [ValueError] of a string that is not
    a number, or that has more digits than the interpreter converts.
    Underscores between digits are not read: the program applies [int]
    to a field cut at underscores.  A string is a sequence of code
    points below 256, among which the decimal digits are [0] to [9]. *)
Definition to_int (s : string) : option Z :=
  if (digit_count s <=? max_str_digits)%nat then
    match lstrip s with
    | String "-" s' => Z.opp <$> digits false 0 s'
    | String "+" s' => digits false 0 s'
    | s' => digits false 0 s'
    end
  else None.

(** [os.path.join(a, b)] on a POSIX system. *)
Definition path_join (a b : string) : string :=
  match b with
  | String "/" _ => b
  | _ =>
      match a with
      | EmptyString => b
      | _ => if String.eqb (last_chars 1 a) "/" then a +:+ b
             else a +:+ "/" +:+ b
      end
  end.

End PyStr.

(** ** Python values, the object store and exceptions *)

Definition loc := positive.

(** The values a configuration holds.  Dictionaries and lists are objects
    of the store and a value refers to them by their location, so two
    places of a configuration may share one object.  Dictionary keys are
    strings.  A float is carried by its 64-bit pattern. *)
Inductive value :=
| VNone
| VBool (b : bool)
| VInt (n : Z)
| VFloat (bits : Z)
| VStr (s : string)
| VRef (l : loc).

Inductive object :=
| ODict (d : gmap string value)
| OList (l : list value).

Abbreviation heap := (gmap loc object).

(** What the framework hands back: configuration data, or an object of
    its own (device, loader, vocabulary, network, learner, callback),
    known by a handle only. *)
Inductive pyobj :=
| Data (v : value)
| Opaque (h : nat).

Inductive exn :=
| KeyError (key : string)
| TypeError
| IndexError
| ValueError (msg : string)
| FileExistsError
| FileNotFoundError
| OtherError (name : string).

Inductive result (A : Type) :=
| Ok (a : A)
| Raise (e : exn).
Arguments Ok {A} a.
Arguments Raise {A} e.

#[global] Instance value_eq_dec : EqDecision value.
Proof. solve_decision. Defined.
#[global] Instance pyobj_eq_dec : EqDecision pyobj.
Proof. solve_decision. Defined.
#[global] Instance exn_eq_dec : EqDecision exn.
Proof. solve_decision. Defined.

Definition is_raise {A} (r : result A) : bool :=
  match r with Raise _ => true | Ok _ => false end.

(** ** Calls into the framework *)

Inductive call :=
| os_makedirs (path : string)
| cuda_get_device_name (device_id : value)
| torch_device (device : value)
| cuda_set_device (device_id : value)
| init_process_group (backend : string) (world_size rank : Z) (init_method : string)
| PervasiveDataLoader
    (src_infos src_h5 tgt_infos tgt_h5 : string) (batch_size max_length : value)
    (model_name : string) (epoch_size max_val_size max_test_size : value)
    (distributed : bool)
| Pervasive
    (model_name : string) (src_vocab tgt_vocab : pyobj) (block_sizes : value)
    (max_src_length max_tgt_length : value)
    (enc_embedding_dim dec_embedding_dim : value)
    (enc_embedding_dropout dropout dec_embedding_dropout prediction_dropout : value)
    (division_factor growth_rate bias efficient : value)
| init_weights (model : pyobj)
| cuda_is_available
| model_cuda (model : pyobj) (device_id : value)
| DistributedDataParallel (model : pyobj) (device_ids : list value)
| DataBunch (train val test device : pyobj)
| Learner (data model : pyobj) (loss_func model_dir : string)
| learn_load (learn : pyobj) (name : string) (purge : bool)
| print (msg : string)
| SaveModelCallback (learn : pyobj) (every name : string)
| set_callbacks (learn : pyobj) (callbacks : list pyobj)
| fit_one_cycle (learn : pyobj) (cyc_len max_lr tot_epochs start_epoch : value).

(** One entry of the trace: a call and how it ended. *)
Definition entry : Type := call * result pyobj.

(** What the program does not compute itself: the answers of the
    framework (which may depend on the calls made so far), the fields of
    framework objects, float arithmetic and the text [str()] gives for
    floats, containers and framework objects. *)
Record platform := {
  respond : list entry -> call -> result pyobj;
  attr : pyobj -> string -> pyobj;
  item : pyobj -> string -> pyobj;
  float_floordiv : Z -> Z -> result value;
  float_add : Z -> Z -> result value;
  repr : heap -> pyobj -> string
}.

(** The state a worker runs in: the store holding the configuration, the
    process environment ([os.environ]) and the calls made so far. *)
Record world := {
  store : heap;
  environ : gmap string string;
  trace : list entry
}.

(** ** The monad of a worker: state and exceptions *)

Definition M (A : Type) : Type := world -> result A * world.

#[global] Instance M_ret : MRet M := fun A a w => (Ok a, w).

#[global] Instance M_bind : MBind M := fun A B k m w =>
  match m w with
  | (Ok a, w') => k a w'
  | (Raise e, w') => (Raise e, w')
  end.

Definition raise {A} (e : exn) : M A := fun w => (Raise e, w).

(** [try: m  except ...: handler]: the handler decides per exception,
    re-raising those the [except] clause does not name. *)
Definition try_except {A} (m : M A) (handler : exn -> M A) : M A := fun w =>
  match m w with
  | (Raise e, w') => handler e w'
  | r => r
  end.

(** A computation of Python that only reads the store. *)
Definition reading {A} (f : heap -> result A) : M A := fun w => (f (store w), w).

Definition pure {A} (r : result A) : M A := reading (fun _ => r).

(** ** Operations of Python on configuration values *)

Module Py.

(** [val[key]] for a string [key].  Only a dictionary answers; a list,
    a string and the scalars raise [TypeError], and so does, in this
    model, a reference to nothing. *)
Definition subscript (h : heap) (val : value) (key : string) : result value :=
  match val with
  | VRef l =>
      match h !! l with
      | Some (ODict d) =>
          match d !! key with
          | Some x => Ok x
          | None => Raise (KeyError key)
          end
      | _ => Raise TypeError
      end
  | _ => Raise TypeError
  end.

(** [len(v)] *)
Definition len (h : heap) (v : value) : result Z :=
  match v with
  | VStr s => Ok (Z.of_nat (String.length s))
  | VRef l =>
      match h !! l with
      | Some (ODict d) => Ok (Z.of_nat (size d))
      | Some (OList xs) => Ok (Z.of_nat (length xs))
      | None => Raise TypeError
      end
  | _ => Raise TypeError
  end.

(** The position [i] of a sequence, counted from the end when
    negative. *)
Definition at_index {A} (xs : list A) (i : Z) : option A :=
  if 0 <=? i then xs !! Z.to_nat i
  else if - Z.of_nat (length xs) <=? i then xs !! Z.to_nat (Z.of_nat (length xs) + i)
  else None.

(** [v[i]] for an integer [i]. *)
Definition index (h : heap) (v : value) (i : Z) : result value :=
  match v with
  | VStr s =>
      match at_index (list_ascii_of_string s) i with
      | Some c => Ok (VStr (String c EmptyString))
      | None => Raise IndexError
      end
  | VRef l =>
      match h !! l with
      | Some (OList xs) =>
          match at_index xs i with
          | Some x => Ok x
          | None => Raise IndexError
          end
      | Some (ODict _) => Raise (KeyError (PyStr.of_int i))
      | None => Raise TypeError
      end
  | _ => Raise TypeError
  end.

(** Truth value of [v], as [if v:] and [not v] take it. *)
Definition truthy (h : heap) (v : value) : bool :=
  match v with
  | VNone => false
  | VBool b => b
  | VInt n => negb (n =? 0)
  | VFloat bits => negb ((bits =? 0) || (bits =? 2 ^ 63))
  | VStr s => negb (String.eqb s "")
  | VRef l =>
      match h !! l with
      | Some (ODict d) => negb (size d =? 0)%nat
      | Some (OList xs) => negb (length xs =? 0)%nat
      | None => true
      end
  end.

Definition truthy_obj (h : heap) (o : pyobj) : bool :=
  match o with
  | Data v => truthy h v
  | Opaque _ => true
  end.

(** [os.path.join(a, b)] where [a] comes from the configuration: a
    component that is not a string raises [TypeError]. *)
Definition path_join (a : value) (b : string) : result string :=
  match a with
  | VStr a => Ok (PyStr.path_join a b)
  | _ => Raise TypeError
  end.

Definition as_str (v : value) : result string :=
  match v with
  | VStr s => Ok s
  | _ => Raise TypeError
  end.

End Py.

Section Program.

Context (fw : platform).

(** [a // n] for an integer [n]; a [bool] counts as 0 or 1. *)
Definition floordiv (a : value) (n : Z) : result value :=
  match a with
  | VInt a => if n =? 0 then Raise (OtherError "ZeroDivisionError") else Ok (VInt (a / n))
  | VBool b => if n =? 0 then Raise (OtherError "ZeroDivisionError")
               else Ok (VInt (Z.b2z b / n))
  | VFloat bits => float_floordiv fw bits n
  | _ => Raise TypeError
  end.

(** [a + n] for an integer [n]. *)
Definition add (a : value) (n : Z) : result value :=
  match a with
  | VInt a => Ok (VInt (a + n))
  | VBool b => Ok (VInt (Z.b2z b + n))
  | VFloat bits => float_add fw bits n
  | _ => Raise TypeError
  end.

(** The text an f-string puts for [{o}]. *)
Definition fmt (h : heap) (o : pyobj) : string :=
  match o with
  | Data VNone => "None"
  | Data (VBool true) => "True"
  | Data (VBool false) => "False"
  | Data (VInt n) => PyStr.of_int n
  | Data (VStr s) => s
  | _ => repr fw h o
  end.

(** A call into the framework: the platform answers, the call and its
    answer are appended to the trace. *)
Definition invoke (c : call) : M pyobj := fun w =>
  let r := respond fw (trace w) c in
  (r, {| store := store w; environ := environ w; trace := trace w ++ [(c, r)] |}).

(** A statement that is recorded and cannot fail: a [print], an
    assignment to an attribute of a framework object. *)
Definition record (c : call) : M unit := fun w =>
  (Ok (), {| store := store w; environ := environ w;
             trace := trace w ++ [(c, Ok (Data VNone))] |}).

(** [os.getenv(name, None)] and [os.environ[name] = v] *)
Definition os_getenv (name : string) : M (option string) := fun w =>
  (Ok (environ w !! name), w).

Definition os_setenv (name v : string) : M unit := fun w =>
  (Ok (), {| store := store w; environ := <[name := v]> (environ w); trace := trace w |}).

Definition getitem (val : value) (key : string) : M value :=
  reading (fun h => Py.subscript h val key).

(** *** [check_params] *)

Definition quote : string := String (ascii_of_nat 34) EmptyString.

Definition not_supplied (param : string) : string :=
  "Expected parameter " +:+ quote +:+ param +:+ quote +:+ " not supplied.".

(** The inner loop: [for key in keys: val = val[key]]. *)
Fixpoint lookup_keys (val : value) (keys : list string) : M value :=
  match keys with
  | [] => mret val
  | key :: keys => val ← getitem val key; lookup_keys val keys
  end.

Fixpoint check_params (params : value) (param_list : list string) : M unit :=
  match param_list with
  | [] => mret ()
  | param :: param_list =>
      try_except
        (lookup_keys params (PyStr.split "." param);; mret ())
        (fun e => match e with
                  | KeyError _ | TypeError => raise (ValueError (not_supplied param))
                  | _ => raise e
                  end);;
      check_params params param_list
  end.

End Program.

(** ** [build_learner]

    The function is embedded block by block, one definition for each of
    the blocks its comments delimit, so that a statement can name the
    point the execution has reached. *)

(** What the device block leaves for the rest of the function. *)
Record settings := {
  model_name : string;
  model_dir : string;
  world_size : Z;
  distributed : bool;
  device_id : value;
  device : pyobj
}.

Section Learner.

Context (fw : platform).

Definition invoke_ (c : call) : M unit := invoke fw c;; mret ().

(** [params[group][key]] *)
Definition getitem2 (params : value) (group key : string) : M value :=
  val ← getitem params group; getitem val key.

Definition format (o : pyobj) : M string := reading (fun h => Ok (fmt fw h o)).

(** Lines 39 to 59: the directory of the model and the device. *)
Definition device_settings (params : value) (project_dir : string) (pindex : Z)
  : M settings :=
  name ← getitem params "model_name";
  name ← pure (Py.as_str name);
  let dir := PyStr.path_join (PyStr.path_join project_dir "model") name in
  try_except (invoke_ (os_makedirs dir))
    (fun e => match e with FileExistsError => mret () | _ => raise e end);;
  gpu_ids ← getitem params "gpu_ids";
  n ← reading (fun h => Py.len h gpu_ids);
  let size := if 0 <? n then n else 1 in
  nonempty ← reading (fun h => Ok (Py.truthy h gpu_ids));
  if nonempty : bool then
    id ← reading (fun h => Py.index h gpu_ids pindex);
    invoke_ (cuda_get_device_name id);;
    dev ← invoke fw (torch_device id);
    invoke_ (cuda_set_device id);;
    mret {| model_name := name; model_dir := dir; world_size := size;
            distributed := 1 <? size; device_id := id; device := dev |}
  else
    dev ← invoke fw (torch_device (VStr "cpu"));
    mret {| model_name := name; model_dir := dir; world_size := size;
            distributed := 1 <? size; device_id := VNone; device := dev |}.

(** Lines 61 to 66: the process group. *)
Definition init_distributed (st : settings) (pindex : Z) (comm_file : value) : M unit :=
  if distributed st then
    file ← format (Data comm_file);
    invoke_ (init_process_group "nccl" (world_size st) pindex ("file://" +:+ file))
  else mret ().

Definition data_params : list string :=
  ["data.batch_size"; "data.dir"; "data.epoch_size"; "data.max_length";
   "data.max_test_size"; "data.max_val_size"; "data.src"; "data.tgt"].

Definition network_params : list string :=
  ["decoder.embedding_dim"; "decoder.embedding_dropout";
   "decoder.prediction_dropout"; "encoder.embedding_dim";
   "encoder.embedding_dropout"; "network.bias"; "network.block_sizes";
   "network.division_factor"; "network.dropout"; "network.efficient";
   "network.growth_rate"].

(** Lines 68 to 97: the data loader. *)
Definition load_data (params : value) (st : settings) : M pyobj :=
  check_params params data_params;;
  size ← getitem2 params "data" "batch_size";
  batch_size ← pure (floordiv fw size (world_size st));
  data_dir ← getitem2 params "data" "dir";
  src_l ← getitem2 params "data" "src";
  tgt_l ← getitem2 params "data" "tgt";
  src ← format (Data src_l);
  src_infos ← pure (Py.path_join data_dir (src +:+ ".infos"));
  tgt ← format (Data tgt_l);
  tgt_infos ← pure (Py.path_join data_dir (tgt +:+ ".infos"));
  src ← format (Data src_l);
  src_h5 ← pure (Py.path_join data_dir (src +:+ ".h5"));
  tgt ← format (Data tgt_l);
  tgt_h5 ← pure (Py.path_join data_dir (tgt +:+ ".h5"));
  max_length ← getitem2 params "data" "max_length";
  epoch_size ← getitem2 params "data" "epoch_size";
  max_val_size ← getitem2 params "data" "max_val_size";
  max_test_size ← getitem2 params "data" "max_test_size";
  invoke fw (PervasiveDataLoader src_infos src_h5 tgt_infos tgt_h5 batch_size
               max_length (model_name st) epoch_size max_val_size max_test_size
               (distributed st)).

Definition no_gpu_found : string :=
  "Request to train on GPU {device_id}, but not GPU found.".

(** Lines 125 to 131: the network goes to the device. *)
Definition to_device (st : settings) (model : pyobj) : M pyobj :=
  if decide (device_id st = VNone) then mret model
  else
    available ← invoke fw cuda_is_available;
    yes ← reading (fun h => Ok (Py.truthy_obj h available));
    if yes : bool then
      invoke_ (model_cuda model (device_id st));;
      if distributed st
      then invoke fw (DistributedDataParallel model [device_id st])
      else mret model
    else raise (ValueError no_gpu_found).

(** Lines 98 to 136: the network and the learner. *)
Definition define_network (params : value) (st : settings) (loader : pyobj) : M pyobj :=
  check_params params network_params;;
  block_sizes ← getitem2 params "network" "block_sizes";
  max_length ← getitem2 params "data" "max_length";
  max_src ← pure (add fw max_length 2);
  max_length ← getitem2 params "data" "max_length";
  max_tgt ← pure (add fw max_length 2);
  enc_dim ← getitem2 params "encoder" "embedding_dim";
  dec_dim ← getitem2 params "decoder" "embedding_dim";
  enc_dropout ← getitem2 params "encoder" "embedding_dropout";
  dropout ← getitem2 params "network" "dropout";
  dec_dropout ← getitem2 params "decoder" "embedding_dropout";
  pred_dropout ← getitem2 params "decoder" "prediction_dropout";
  division_factor ← getitem2 params "network" "division_factor";
  growth_rate ← getitem2 params "network" "growth_rate";
  bias ← getitem2 params "network" "bias";
  efficient ← getitem2 params "network" "efficient";
  model ← invoke fw (Pervasive (model_name st) (attr fw loader "src_vocab")
                       (attr fw loader "tgt_vocab") block_sizes max_src max_tgt
                       enc_dim dec_dim enc_dropout dropout dec_dropout pred_dropout
                       division_factor growth_rate bias efficient);
  invoke_ (init_weights model);;
  model ← to_device st model;
  let loaders := attr fw loader "loaders" in
  data ← invoke fw (DataBunch (item fw loaders "train") (item fw loaders "val")
                      (item fw loaders "test") (device st));
  invoke fw (Learner data model "cross_entropy" (model_dir st)).

Definition build_learner (params : value) (project_dir : string) (pindex : Z)
    (comm_file : value) : M pyobj :=
  st ← device_settings params project_dir pindex;
  init_distributed st pindex comm_file;;
  loader ← load_data params st;
  define_network params st loader.

End Learner.

(** ** [train_worker] *)

(** How the restore block ends: the function goes on with a start epoch,
    or it has returned. *)
Inductive flow :=
| Proceed (epoch : value)
| Returned.

(** Lines 180 to 185: the epoch to resume at, read off the file name. *)
Definition resume_epoch (restore : string) : value :=
  let fields := PyStr.split "_" (PyStr.last_field (PyStr.split "/" restore)) in
  if (1 <? length fields)%nat then
    match PyStr.to_int (nth 1 fields "") with
    | Some n => VInt (n + 1)
    | None => VNone
    end
  else VNone.

(** Lines 168 and 169: the extension is removed. *)
Definition strip_pth (restore : string) : string :=
  if String.eqb (PyStr.last_chars 4 restore) ".pth"
  then PyStr.drop_last_chars 4 restore
  else restore.

Section Worker.

Context (fw : platform).

Definition loaded_model (restore : string) : string :=
  "Loaded model " +:+ restore +:+ ".".

Definition not_found (dir restore : string) : string :=
  "The model file " +:+ dir +:+ "/" +:+ restore +:+ ".pth was not found!".

(** Lines 163 to 185: the saved model is restored if one is named. *)
Definition restore_model (learn : pyobj) (pindex : Z) (restore : option string)
  : M flow :=
  match restore with
  | None => mret (Proceed VNone)
  | Some restore =>
      let restore := strip_pth restore in
      loaded ← try_except
        (invoke_ fw (learn_load learn restore false);;
         (if pindex =? 0 then record (print (loaded_model restore)) else mret ());;
         mret true)
        (fun e =>
           match e with
           | FileNotFoundError =>
               (if pindex =? 0 then
                  dir ← format fw (attr fw learn "model_dir");
                  record (print (not_found dir restore))
                else mret ());;
               mret false
           | _ => raise e
           end);
      if loaded : bool then mret (Proceed (resume_epoch restore))
      else mret Returned
  end.

Definition optim_params : list string := ["optim.epochs"; "optim.lr"].

(** Lines 157 to 159: the rank of the worker goes to the environment
    unless one is set there. *)
Definition export_rank (pindex : Z) : M unit :=
  rank ← os_getenv "RANK";
  if decide (rank = None \/ rank = Some "")
  then os_setenv "RANK" (PyStr.of_int pindex)
  else mret ().

(** Lines 187 and 188: the callbacks. *)
Definition register_callbacks (learn : pyobj) : M unit :=
  callback ← invoke fw (SaveModelCallback learn "epoch" "model");
  record (set_callbacks learn [callback]).

(** Lines 190 to 198: the one-cycle schedule. *)
Definition fit_schedule (params : value) (learn : pyobj) (epoch : value) : M unit :=
  check_params params optim_params;;
  epochs ← getitem2 params "optim" "epochs";
  lr ← getitem2 params "optim" "lr";
  tot_epochs ← getitem2 params "optim" "epochs";
  invoke_ fw (fit_one_cycle learn epochs lr tot_epochs epoch).

Definition train_worker (pindex : Z) (project_dir : string) (params : value)
    (comm_file checkpoint : value) (restore : option string) : M unit :=
  export_rank pindex;;
  learn ← build_learner fw params project_dir pindex comm_file;
  after ← restore_model learn pindex restore;
  match after with
  | Returned => mret ()
  | Proceed epoch =>
      register_callbacks learn;;
      fit_schedule params learn epoch
  end.

End Worker.

(** ** What the specification calls resolving a dotted path *)

(** Successive key lookups from [val]: each key must be present in the
    dictionary reached so far. *)
Fixpoint resolve (h : heap) (val : value) (keys : list string) : option value :=
  match keys with
  | [] => Some val
  | key :: keys =>
      match val with
      | VRef l =>
          match h !! l with
          | Some (ODict d) => d !! key ≫= fun v => resolve h v keys
          | _ => None
          end
      | _ => None
      end
  end.

Definition resolves (h : heap) (params : value) (path : string) : bool :=
  bool_decide (is_Some (resolve h params (PyStr.split "." path))).

(** The first path of the list that does not resolve. *)
Definition first_unresolved (h : heap) (params : value) (paths : list string)
  : option string :=
  List.find (fun path => negb (resolves h params path)) paths.

(** The start epoch as the specification describes it: the last component
    of the path, cut at underscores; with at least two fields of which the
    second is an integer [n], the epoch is [n + 1], and none otherwise. *)
Definition start_epoch_of (name : string) : option Z :=
  match PyStr.split "_" (PyStr.last_field (PyStr.split "/" name)) with
  | _ :: second :: _ => Z.succ <$> PyStr.to_int second
  | _ => None
  end.

Definition epoch_value (epoch : option Z) : value :=
  match epoch with
  | Some n => VInt n
  | None => VNone
  end.

(** The exceptions [check_params] turns into a [ValueError]. *)
Definition caught (e : exn) : Prop := e = TypeError \/ exists key, e = KeyError key.

(** ** Specifications of runs *)

(** A run of [m] from [w] leaves the store as it is, appends to the trace
    only entries that satisfy [P], and a value it returns satisfies [Q]. *)
Definition run_spec {A} (m : M A) (w : world) (P : entry -> Prop) (Q : A -> Prop) : Prop :=
  store (m w).2 = store w
  /\ (exists evs, trace (m w).2 = trace w ++ evs /\ Forall P evs)
  /\ forall a, (m w).1 = Ok a -> Q a.

(** The entries a run appends to the trace. *)
Definition events_of {A} (m : M A) (w : world) : list entry :=
  drop (length (trace w)) (trace (m w).2).

(** The entries of a trace whose call is of the kind [f]. *)
Definition calls_of (f : call -> bool) (evs : list entry) : list entry :=
  List.filter (fun e => f e.1) evs.

(** The calls each block of the program makes. *)
Definition device_call (c : call) : bool :=
  match c with
  | os_makedirs _ | cuda_get_device_name _ | torch_device _ | cuda_set_device _ => true
  | _ => false
  end.

Definition network_call (c : call) : bool :=
  match c with
  | Pervasive _ _ _ _ _ _ _ _ _ _ _ _ _ _ _ _ | init_weights _ | cuda_is_available
  | model_cuda _ _ | DistributedDataParallel _ _ | DataBunch _ _ _ _
  | Learner _ _ _ _ => true
  | _ => false
  end.

Definition is_init_process_group (c : call) : bool :=
  match c with init_process_group _ _ _ _ => true | _ => false end.

Definition is_loader (c : call) : bool :=
  match c with PervasiveDataLoader _ _ _ _ _ _ _ _ _ _ _ => true | _ => false end.

Definition is_model (c : call) : bool :=
  match c with Pervasive _ _ _ _ _ _ _ _ _ _ _ _ _ _ _ _ => true | _ => false end.

Definition is_fit (c : call) : bool :=
  match c with fit_one_cycle _ _ _ _ _ => true | _ => false end.

(** The calls [build_learner] makes. *)
Definition build_call (c : call) : bool :=
  device_call c || is_init_process_group c || is_loader c || network_call c.

(** The number of entries of [gpu_ids], when the configuration has such
    a sized entry. *)
Definition gpu_count (h : heap) (params : value) : option Z :=
  match Py.subscript h params "gpu_ids" with
  | Ok gpu_ids => match Py.len h gpu_ids with Ok n => Some n | Raise _ => None end
  | Raise _ => None
  end.

(** The world size the specification describes: the number of GPU ids
    when there is one at least, and 1 otherwise. *)
Definition world_size_of (n : Z) : Z := if 0 <? n then n else 1.

(** What the settings say once the device block has returned them. *)
Definition settings_for (h : heap) (params : value) (project_dir : string)
    (pindex : Z) (st : settings) : Prop :=
  exists gpu_ids n,
    Py.subscript h params "gpu_ids" = Ok gpu_ids
    /\ Py.len h gpu_ids = Ok n
    /\ world_size st = world_size_of n
    /\ distributed st = (1 <? n)
    /\ (if Py.truthy h gpu_ids then Py.index h gpu_ids pindex = Ok (device_id st)
        else device_id st = VNone)
    /\ Py.subscript h params "model_name" = Ok (VStr (model_name st))
    /\ model_dir st
       = PyStr.path_join (PyStr.path_join project_dir "model") (model_name st).

(** The call that sets up the process group of a distributed run. *)
Definition init_call (fw : platform) (h : heap) (st : settings) (pindex : Z)
    (comm_file : value) : call :=
  init_process_group "nccl" (world_size st) pindex
    ("file://" +:+ fmt fw h (Data comm_file)).

(** What an entry of the data block is: the construction of the loader,
    after the check of the data section, with the batch size of one
    worker. *)
Definition loader_entry (fw : platform) (h : heap) (params : value) (st : settings)
    (e : entry) : Prop :=
  first_unresolved h params data_params = None
  /\ exists size batch_size src_infos src_h5 tgt_infos tgt_h5 max_length
       epoch_size max_val_size max_test_size,
      resolve h params ["data"; "batch_size"] = Some size
      /\ floordiv fw size (world_size st) = Ok batch_size
      /\ e.1 = PervasiveDataLoader src_infos src_h5 tgt_infos tgt_h5 batch_size
                 max_length (model_name st) epoch_size max_val_size max_test_size
                 (distributed st).

(** What an entry of the network block is: one of its calls, the
    construction of the network coming after the check of its sections. *)
Definition network_entry (h : heap) (params : value) (e : entry) : Prop :=
  network_call e.1 = true
  /\ (is_model e.1 = true -> first_unresolved h params network_params = None).

(** ** A concrete configuration and platform

    Used to run the program on explicit inputs. *)

Module Demo.

Definition data (batch_size : value) : gmap string value :=
  list_to_map
    [("batch_size", batch_size); ("dir", VStr "/corpus"); ("epoch_size", VInt 1000);
     ("max_length", VInt 50); ("max_test_size", VInt 100);
     ("max_val_size", VInt 100); ("src", VStr "de"); ("tgt", VStr "en")].

Definition encoder : gmap string value :=
  list_to_map [("embedding_dim", VInt 128); ("embedding_dropout", VInt 0)].

Definition decoder : gmap string value :=
  list_to_map [("embedding_dim", VInt 128); ("embedding_dropout", VInt 0);
               ("prediction_dropout", VInt 0)].

Definition network : gmap string value :=
  list_to_map
    [("bias", VBool true); ("block_sizes", VRef 8%positive); ("division_factor", VInt 2);
     ("dropout", VInt 0); ("efficient", VBool false); ("growth_rate", VInt 32)].

Definition optim : gmap string value :=
  list_to_map [("epochs", VInt 3); ("lr", VFloat 4562254508917369340)].

Definition params : value := VRef 1%positive.

(** The store of a configuration with the given GPU ids, data section
    and network section. *)
Definition config (gpu_ids : list value) (data network : gmap string value) : heap :=
  list_to_map
    [(1%positive,
       ODict (list_to_map
                [("model_name", VStr "m"); ("gpu_ids", VRef 2%positive); ("data", VRef 3%positive);
                 ("encoder", VRef 4%positive); ("decoder", VRef 5%positive); ("network", VRef 6%positive);
                 ("optim", VRef 7%positive)]));
     (2%positive, OList gpu_ids);
     (3%positive, ODict data);
     (4%positive, ODict encoder);
     (5%positive, ODict decoder);
     (6%positive, ODict network);
     (7%positive, ODict optim);
     (8%positive, OList [VInt 4; VInt 4])].

(** A platform on which every call returns a fresh object, except that
    CUDA is available or not and the checkpoint exists or not, as
    asked. *)
Definition fw (cuda checkpoint : bool) : platform :=
  {| respond := fun hist c =>
       match c with
       | cuda_is_available => Ok (Data (VBool cuda))
       | learn_load _ _ _ =>
           if checkpoint then Ok (Data VNone) else Raise FileNotFoundError
       | _ => Ok (Opaque (length hist))
       end;
     attr := fun o name => Data (VStr name);
     item := fun o key => Data (VStr key);
     float_floordiv := fun _ _ => Raise (OtherError "float");
     float_add := fun _ _ => Raise (OtherError "float");
     repr := fun _ _ => "<object>" |}.

Definition start (h : heap) : world :=
  {| store := h; environ := ∅; trace := [] |}.

(** Two GPUs, a batch of 64. *)
Definition two_gpus : heap := config [VInt 0; VInt 1] (data (VInt 64)) network.

(** No GPU. *)
Definition cpu_only : heap := config [] (data (VInt 64)) network.


(** Two GPUs, a batch size of -1. *)
Definition negative_batch : heap := config [VInt 0; VInt 1] (data (VInt (-1))) network.



End Demo.



(** The batch size a construction of the data loader is given. *)
Definition loader_batch_size (c : call) : option value :=
  match c with
  | PervasiveDataLoader _ _ _ _ batch_size _ _ _ _ _ _ => Some batch_size
  | _ => None
  end.



(** ** Entries of [train_worker] *)

(** The world with further entries in its trace. *)
Definition log (w : world) (evs : list entry) : world :=
  {| store := store w; environ := environ w; trace := trace w ++ evs |}.

(** The start epoch [train_worker] hands to the schedule. *)
Definition start_epoch_arg (restore : option string) : value :=
  match restore with
  | None => VNone
  | Some name => resume_epoch (strip_pth name)
  end.

(** The checkpoint of that name does not exist: loading it raises
    [FileNotFoundError], whenever and on whichever learner. *)
Definition checkpoint_missing (fw : platform) (name : string) : Prop :=
  forall hist learn purge,
    respond fw hist (learn_load learn name purge) = Raise FileNotFoundError.

Definition is_callback_call (c : call) : bool :=
  match c with SaveModelCallback _ _ _ | set_callbacks _ _ => true | _ => false end.

From Stdlib Require DecimalPos.

(** ** Runs that return *)

(** The run of [m] from [w] returns [a] and appends exactly the entries
    [evs] to the trace; store and environment stay as they are. *)
Definition runs {A} (m : M A) (w : world) (a : A) (evs : list entry) : Prop :=
  m w = (Ok a, log w evs).

(** The run of [m] from [w] returns, with a value and entries that
    satisfy [Q]. *)
Definition returns {A} (m : M A) (w : world) (Q : A -> list entry -> Prop) : Prop :=
  exists a evs, runs m w a evs /\ Q a evs.

(** A platform on which every call returns, except that [os.makedirs]
    may find the directory in place. *)
Definition cooperative (fw : platform) : Prop :=
  forall hist c,
    match respond fw hist c with
    | Ok _ => True
    | Raise e => e = FileExistsError /\ exists path, c = os_makedirs path
    end.

Definition cuda_available (fw : platform) : Prop :=
  forall hist, respond fw hist cuda_is_available = Ok (Data (VBool true)).

(** ** A configuration, typed *)

(** The entries of the configuration that [build_learner] reads, for a
    configuration in which the name of the model and the data directory
    are strings, [gpu_ids] is a list, and the batch size and the maximal
    length are integers. *)
Record config := {
  cfg_model_name : string;
  cfg_gpu_ids : list value;
  cfg_batch_size : Z;
  cfg_dir : string;
  cfg_src : value;
  cfg_tgt : value;
  cfg_max_length : Z;
  cfg_epoch_size : value;
  cfg_max_val_size : value;
  cfg_max_test_size : value;
  cfg_block_sizes : value;
  cfg_enc_embedding_dim : value;
  cfg_dec_embedding_dim : value;
  cfg_enc_embedding_dropout : value;
  cfg_dropout : value;
  cfg_dec_embedding_dropout : value;
  cfg_prediction_dropout : value;
  cfg_division_factor : value;
  cfg_growth_rate : value;
  cfg_bias : value;
  cfg_efficient : value
}.

(** [params], in the store [h], holds the configuration [c]. *)
Definition holds (h : heap) (params : value) (c : config) : Prop :=
  Py.subscript h params "model_name" = Ok (VStr (cfg_model_name c))
  /\ (exists l, Py.subscript h params "gpu_ids" = Ok (VRef l)
                /\ h !! l = Some (OList (cfg_gpu_ids c)))
  /\ resolve h params ["data"; "batch_size"] = Some (VInt (cfg_batch_size c))
  /\ resolve h params ["data"; "dir"] = Some (VStr (cfg_dir c))
  /\ resolve h params ["data"; "src"] = Some (cfg_src c)
  /\ resolve h params ["data"; "tgt"] = Some (cfg_tgt c)
  /\ resolve h params ["data"; "max_length"] = Some (VInt (cfg_max_length c))
  /\ resolve h params ["data"; "epoch_size"] = Some (cfg_epoch_size c)
  /\ resolve h params ["data"; "max_val_size"] = Some (cfg_max_val_size c)
  /\ resolve h params ["data"; "max_test_size"] = Some (cfg_max_test_size c)
  /\ resolve h params ["network"; "block_sizes"] = Some (cfg_block_sizes c)
  /\ resolve h params ["encoder"; "embedding_dim"] = Some (cfg_enc_embedding_dim c)
  /\ resolve h params ["decoder"; "embedding_dim"] = Some (cfg_dec_embedding_dim c)
  /\ resolve h params ["encoder"; "embedding_dropout"]
     = Some (cfg_enc_embedding_dropout c)
  /\ resolve h params ["network"; "dropout"] = Some (cfg_dropout c)
  /\ resolve h params ["decoder"; "embedding_dropout"]
     = Some (cfg_dec_embedding_dropout c)
  /\ resolve h params ["decoder"; "prediction_dropout"]
     = Some (cfg_prediction_dropout c)
  /\ resolve h params ["network"; "division_factor"] = Some (cfg_division_factor c)
  /\ resolve h params ["network"; "growth_rate"] = Some (cfg_growth_rate c)
  /\ resolve h params ["network"; "bias"] = Some (cfg_bias c)
  /\ resolve h params ["network"; "efficient"] = Some (cfg_efficient c).

(** The GPU of the worker [pindex]: none when [gpu_ids] is empty. *)
Definition selected_gpu (c : config) (pindex : Z) : option value :=
  match cfg_gpu_ids c with
  | [] => None
  | _ => Py.at_index (cfg_gpu_ids c) pindex
  end.

(** What the framework answered to the calls of a run of [build_learner]. *)
Record answers := {
  ans_makedirs : result pyobj;
  ans_device_name : pyobj;
  ans_device : pyobj;
  ans_set_device : pyobj;
  ans_process_group : pyobj;
  ans_loader : pyobj;
  ans_model : pyobj;
  ans_init_weights : pyobj;
  ans_model_cuda : pyobj;
  ans_parallel : pyobj;
  ans_data : pyobj;
  ans_learner : pyobj
}.

(** The directory of the model. *)
Definition model_dir_of (project_dir : string) (c : config) : string :=
  PyStr.path_join (PyStr.path_join project_dir "model") (cfg_model_name c).

(** The entries of a run of [build_learner] that returns, in order. *)
Definition build_entries (fw : platform) (h : heap) (c : config)
    (project_dir : string) (pindex : Z) (comm_file : value) (a : answers)
  : list entry :=
  let n := Z.of_nat (length (cfg_gpu_ids c)) in
  let many := 1 <? n in
  let loader := ans_loader a in
  let model := ans_model a in
  let loaders := attr fw loader "loaders" in
  [(os_makedirs (model_dir_of project_dir c), ans_makedirs a)]
  ++ match selected_gpu c pindex with
     | Some id =>
         [(cuda_get_device_name id, Ok (ans_device_name a));
          (torch_device id, Ok (ans_device a));
          (cuda_set_device id, Ok (ans_set_device a))]
     | None => [(torch_device (VStr "cpu"), Ok (ans_device a))]
     end
  ++ (if many
      then [(init_process_group "nccl" (world_size_of n) pindex
               ("file://" +:+ fmt fw h (Data comm_file)), Ok (ans_process_group a))]
      else [])
  ++ [(PervasiveDataLoader
         (PyStr.path_join (cfg_dir c) (fmt fw h (Data (cfg_src c)) +:+ ".infos"))
         (PyStr.path_join (cfg_dir c) (fmt fw h (Data (cfg_src c)) +:+ ".h5"))
         (PyStr.path_join (cfg_dir c) (fmt fw h (Data (cfg_tgt c)) +:+ ".infos"))
         (PyStr.path_join (cfg_dir c) (fmt fw h (Data (cfg_tgt c)) +:+ ".h5"))
         (VInt (cfg_batch_size c / world_size_of n)) (VInt (cfg_max_length c))
         (cfg_model_name c) (cfg_epoch_size c) (cfg_max_val_size c)
         (cfg_max_test_size c) many, Ok loader);
      (Pervasive (cfg_model_name c) (attr fw loader "src_vocab")
         (attr fw loader "tgt_vocab") (cfg_block_sizes c)
         (VInt (cfg_max_length c + 2)) (VInt (cfg_max_length c + 2))
         (cfg_enc_embedding_dim c) (cfg_dec_embedding_dim c)
         (cfg_enc_embedding_dropout c) (cfg_dropout c)
         (cfg_dec_embedding_dropout c) (cfg_prediction_dropout c)
         (cfg_division_factor c) (cfg_growth_rate c) (cfg_bias c)
         (cfg_efficient c), Ok model);
      (init_weights model, Ok (ans_init_weights a))]
  ++ match selected_gpu c pindex with
     | Some id =>
         [(cuda_is_available, Ok (Data (VBool true)));
          (model_cuda model id, Ok (ans_model_cuda a))]
         ++ (if many
             then [(DistributedDataParallel model [id], Ok (ans_parallel a))]
             else [])
     | None => []
     end
  ++ [(DataBunch (item fw loaders "train") (item fw loaders "val")
         (item fw loaders "test") (ans_device a), Ok (ans_data a));
      (Learner (ans_data a)
         (match selected_gpu c pindex with
          | Some _ => if many then ans_parallel a else model
          | None => model
          end)
         "cross_entropy" (model_dir_of project_dir c), Ok (ans_learner a))].

(** The entries of the concrete configuration of [Demo], typed. *)
Definition demo_config (gpu_ids : list value) (batch_size : Z) : config :=
  {| cfg_model_name := "m"; cfg_gpu_ids := gpu_ids; cfg_batch_size := batch_size;
     cfg_dir := "/corpus"; cfg_src := VStr "de"; cfg_tgt := VStr "en";
     cfg_max_length := 50; cfg_epoch_size := VInt 1000;
     cfg_max_val_size := VInt 100; cfg_max_test_size := VInt 100;
     cfg_block_sizes := VRef 8%positive; cfg_enc_embedding_dim := VInt 128;
     cfg_dec_embedding_dim := VInt 128; cfg_enc_embedding_dropout := VInt 0;
     cfg_dropout := VInt 0; cfg_dec_embedding_dropout := VInt 0;
     cfg_prediction_dropout := VInt 0; cfg_division_factor := VInt 2;
     cfg_growth_rate := VInt 32; cfg_bias := VBool true;
     cfg_efficient := VBool false |}.

(** The entries of a restore block whose load returns. *)
Definition restore_entries (learn : pyobj) (pindex : Z) (restore : option string)
    (loaded : pyobj) : list entry :=
  match restore with
  | None => []
  | Some name =>
      (learn_load learn (strip_pth name) false, Ok loaded)
      :: (if pindex =? 0
          then [(print (loaded_model (strip_pth name)), Ok (Data VNone))]
          else [])
  end.

(** The entries of the callbacks and of the schedule, when its calls
    return. *)
Definition schedule_entries (learn : pyobj) (epochs lr epoch : value)
    (callback fitted : pyobj) : list entry :=
  [(SaveModelCallback learn "epoch" "model", Ok callback);
   (set_callbacks learn [callback], Ok (Data VNone));
   (fit_one_cycle learn epochs lr epochs epoch, Ok fitted)].

(** The calls that need a GPU or several of them. *)
Definition gpu_call (c : call) : bool :=
  match c with
  | cuda_get_device_name _ | cuda_set_device _ | init_process_group _ _ _ _
  | cuda_is_available | model_cuda _ _ | DistributedDataParallel _ _ => true
  | _ => false
  end.

(** The call [c], if it names a device, names [id]. *)
Definition on_device (id : value) (c : call) : Prop :=
  match c with
  | cuda_get_device_name x | torch_device x | cuda_set_device x | model_cuda _ x =>
      x = id
  | DistributedDataParallel _ ids => ids = [id]
  | _ => True
  end.

(** ** Names of checkpoints *)

(** The value of a string of decimal digits read from the left, [acc]
    being the value of the digits read so far. *)
Fixpoint decimal_value (acc : Z) (d : Decimal.uint) : Z :=
  match d with
  | Decimal.Nil => acc
  | Decimal.D0 d => decimal_value (10 * acc + 0) d
  | Decimal.D1 d => decimal_value (10 * acc + 1) d
  | Decimal.D2 d => decimal_value (10 * acc + 2) d
  | Decimal.D3 d => decimal_value (10 * acc + 3) d
  | Decimal.D4 d => decimal_value (10 * acc + 4) d
  | Decimal.D5 d => decimal_value (10 * acc + 5) d
  | Decimal.D6 d => decimal_value (10 * acc + 6) d
  | Decimal.D7 d => decimal_value (10 * acc + 7) d
  | Decimal.D8 d => decimal_value (10 * acc + 8) d
  | Decimal.D9 d => decimal_value (10 * acc + 9) d
  end.

(** A numeral that starts with a digit other than 0. *)
Definition leading (d : Decimal.uint) : bool :=
  match d with
  | Decimal.Nil | Decimal.D0 _ => false
  | _ => true
  end.

(** The least magnitude that [int()] does not read back: a numeral of
    one digit more than the interpreter converts. *)
Definition int_limit : Z := 10 ^ Z.of_nat PyStr.max_str_digits.

(** The start epoch after the epoch [n], as far as [int()] reads [n]. *)
Definition epoch_after (n : Z) : value :=
  if Z.abs n <? int_limit then VInt (n + 1) else VNone.

(** The character [c] occurs in [s]. *)
Fixpoint occurs (c : ascii) (s : string) : bool :=
  match s with
  | EmptyString => false
  | String c' s' => Ascii.eqb c' c || occurs c s'
  end.

(** The last character of [s]. *)
Fixpoint last_char (s : string) : option ascii :=
  match s with
  | EmptyString => None
  | String c EmptyString => Some c
  | String _ s' => last_char s'
  end.

(** A file name made of a stem, an underscore and the decimal numeral of
    [n]: the form whose second field [train_worker] reads as the number of
    the last epoch. *)
Definition saved_as (name : string) (n : Z) : string :=
  name +:+ "_" +:+ PyStr.of_int n.

(** A file, in a directory or on its own. *)
Definition in_directory (dir : option string) (file : string) : string :=
  match dir with
  | Some dir => dir +:+ "/" +:+ file
  | None => file
  end.


(** The platform of [Demo] with CUDA, on which loading a checkpoint fails
    with an error other than a missing file. *)
Definition corrupt_checkpoint : platform :=
  {| respond := fun hist c =>
       match c with
       | learn_load _ _ _ => Raise (OtherError "RuntimeError")
       | _ => respond (Demo.fw true true) hist c
       end;
     attr := attr (Demo.fw true true);
     item := item (Demo.fw true true);
     float_floordiv := float_floordiv (Demo.fw true true);
     float_add := float_add (Demo.fw true true);
     repr := repr (Demo.fw true true) |}.

(** A computation that leaves the environment of the process as it found
    it, whatever its outcome. *)
Definition keeps_environ {A} (m : M A) : Prop :=
  forall w, environ (m w).2 = environ w.

(** The environment after lines 157 to 159. *)
Definition with_rank (pindex : Z) (env : gmap string string) : gmap string string :=
  match env !! "RANK" with
  | Some (String _ _) => env
  | _ => <["RANK" := PyStr.of_int pindex]> env
  end.

Definition is_print (c : call) : bool :=
  match c with print _ => true | _ => false end.

(** What the restore block prints on the learner [learn], from the world
    [w]: the worker of index 0 reports the model as loaded or as not
    found, as the load of the file went. *)
Definition restore_messages (fw : platform) (learn : pyobj) (pindex : Z)
    (restore : option string) (w : world) : list entry :=
  match restore with
  | Some name =>
      if pindex =? 0 then
        match respond fw (trace w) (learn_load learn (strip_pth name) false) with
        | Ok _ => [(print (loaded_model (strip_pth name)), Ok (Data VNone))]
        | Raise FileNotFoundError =>
            [(print (not_found (fmt fw (store w) (attr fw learn "model_dir"))
                       (strip_pth name)), Ok (Data VNone))]
        | Raise _ => []
        end
      else []
  | None => []
  end.

(** The two errors of the framework that the code catches: the directory
    of the model exists, the file of the checkpoint does not. *)
Definition forgiven (e : entry) : bool :=
  match e with
  | (os_makedirs _, Raise FileExistsError) => true
  | (learn_load _ _ _, Raise FileNotFoundError) => true
  | _ => false
  end.

(** A call that returned, or whose error is one of the two. *)
Definition quiet (e : entry) : Prop :=
  (exists o, e.2 = Ok o) \/ forgiven e = true.

(** No error of a call is lost in the run of [m] from [w]: the calls are
    all quiet, or all but the last, whose error [m] raises. *)
Definition surfaces {A} (m : M A) (w : world) : Prop :=
  exists evs,
    trace (m w).2 = trace w ++ evs
    /\ (Forall quiet evs
        \/ exists evs' c e,
             evs = evs' ++ [(c, Raise e)] /\ Forall quiet evs'
             /\ (m w).1 = Raise e).

(** Lines 47 to 59: the device, once the directory [dir] of the model
    [name] is there. *)
Definition choose_device (fw : platform) (params : value) (name dir : string)
    (pindex : Z) : M settings :=
  gpu_ids ← getitem params "gpu_ids";
  n ← reading (fun h => Py.len h gpu_ids);
  let size := if 0 <? n then n else 1 in
  nonempty ← reading (fun h => Ok (Py.truthy h gpu_ids));
  if nonempty : bool then
    id ← reading (fun h => Py.index h gpu_ids pindex);
    invoke_ fw (cuda_get_device_name id);;
    dev ← invoke fw (torch_device id);
    invoke_ fw (cuda_set_device id);;
    mret {| model_name := name; model_dir := dir; world_size := size;
            distributed := 1 <? size; device_id := id; device := dev |}
  else
    dev ← invoke fw (torch_device (VStr "cpu"));
    mret {| model_name := name; model_dir := dir; world_size := size;
            distributed := 1 <? size; device_id := VNone; device := dev |}.

(** [build_learner] from line 47 on, for the model [name]. *)
Definition after_makedirs (fw : platform) (params : value) (project_dir : string)
    (pindex : Z) (comm_file : value) (name : string) : M pyobj :=
  st ← choose_device fw params name
         (PyStr.path_join (PyStr.path_join project_dir "model") name) pindex;
  init_distributed fw st pindex comm_file;;
  loader ← load_data fw params st;
  define_network fw params st loader.

(** The platform of [Demo] with CUDA, met a second time: the directory
    of the model exists, and the checkpoint asked for does not. *)
Definition second_run : platform :=
  {| respond := fun hist c =>
       match c with
       | os_makedirs _ => Raise FileExistsError
       | learn_load _ _ _ => Raise FileNotFoundError
       | _ => respond (Demo.fw true true) hist c
       end;
     attr := attr (Demo.fw true true);
     item := item (Demo.fw true true);
     float_floordiv := float_floordiv (Demo.fw true true);
     float_add := float_add (Demo.fw true true);
     repr := repr (Demo.fw true true) |}.

(** * Properties *)

(** ** Python strings on examples *)

Example split_dotted : PyStr.split "." "data.batch_size" = ["data"; "batch_size"].
Proof. reflexivity. Qed.

Example split_edge : PyStr.split "." "" = [""] /\ PyStr.split "." "a..b" = ["a"; ""; "b"].
Proof. split; reflexivity. Qed.

Example slices :
  PyStr.last_chars 4 "model_3.pth" = ".pth"
  /\ PyStr.drop_last_chars 4 "model_3.pth" = "model_3"
  /\ PyStr.last_chars 4 "ab" = "ab" /\ PyStr.drop_last_chars 4 "ab" = "".
Proof. repeat split; reflexivity. Qed.

Example to_int_examples :
  PyStr.to_int "12" = Some 12 /\ PyStr.to_int " -7 " = Some (-7)
  /\ PyStr.to_int "+007" = Some 7 /\ PyStr.to_int "" = None
  /\ PyStr.to_int "3a" = None /\ PyStr.to_int "-" = None
  /\ PyStr.to_int "1 2" = None.
Proof. repeat split; reflexivity. Qed.

Example path_join_examples :
  PyStr.path_join "/p" "model" = "/p/model"
  /\ PyStr.path_join "/p/" "model" = "/p/model"
  /\ PyStr.path_join "/p" "/abs" = "/abs" /\ PyStr.path_join "" "m" = "m".
Proof. repeat split; reflexivity. Qed.

Example of_int_examples : PyStr.of_int 0 = "0" /\ PyStr.of_int (-12) = "-12".
Proof. split; reflexivity. Qed.

(** ** Running a computation *)

Lemma bind_ok {A B} (m : M A) (k : A -> M B) w a w' :
  m w = (Ok a, w') -> (m ≫= k) w = k a w'.
Proof. intros H. unfold mbind, M_bind. by rewrite H. Qed.

Lemma bind_raise {A B} (m : M A) (k : A -> M B) w e w' :
  m w = (Raise e, w') -> (m ≫= k) w = (Raise e, w').
Proof. intros H. unfold mbind, M_bind. by rewrite H. Qed.

Lemma try_ok {A} (m : M A) handler w a w' :
  m w = (Ok a, w') -> try_except m handler w = (Ok a, w').
Proof. intros H. unfold try_except. by rewrite H. Qed.

Lemma try_raise {A} (m : M A) handler w e w' :
  m w = (Raise e, w') -> try_except m handler w = handler e w'.
Proof. intros H. unfold try_except. by rewrite H. Qed.

Lemma subscript_resolve h val key :
  match Py.subscript h val key with
  | Ok x => resolve h val [key] = Some x
  | Raise e => resolve h val [key] = None /\ caught e
  end.
Proof.
  unfold Py.subscript, caught; simpl.
  destruct val; try (split; [done | by left]).
  destruct (h !! l) as [[d | xs] |]; try (split; [done | by left]).
  destruct (d !! key) eqn:E; simpl; [done |].
  split; [done | right; by eexists].
Qed.

Lemma resolve_cons h val key keys :
  resolve h val (key :: keys) = resolve h val [key] ≫= fun v => resolve h v keys.
Proof.
  simpl. destruct val; try done.
  destruct (h !! l) as [[d | xs] |]; try done.
  by destruct (d !! key).
Qed.

Lemma lookup_keys_run keys : forall val w,
  match resolve (store w) val keys with
  | Some x => lookup_keys val keys w = (Ok x, w)
  | None => exists e, caught e /\ lookup_keys val keys w = (Raise e, w)
  end.
Proof.
  induction keys as [| key keys IH]; intros val w; [done |].
  rewrite resolve_cons. cbn [lookup_keys].
  pose proof (subscript_resolve (store w) val key) as Hs.
  destruct (Py.subscript (store w) val key) as [x | e] eqn:E.
  - rewrite Hs. cbn [mbind option_bind].
    specialize (IH x w).
    destruct (resolve (store w) x keys) as [y |].
    + erewrite bind_ok; [exact IH |]. unfold getitem, reading. by rewrite E.
    + destruct IH as (e & He & IH). exists e; split; [done |].
      erewrite bind_ok; [exact IH |]. unfold getitem, reading. by rewrite E.
  - destruct Hs as [-> He]. cbn [mbind option_bind].
    exists e; split; [done |].
    apply bind_raise. unfold getitem, reading. by rewrite E.
Qed.

(** [check_params] computes the first unresolved path and changes
    nothing. *)
Lemma check_params_run params param_list : forall w,
  check_params params param_list w =
    (match first_unresolved (store w) params param_list with
     | Some param => Raise (ValueError (not_supplied param))
     | None => Ok ()
     end, w).
Proof.
  induction param_list as [| param rest IH]; intros w; [done |].
  cbn [check_params first_unresolved List.find].
  pose proof (lookup_keys_run (PyStr.split "." param) params w) as Hk.
  unfold resolves at 1.
  destruct (resolve (store w) params (PyStr.split "." param)) as [x |] eqn:E.
  - rewrite bool_decide_eq_true_2 by (by eexists). cbn [negb].
    erewrite bind_ok; [apply IH |].
    apply try_ok. by erewrite bind_ok.
  - rewrite bool_decide_eq_false_2 by (by intros [? ?]). cbn [negb].
    destruct Hk as (e & He & Hk).
    apply bind_raise. erewrite try_raise; [| by apply bind_raise].
    by destruct He as [-> | [key ->]].
Qed.

(** ** [check_params] *)

Lemma first_unresolved_some h params paths param :
  first_unresolved h params paths = Some param ->
  param ∈ paths /\ resolves h params param = false.
Proof.
  intros H. apply find_some in H as [Hin Hneg].
  split; [by apply list_elem_of_In | by apply negb_true_iff].
Qed.

Lemma first_unresolved_none h params paths :
  first_unresolved h params paths = None <->
  forall param, param ∈ paths -> resolves h params param = true.
Proof.
  split.
  - intros H param Hin. apply list_elem_of_In in Hin.
    pose proof (find_none _ _ H _ Hin) as Hn. by apply negb_false_iff.
  - intros H. destruct (first_unresolved h params paths) as [param |] eqn:E; [| done].
    apply first_unresolved_some in E as [Hin Hun].
    rewrite (H _ Hin) in Hun. done.
Qed.

(** C1: [check_params] raises a [ValueError] exactly when some path of the
    list cannot be resolved by successive key lookups, its message then
    names an unresolved path of the list (the first one), and it returns
    normally exactly when every path resolves. *)
Theorem check_params_raises_iff_unresolved
    (params : value) (param_list : list string) (w : world) :
  ((exists param, param ∈ param_list /\ resolves (store w) params param = false)
   <-> exists param,
        first_unresolved (store w) params param_list = Some param
        /\ param ∈ param_list /\ resolves (store w) params param = false
        /\ (check_params params param_list w).1
           = Raise (ValueError (not_supplied param)))
  /\ ((forall param, param ∈ param_list -> resolves (store w) params param = true)
      <-> (check_params params param_list w).1 = Ok ())
  /\ (forall e, (check_params params param_list w).1 = Raise e ->
                exists param, e = ValueError (not_supplied param)).
Proof.
  rewrite check_params_run. cbn [fst].
  destruct (first_unresolved (store w) params param_list) as [param |] eqn:E.
  - pose proof (first_unresolved_some _ _ _ _ E) as [Hin Hun].
    split; [| split].
    + split; [| intros (p & _ & ? & ? & _); by exists p].
      intros _. by exists param.
    + split; [| done]. intros H. rewrite (H _ Hin) in Hun. done.
    + intros e [= <-]. by exists param.
  - pose proof (proj1 (first_unresolved_none _ _ _) E) as Hall.
    split; [| split].
    + split; [| intros (p & ? & _); done].
      intros (p & Hin & Hun). rewrite (Hall _ Hin) in Hun. done.
    + done.
    + done.
Qed.

(** C6: when every path of the list resolves, [check_params] returns
    normally and leaves the configuration, and the rest of the state,
    as it was. *)
Theorem check_params_leaves_params_unchanged
    (params : value) (param_list : list string) (w : world) :
  (forall param, param ∈ param_list -> resolves (store w) params param = true) ->
  check_params params param_list w = (Ok (), w)
  /\ store (check_params params param_list w).2 = store w.
Proof.
  intros H. rewrite check_params_run.
  apply first_unresolved_none in H. by rewrite H.
Qed.

Lemma check_params_leaves_params_unchanged_witness :
  check_params Demo.params data_params (Demo.start Demo.two_gpus)
  = (Ok (), Demo.start Demo.two_gpus).
Proof.
  apply (check_params_leaves_params_unchanged Demo.params data_params
           (Demo.start Demo.two_gpus)).
  apply first_unresolved_none. vm_compute; reflexivity.
Defined.

(** On the other hand a path through a list, through a string or to an
    absent key does not resolve, and the message names it. *)
Example check_params_on_unresolved :
  (check_params Demo.params ["data.src"; "gpu_ids.first"; "optim.lr"]
     (Demo.start Demo.two_gpus)).1
  = Raise (ValueError (not_supplied "gpu_ids.first"))
  /\ (check_params Demo.params ["model_name.x"] (Demo.start Demo.two_gpus)).1
     = Raise (ValueError (not_supplied "model_name.x"))
  /\ (check_params VNone ["data"] (Demo.start Demo.two_gpus)).1
     = Raise (ValueError (not_supplied "data"))
  /\ (check_params Demo.params [] (Demo.start Demo.two_gpus)).1 = Ok ().
Proof. repeat split; vm_compute; reflexivity. Qed.

(** ** Rules for [run_spec] *)

Lemma spec_ret {A} (a : A) w P (Q : A -> Prop) : Q a -> run_spec (mret a) w P Q.
Proof.
  intros H. split; [done |]. split.
  - exists []. by rewrite app_nil_r.
  - by intros ? [= <-].
Qed.

Lemma spec_raise {A} e w P (Q : A -> Prop) : run_spec (raise e) w P Q.
Proof.
  split; [done |]. split; [| done].
  exists []. by rewrite app_nil_r.
Qed.

Lemma spec_conseq {A} (m : M A) w (P P' : entry -> Prop) (Q Q' : A -> Prop) :
  run_spec m w P Q -> (forall e, P e -> P' e) -> (forall a, Q a -> Q' a) ->
  run_spec m w P' Q'.
Proof.
  intros (Hs & (evs & Ht & Hp) & Hq) HP HQ. split; [done |]. split.
  - exists evs. split; [done |]. eapply Forall_impl; eauto.
  - auto.
Qed.

Lemma spec_bind {A B} (m : M A) (k : A -> M B) w P (Q : A -> Prop) (R : B -> Prop) :
  run_spec m w P Q ->
  (forall a w', m w = (Ok a, w') -> store w' = store w -> Q a -> run_spec (k a) w' P R) ->
  run_spec (m ≫= k) w P R.
Proof.
  intros (Hs & (evs & Ht & Hp) & Hq) Hk. unfold run_spec.
  destruct (m w) as [[a | e] w'] eqn:E; cbn [fst snd] in *.
  - rewrite (bind_ok m k w a w' E).
    destruct (Hk a w' eq_refl Hs (Hq a eq_refl)) as (Hs' & (evs' & Ht' & Hp') & Hq').
    split; [congruence |]. split; [| done].
    exists (evs ++ evs'). rewrite Ht', Ht, <- app_assoc. split; [done |].
    by apply Forall_app.
  - rewrite (bind_raise m k w e w' E). cbn [fst snd].
    split; [done |]. split; [| done]. by exists evs.
Qed.

Lemma spec_try {A} (m : M A) handler w P (Q : A -> Prop) :
  run_spec m w P Q ->
  (forall e w', m w = (Raise e, w') -> store w' = store w -> run_spec (handler e) w' P Q) ->
  run_spec (try_except m handler) w P Q.
Proof.
  intros (Hs & (evs & Ht & Hp) & Hq) Hh. unfold run_spec.
  destruct (m w) as [[a | e] w'] eqn:E; cbn [fst snd] in *.
  - rewrite (try_ok m handler w a w' E). cbn [fst snd].
    split; [done |]. split; [| done]. by exists evs.
  - rewrite (try_raise m handler w e w' E).
    destruct (Hh e w' eq_refl Hs) as (Hs' & (evs' & Ht' & Hp') & Hq').
    split; [congruence |]. split; [| done].
    exists (evs ++ evs'). rewrite Ht', Ht, <- app_assoc. split; [done |].
    by apply Forall_app.
Qed.

Lemma spec_reading {A} (f : heap -> result A) w P :
  run_spec (reading f) w P (fun a => f (store w) = Ok a).
Proof.
  split; [done |]. split; [| done].
  exists []. by rewrite app_nil_r.
Qed.

Lemma spec_pure {A} (r : result A) w P : run_spec (pure r) w P (fun a => r = Ok a).
Proof. apply (spec_reading (fun _ => r)). Qed.

Lemma spec_getitem val key w P :
  run_spec (getitem val key) w P (fun a => Py.subscript (store w) val key = Ok a).
Proof. apply (spec_reading (fun h => Py.subscript h val key)). Qed.

Lemma spec_getitem2 params group key w P :
  run_spec (getitem2 params group key) w P
    (fun a => resolve (store w) params [group; key] = Some a).
Proof.
  unfold getitem2. eapply spec_bind; [apply spec_getitem |].
  intros v w' _ Hs Hv. eapply spec_conseq; [apply spec_getitem | done |].
  intros a Ha. cbn beta in *. rewrite Hs in Ha.
  pose proof (subscript_resolve (store w) params group) as H1. rewrite Hv in H1.
  pose proof (subscript_resolve (store w) v key) as H2. rewrite Ha in H2.
  rewrite resolve_cons, H1. cbn [mbind option_bind]. done.
Qed.

Lemma spec_format fw o w P :
  run_spec (format fw o) w P (fun s => s = fmt fw (store w) o).
Proof.
  eapply spec_conseq; [apply spec_reading | done |]. by intros a [= <-].
Qed.

Lemma spec_invoke fw c w (P : entry -> Prop) :
  (forall r, P (c, r)) ->
  run_spec (invoke fw c) w P (fun a => respond fw (trace w) c = Ok a).
Proof.
  intros H. split; [done |]. split; [| done].
  eexists [_]. split; [done |]. by constructor.
Qed.

Lemma spec_invoke_ fw c w (P : entry -> Prop) :
  (forall r, P (c, r)) ->
  run_spec (invoke_ fw c) w P (fun _ => exists a, respond fw (trace w) c = Ok a).
Proof.
  intros H. unfold invoke_. eapply spec_bind; [by apply spec_invoke |].
  intros a w' _ _ Ha. apply spec_ret. by exists a.
Qed.

Lemma spec_invoke_any fw c w (P : entry -> Prop) :
  (forall r, P (c, r)) -> run_spec (invoke_ fw c) w P (fun _ => True).
Proof.
  intros H. eapply spec_conseq; [by apply spec_invoke_ | done | done].
Qed.

Lemma spec_invoke_last fw c w (P : entry -> Prop) :
  (forall r, P (c, r)) -> run_spec (invoke fw c) w P (fun _ => True).
Proof.
  intros H. eapply spec_conseq; [by apply spec_invoke | done | done].
Qed.

Lemma spec_record c w (P : entry -> Prop) :
  P (c, Ok (Data VNone)) -> run_spec (record c) w P (fun _ => True).
Proof.
  intros H. split; [done |]. split; [| done].
  eexists [_]. split; [done |]. by constructor.
Qed.

Lemma spec_check_params params param_list w P :
  run_spec (check_params params param_list) w P
    (fun _ => first_unresolved (store w) params param_list = None).
Proof.
  unfold run_spec. rewrite check_params_run. cbn [fst snd].
  split; [done |]. split.
  - exists []. by rewrite app_nil_r.
  - intros []. by destruct (first_unresolved (store w) params param_list).
Qed.

Lemma spec_events {A} (m : M A) w P Q :
  run_spec m w P Q ->
  trace (m w).2 = trace w ++ events_of m w /\ Forall P (events_of m w).
Proof.
  intros (_ & (evs & Ht & Hp) & _). unfold events_of.
  rewrite Ht, drop_app_length. done.
Qed.

(** ** The blocks of [build_learner] *)

Ltac spec_prim :=
  first
    [ apply spec_getitem2 | apply spec_getitem | apply spec_format
    | apply spec_pure | apply spec_reading | apply spec_check_params
    | apply spec_invoke_; [intros ?; try done]
    | apply spec_invoke; [intros ?; try done]
    | apply spec_record; [try done] ].

Ltac spec_intro x Hx :=
  let w' := fresh "w" in
  let Hs := fresh "Hs" in
  intros x w' _ Hs Hx; cbn beta in Hx;
  repeat match goal with
    | Hp : store ?wp = store _ |- _ =>
        lazymatch type of Hs with
        | store w' = store wp => rewrite ?Hp in Hx; rewrite Hp in Hs; clear Hp
        end
    end.

(** Rewrites the store of a later world to the store the run began with. *)
Ltac store_root :=
  repeat match goal with
    | Hs : store ?w' = store _ |- context [store ?w'] => rewrite Hs
    | Hs : store ?w' = store _, H : context [store ?w'] |- _ => rewrite Hs in H
    end.

Tactic Notation "spec_step" "as" simple_intropattern(x) ident(Hx) :=
  eapply spec_bind; [spec_prim | spec_intro x Hx].

Tactic Notation "spec_step" :=
  lazymatch goal with
  | |- run_spec (mret _) _ _ _ => apply spec_ret
  | |- run_spec (raise _) _ _ _ => apply spec_raise
  | |- run_spec (mbind _ _) _ _ _ =>
      let x := fresh "x" in let Hx := fresh "Hx" in spec_step as x Hx
  end.

Lemma device_settings_spec fw params project_dir pindex w :
  run_spec (device_settings fw params project_dir pindex) w
    (fun e => device_call e.1 = true)
    (settings_for (store w) params project_dir pindex).
Proof.
  unfold device_settings.
  spec_step as name0 Hname.
  spec_step as name Hstr.
  destruct name0; try done. injection Hstr as ->.
  eapply spec_bind.
  { eapply spec_try with (Q := fun _ => True).
    - apply spec_invoke_any. by intros ?.
    - intros e ? _ _. destruct e; first [by apply spec_ret | apply spec_raise]. }
  spec_intro ipattern:([]) Hmk. clear Hmk.
  spec_step as gpu_ids Hgpu.
  spec_step as n Hlen.
  spec_step as nonempty Htruth. injection Htruth as Htruth.
  assert (Hdist : (1 <? (if 0 <? n then n else 1)) = (1 <? n)).
  { destruct (0 <? n) eqn:E; [done |].
    symmetry. apply Z.ltb_ge. apply Z.ltb_ge in E. lia. }
  destruct nonempty.
  - spec_step as id Hid.
    spec_step. spec_step. spec_step. spec_step.
    exists gpu_ids, n. cbn. by rewrite Htruth.
  - spec_step. spec_step.
    exists gpu_ids, n. cbn. by rewrite Htruth.
Qed.

Lemma init_distributed_run fw st pindex comm_file w :
  init_distributed fw st pindex comm_file w =
    if distributed st then
      let c := init_call fw (store w) st pindex comm_file in
      let r := respond fw (trace w) c in
      (match r with Ok _ => Ok () | Raise e => Raise e end,
       {| store := store w; environ := environ w; trace := trace w ++ [(c, r)] |})
    else (Ok (), w).
Proof.
  unfold init_distributed. destruct (distributed st); [| done].
  unfold init_call, invoke_, format, reading, invoke, mbind, M_bind, mret, M_ret.
  cbn. by destruct (respond fw (trace w) _).
Qed.

Lemma init_distributed_spec fw st pindex comm_file w :
  run_spec (init_distributed fw st pindex comm_file) w
    (fun e => distributed st = true /\ e.1 = init_call fw (store w) st pindex comm_file)
    (fun _ => True).
Proof.
  unfold run_spec. rewrite init_distributed_run.
  destruct (distributed st); cbn.
  - split; [done |]. split; [| done].
    eexists [_]. split; [done |]. by constructor.
  - split; [done |]. split; [| done]. exists []. by rewrite app_nil_r.
Qed.

Lemma load_data_spec fw params st w :
  run_spec (load_data fw params st) w
    (loader_entry fw (store w) params st)
    (fun _ => first_unresolved (store w) params data_params = None).
Proof.
  unfold load_data.
  spec_step as [] Hck.
  spec_step as size Hsize.
  spec_step as batch_size Hbs.
  do 15 spec_step.
  eapply spec_conseq; [apply spec_invoke | done | done].
  intros r. split; [done |]. by repeat eexists.
Qed.


Lemma to_device_spec fw st model w (P : entry -> Prop) :
  (forall c r, network_call c = true -> is_model c = false -> P (c, r)) ->
  run_spec (to_device fw st model) w P (fun _ => True).
Proof.
  intros HP. unfold to_device. destruct (decide _); [by apply spec_ret |].
  eapply spec_bind; [apply spec_invoke; intros; by apply HP |].
  spec_intro available Hav.
  spec_step as yes Hyes.
  destruct yes; [| apply spec_raise].
  eapply spec_bind; [apply spec_invoke_any; intros; by apply HP |].
  spec_intro ipattern:([]) Hc.
  destruct (distributed st); [| by apply spec_ret].
  apply spec_invoke_last. intros. by apply HP.
Qed.

Lemma define_network_spec fw params st loader w :
  run_spec (define_network fw params st loader) w
    (network_entry (store w) params)
    (fun _ => first_unresolved (store w) params network_params = None).
Proof.
  unfold define_network.
  spec_step as [] Hck.
  do 15 spec_step.
  eapply spec_bind; [apply spec_invoke; intros r; by split |].
  spec_intro model Hmodel.
  eapply spec_bind; [apply spec_invoke_any; intros r; by split |].
  spec_intro ipattern:([]) Hiw.
  eapply spec_bind; [apply to_device_spec; intros c r Hc Hm; split; [done | congruence] |].
  spec_intro model' Hmodel'.
  eapply spec_bind; [apply spec_invoke; intros r; by split |].
  spec_intro data Hdata.
  eapply spec_conseq with (P := network_entry (store w) params);
    [apply spec_invoke_last; intros r; by split | done | done].
Qed.


(** ** [build_learner] as a whole *)

(** The entries of a run of [build_learner] come from its four blocks. *)
Lemma build_learner_spec fw params project_dir pindex comm_file w (P : entry -> Prop) :
  (forall c r, device_call c = true -> P (c, r)) ->
  (forall st r, settings_for (store w) params project_dir pindex st ->
                distributed st = true ->
                P (init_call fw (store w) st pindex comm_file, r)) ->
  (forall st e, settings_for (store w) params project_dir pindex st ->
                loader_entry fw (store w) params st e -> P e) ->
  (forall e, first_unresolved (store w) params data_params = None ->
             network_entry (store w) params e -> P e) ->
  run_spec (build_learner fw params project_dir pindex comm_file) w P
    (fun _ => first_unresolved (store w) params data_params = None
              /\ first_unresolved (store w) params network_params = None).
Proof.
  intros Hdev Hinit Hload Hnet. unfold build_learner.
  eapply spec_bind.
  { eapply spec_conseq; [apply device_settings_spec | | done].
    intros [c r] Hc. by apply Hdev. }
  spec_intro st Hst.
  eapply spec_bind.
  { eapply spec_conseq; [apply init_distributed_spec | | done].
    intros [c r] [Hd Hc]. cbn in Hc. subst c. store_root. by apply Hinit. }
  spec_intro ipattern:([]) Hi. clear Hi.
  eapply spec_bind.
  { eapply spec_conseq; [apply load_data_spec | | done].
    intros e He. store_root. by eapply Hload. }
  spec_intro loader Hck.
  eapply spec_conseq; [apply define_network_spec | |].
  - intros e He. store_root. by apply Hnet.
  - intros ? Hn. by store_root.
Qed.

Lemma build_learner_calls fw params project_dir pindex comm_file w :
  run_spec (build_learner fw params project_dir pindex comm_file) w
    (fun e => build_call e.1 = true) (fun _ => True).
Proof.
  eapply spec_conseq with (P := fun e => build_call e.1 = true);
    [apply build_learner_spec | done | done].
  - intros c r Hc. unfold build_call. cbn. by rewrite Hc.
  - intros st r _ _. done.
  - intros st e _ (_ & ? & ? & ? & ? & ? & ? & ? & ? & ? & ? & _ & _ & He).
    unfold build_call. by rewrite He.
  - intros e _ [Hc _]. unfold build_call. rewrite Hc. by rewrite !orb_true_r.
Qed.





Lemma run_spec_store {A} (m : M A) w P Q r w' :
  run_spec m w P Q -> m w = (r, w') -> store w' = store w.
Proof. intros (Hs & _) E. by rewrite E in Hs. Qed.



(** ** The process group *)

Lemma calls_of_none f (evs : list entry) :
  Forall (fun e => f e.1 = false) evs -> calls_of f evs = [].
Proof.
  induction 1 as [| x l Hx _ IH]; [done |]. unfold calls_of in *. cbn. by rewrite Hx.
Qed.

Lemma calls_of_app f (evs evs' : list entry) :
  calls_of f (evs ++ evs') = calls_of f evs ++ calls_of f evs'.
Proof. apply List.filter_app. Qed.

Lemma events_of_eq {A} (m : M A) w evs :
  trace (m w).2 = trace w ++ evs -> events_of m w = evs.
Proof. intros H. unfold events_of. by rewrite H, drop_app_length. Qed.



(** ** The batch size of a worker *)

Lemma Forall_calls_of f (P : entry -> Prop) (evs : list entry) :
  Forall (fun e => f e.1 = true -> P e) evs -> Forall P (calls_of f evs).
Proof.
  induction 1 as [| e l He _ IH]; [constructor |].
  unfold calls_of in *. cbn. destruct (f e.1); [| done].
  constructor; auto.
Qed.

(** C9, as amended: every construction of the data loader in a run of
    [build_learner] is given the configured batch size floor-divided by
    the world size, which is the number of GPU ids when there is one at
    least and 1 otherwise; for an integer batch size that is not negative
    and smaller than the number of GPUs, this is 0. *)
Theorem loader_gets_batch_size_over_world_size
    fw params project_dir pindex comm_file (w : world) :
  Forall
    (fun e =>
       exists n size batch_size,
         gpu_count (store w) params = Some n
         /\ resolve (store w) params ["data"; "batch_size"] = Some size
         /\ floordiv fw size (world_size_of n) = Ok batch_size
         /\ loader_batch_size e.1 = Some batch_size
         /\ forall b, size = VInt b ->
              batch_size = VInt (b / world_size_of n)
              /\ (0 <= b < n -> batch_size = VInt 0))
    (calls_of is_loader
       (events_of (build_learner fw params project_dir pindex comm_file) w)).
Proof.
  apply Forall_calls_of.
  eapply spec_events
    with (Q := fun _ => first_unresolved (store w) params data_params = None
                        /\ first_unresolved (store w) params network_params = None).
  apply build_learner_spec.
  - intros c r Hc Hl. by destruct c.
  - intros st r _ _ Hl. done.
  - intros st e (gpu_ids & n & Hgpu & Hlen & Hws & _)
      (_ & size & bs & ? & ? & ? & ? & ? & ? & ? & ? & Hsize & Hdiv & He) _.
    exists n, size, bs. rewrite Hws in Hdiv.
    split; [unfold gpu_count; by rewrite Hgpu, Hlen |].
    split; [done |]. split; [done |].
    split; [by rewrite He |].
    intros b ->. cbn in Hdiv.
    assert (world_size_of n <> 0) as Hnz.
    { unfold world_size_of. destruct (0 <? n) eqn:E; [| done].
      apply Z.ltb_lt in E. lia. }
    apply Z.eqb_neq in Hnz. rewrite Hnz in Hdiv. injection Hdiv as <-.
    split; [done |]. intros [Hb Hn].
    unfold world_size_of. replace (0 <? n) with true by (symmetry; apply Z.ltb_lt; lia).
    by rewrite Z.div_small.
  - intros [c r] _ [Hc _] Hl. by destruct c.
Qed.

(** The sentence of C9 on small batch sizes fails as it stands: with two
    GPUs and a configured batch size of -1, which is smaller than 2, the
    data loader is given -1 and not 0. *)
Lemma negative_batch_size_is_not_zero :
  gpu_count Demo.negative_batch Demo.params = Some 2
  /\ resolve Demo.negative_batch Demo.params ["data"; "batch_size"] = Some (VInt (-1))
  /\ -1 < 2
  /\ exists e,
       calls_of is_loader
         (events_of (build_learner (Demo.fw true true) Demo.params "/p" 0 VNone)
            (Demo.start Demo.negative_batch)) = [e]
       /\ loader_batch_size e.1 = Some (VInt (-1))
       /\ VInt (-1) <> VInt 0.
Proof.
  split; [vm_compute; reflexivity |].
  split; [vm_compute; reflexivity |].
  split; [lia |].
  eexists. split; [vm_compute; reflexivity |].
  split; [reflexivity | discriminate].
Qed.

(** ** A GPU is requested and there is none *)








(** ** The blocks of [train_worker] *)

Lemma getitem2_run params group key w v :
  resolve (store w) params [group; key] = Some v ->
  getitem2 params group key w = (Ok v, w).
Proof.
  intros H. rewrite resolve_cons in H. unfold getitem2.
  pose proof (subscript_resolve (store w) params group) as H1.
  destruct (Py.subscript (store w) params group) as [x | e] eqn:E1.
  - rewrite H1 in H. cbn in H.
    erewrite bind_ok; [| unfold getitem, reading; by rewrite E1].
    pose proof (subscript_resolve (store w) x key) as H2.
    unfold getitem, reading.
    destruct (Py.subscript (store w) x key) as [y | e] eqn:E2.
    + cbn in H2. congruence.
    + destruct H2 as [H2 _]. cbn in H2. congruence.
  - destruct H1 as [H1 _]. rewrite H1 in H. done.
Qed.

Lemma resolves_spec h params group key :
  resolves h params (group +:+ "." +:+ key) = true ->
  PyStr.split "." (group +:+ "." +:+ key) = [group; key] ->
  exists v, resolve h params [group; key] = Some v.
Proof.
  unfold resolves. intros H Hsplit. rewrite Hsplit in H.
  apply bool_decide_eq_true in H. by destruct H as [v Hv]; exists v.
Qed.

Lemma export_rank_run pindex w :
  exists env, export_rank pindex w =
                (Ok (), {| store := store w; environ := env; trace := trace w |}).
Proof.
  unfold export_rank, os_getenv, os_setenv, mbind, M_bind.
  destruct (decide _).
  - by eexists.
  - exists (environ w). by destruct w.
Qed.

Lemma export_rank_spec pindex w P :
  run_spec (export_rank pindex) w P (fun _ => True).
Proof.
  destruct (export_rank_run pindex w) as [env E]. unfold run_spec. rewrite E. cbn.
  split; [done |]. split; [| done]. exists []. by rewrite app_nil_r.
Qed.

Lemma restore_model_run fw learn pindex name w :
  restore_model fw learn pindex (Some name) w =
    let c := learn_load learn (strip_pth name) false in
    match respond fw (trace w) c with
    | Ok o =>
        (Ok (Proceed (resume_epoch (strip_pth name))),
         log w ((c, Ok o) ::
                if pindex =? 0
                then [(print (loaded_model (strip_pth name)), Ok (Data VNone))]
                else []))
    | Raise FileNotFoundError =>
        (Ok Returned,
         log w ((c, Raise FileNotFoundError) ::
                if pindex =? 0
                then [(print (not_found (fmt fw (store w) (attr fw learn "model_dir"))
                                (strip_pth name)), Ok (Data VNone))]
                else []))
    | Raise e => (Raise e, log w [(c, Raise e)])
    end.
Proof.
  unfold restore_model, try_except, invoke_, invoke, record, format, reading, log,
    mbind, M_bind, mret, M_ret. cbn.
  destruct (respond fw (trace w) _) as [o | e]; cbn.
  - destruct (pindex =? 0); cbn; [by rewrite <- app_assoc | done].
  - destruct e; cbn; try done.
    destruct (pindex =? 0); cbn; [by rewrite <- app_assoc | done].
Qed.

Lemma register_callbacks_run fw learn w :
  register_callbacks fw learn w =
    let c := SaveModelCallback learn "epoch" "model" in
    match respond fw (trace w) c with
    | Ok callback =>
        (Ok (), log w [(c, Ok callback);
                       (set_callbacks learn [callback], Ok (Data VNone))])
    | Raise e => (Raise e, log w [(c, Raise e)])
    end.
Proof.
  unfold register_callbacks, invoke, record, log, mbind, M_bind. cbn.
  destruct (respond fw (trace w) _); cbn; [by rewrite <- app_assoc | done].
Qed.

Lemma fit_schedule_run fw params learn epoch w :
  match first_unresolved (store w) params optim_params with
  | Some param =>
      fit_schedule fw params learn epoch w = (Raise (ValueError (not_supplied param)), w)
  | None =>
      exists epochs lr,
        resolve (store w) params ["optim"; "epochs"] = Some epochs
        /\ resolve (store w) params ["optim"; "lr"] = Some lr
        /\ fit_schedule fw params learn epoch w =
             let c := fit_one_cycle learn epochs lr epochs epoch in
             (match respond fw (trace w) c with
              | Ok _ => Ok ()
              | Raise e => Raise e
              end, log w [(c, respond fw (trace w) c)])
  end.
Proof.
  unfold fit_schedule.
  destruct (first_unresolved (store w) params optim_params) as [param |] eqn:E.
  - apply bind_raise. by rewrite check_params_run, E.
  - pose proof (proj1 (first_unresolved_none _ _ _) E) as Hall.
    destruct (resolves_spec (store w) params "optim" "epochs") as [epochs He];
      [apply Hall, list_elem_of_In; cbn; tauto | done |].
    destruct (resolves_spec (store w) params "optim" "lr") as [lr Hl];
      [apply Hall, list_elem_of_In; cbn; tauto | done |].
    exists epochs, lr. split; [done |]. split; [done |].
    erewrite bind_ok; [| by rewrite check_params_run, E].
    erewrite bind_ok by (by apply getitem2_run).
    erewrite bind_ok by (by apply getitem2_run).
    erewrite bind_ok by (by apply getitem2_run).
    unfold invoke_, invoke, log, mbind, M_bind. cbn.
    by destruct (respond fw (trace w) _).
Qed.

Lemma run_spec_log {A} (m : M A) w r evs (P : entry -> Prop) (Q : A -> Prop) :
  m w = (r, log w evs) -> Forall P evs -> (forall a, r = Ok a -> Q a) ->
  run_spec m w P Q.
Proof.
  intros E HP HQ. unfold run_spec. rewrite E. cbn.
  split; [done |]. split; [by exists evs | done].
Qed.

Lemma restore_model_spec fw learn pindex restore w (P : entry -> Prop) :
  (forall name r, restore = Some name ->
                  P (learn_load learn (strip_pth name) false, r)) ->
  (forall msg, P (print msg, Ok (Data VNone))) ->
  run_spec (restore_model fw learn pindex restore) w P
    (fun after =>
       match after with
       | Proceed epoch =>
           epoch = start_epoch_arg restore
           /\ forall name, restore = Some name ->
                exists o, respond fw (trace w) (learn_load learn (strip_pth name) false)
                          = Ok o
       | Returned =>
           exists name, restore = Some name
             /\ respond fw (trace w) (learn_load learn (strip_pth name) false)
                = Raise FileNotFoundError
       end).
Proof.
  intros Hload Hprint. destruct restore as [name |].
  - pose proof (restore_model_run fw learn pindex name w) as E. cbn zeta in E.
    destruct (respond fw (trace w) _) as [o | e] eqn:Er.
    + eapply run_spec_log; [exact E | |].
      * constructor; [by apply Hload |]. destruct (pindex =? 0); by repeat constructor.
      * intros ? [= <-]. split; [done |]. intros ? [= <-]. by exists o.
    + destruct e; try (eapply run_spec_log;
        [exact E | constructor; [by apply Hload | constructor] | done]).
      eapply run_spec_log; [exact E | |].
      * constructor; [by apply Hload |]. destruct (pindex =? 0); by repeat constructor.
      * intros ? [= <-]. by exists name.
  - apply spec_ret. split; [done |]. done.
Qed.

Lemma register_callbacks_spec fw learn w (P : entry -> Prop) :
  (forall r, P (SaveModelCallback learn "epoch" "model", r)) ->
  (forall callback, P (set_callbacks learn [callback], Ok (Data VNone))) ->
  run_spec (register_callbacks fw learn) w P (fun _ => True).
Proof.
  intros Hcb Hset.
  pose proof (register_callbacks_run fw learn w) as E. cbn zeta in E.
  destruct (respond fw (trace w) _) as [callback | e];
    (eapply run_spec_log; [exact E | | done]); by repeat constructor.
Qed.

Lemma fit_schedule_spec fw params learn epoch w (P : entry -> Prop) :
  (forall epochs lr r,
     resolve (store w) params ["optim"; "epochs"] = Some epochs ->
     resolve (store w) params ["optim"; "lr"] = Some lr ->
     P (fit_one_cycle learn epochs lr epochs epoch, r)) ->
  run_spec (fit_schedule fw params learn epoch) w P (fun _ => True).
Proof.
  intros Hfit. pose proof (fit_schedule_run fw params learn epoch w) as E.
  destruct (first_unresolved (store w) params optim_params) as [param |].
  - unfold run_spec. rewrite E. cbn. split; [done |]. split; [| done].
    exists []. by rewrite app_nil_r.
  - destruct E as (epochs & lr & He & Hl & E). cbn zeta in E.
    eapply run_spec_log; [exact E | | done].
    constructor; [by apply Hfit | constructor].
Qed.

(** The entries of a run of [train_worker], block by block. *)
Lemma train_worker_spec fw pindex project_dir params comm_file checkpoint restore w
    (P : entry -> Prop) :
  (forall c r, build_call c = true -> P (c, r)) ->
  (forall learn name r, restore = Some name ->
                        P (learn_load learn (strip_pth name) false, r)) ->
  (forall msg, P (print msg, Ok (Data VNone))) ->
  (forall learn r, P (SaveModelCallback learn "epoch" "model", r)) ->
  (forall learn callback, P (set_callbacks learn [callback], Ok (Data VNone))) ->
  (forall learn epochs lr r,
     resolve (store w) params ["optim"; "epochs"] = Some epochs ->
     resolve (store w) params ["optim"; "lr"] = Some lr ->
     (forall name, restore = Some name ->
        exists hist o, respond fw hist (learn_load learn (strip_pth name) false) = Ok o) ->
     P (fit_one_cycle learn epochs lr epochs (start_epoch_arg restore), r)) ->
  run_spec (train_worker fw pindex project_dir params comm_file checkpoint restore) w
    P (fun _ => True).
Proof.
  intros Hbuild Hload Hprint Hcb Hset Hfit. unfold train_worker.
  eapply spec_bind; [apply export_rank_spec |].
  spec_intro ipattern:([]) Hr. clear Hr.
  eapply spec_bind.
  { eapply spec_conseq; [apply build_learner_calls | | done].
    intros [c r] Hc. by apply Hbuild. }
  spec_intro learn Hl. clear Hl.
  eapply spec_bind; [apply restore_model_spec; [by apply Hload | done] |].
  spec_intro after Hafter.
  destruct after as [epoch |]; [| by apply spec_ret].
  destruct Hafter as [-> Hok].
  eapply spec_bind; [by apply register_callbacks_spec |].
  spec_intro ipattern:([]) Hreg. clear Hreg.
  apply fit_schedule_spec. intros epochs lr r He Hlr. store_root.
  apply Hfit; [done | done |].
  intros name Hname. destruct (Hok name Hname) as [o Ho]. by eexists _, o.
Qed.

(** ** A checkpoint that does not exist *)

Lemma train_worker_after_build fw pindex project_dir params comm_file checkpoint
    restore w learn w1 :
  build_learner fw params project_dir pindex comm_file (export_rank pindex w).2
  = (Ok learn, w1) ->
  store w1 = store w
  /\ train_worker fw pindex project_dir params comm_file checkpoint restore w
     = (after ← restore_model fw learn pindex restore;
        match after with
        | Returned => mret ()
        | Proceed epoch =>
            register_callbacks fw learn;; fit_schedule fw params learn epoch
        end) w1.
Proof.
  intros Hbuild. destruct (export_rank_run pindex w) as [env E].
  rewrite E in Hbuild. cbn [snd] in Hbuild. split.
  - by rewrite (run_spec_store _ _ _ _ _ _ (build_learner_calls _ _ _ _ _ _) Hbuild).
  - unfold train_worker. erewrite bind_ok by exact E. by erewrite bind_ok by exact Hbuild.
Qed.

(** C2: when [restore] names a checkpoint that does not exist,
    [train_worker] never calls [fit_one_cycle]; and once the learner is
    built, the [FileNotFoundError] of the load is caught, the worker of
    rank 0 prints that the file was not found (the others print nothing),
    and [train_worker] returns. *)
Theorem train_worker_returns_when_checkpoint_missing
    fw pindex project_dir params comm_file checkpoint name (w : world) :
  checkpoint_missing fw (strip_pth name) ->
  Forall (fun e => is_fit e.1 = false)
    (events_of (train_worker fw pindex project_dir params comm_file checkpoint
                  (Some name)) w)
  /\ forall learn w1,
       build_learner fw params project_dir pindex comm_file (export_rank pindex w).2
       = (Ok learn, w1) ->
       train_worker fw pindex project_dir params comm_file checkpoint (Some name) w
       = (Ok (),
          log w1
            ((learn_load learn (strip_pth name) false, Raise FileNotFoundError) ::
             if pindex =? 0
             then [(print (not_found (fmt fw (store w) (attr fw learn "model_dir"))
                             (strip_pth name)), Ok (Data VNone))]
             else [])).
Proof.
  intros Hmissing. split.
  - eapply spec_events with (Q := fun _ => True). apply train_worker_spec.
    + intros c r Hc. by destruct c.
    + done.
    + done.
    + done.
    + done.
    + intros learn epochs lr r _ _ Hok.
      destruct (Hok name eq_refl) as (hist & o & Ho).
      rewrite Hmissing in Ho. done.
  - intros learn w1 Hbuild.
    destruct (train_worker_after_build fw pindex project_dir params comm_file
                checkpoint (Some name) w learn w1 Hbuild) as [Hs ->].
    pose proof (restore_model_run fw learn pindex name w1) as E. cbn zeta in E.
    rewrite Hmissing, Hs in E. by erewrite bind_ok by exact E.
Qed.

Lemma train_worker_returns_when_checkpoint_missing_witness :
  train_worker (Demo.fw true false) 0 "/p" Demo.params VNone VNone
    (Some "model_3.pth") (Demo.start Demo.cpu_only)
  = (Ok (),
     log (build_learner (Demo.fw true false) Demo.params "/p" 0 VNone
            (export_rank 0 (Demo.start Demo.cpu_only)).2).2
       [(learn_load (Opaque 6) "model_3" false, Raise FileNotFoundError);
        (print "The model file model_dir/model_3.pth was not found!",
         Ok (Data VNone))]).
Proof.
  destruct (train_worker_returns_when_checkpoint_missing (Demo.fw true false) 0
              "/p" Demo.params VNone VNone "model_3.pth" (Demo.start Demo.cpu_only))
    as [_ Hrun].
  - intros hist learn purge. reflexivity.
  - erewrite Hrun; [| vm_compute; reflexivity]. vm_compute. reflexivity.
Defined.

(** ** The one-cycle schedule *)

(** C5: with [optim.epochs] and [optim.lr] in the configuration, every
    call of [fit_one_cycle] that [train_worker] makes has the configured
    number of epochs (also as total), the configured learning rate and the
    start epoch of the restored checkpoint, [None] without one; and once
    the learner is built, the checkpoint restored if one is named, and the
    callback registered, this call is what [train_worker] does, and its
    outcome is the outcome of [train_worker]. *)
Theorem train_worker_fits_one_cycle
    fw pindex project_dir params comm_file checkpoint restore (w : world) :
  first_unresolved (store w) params optim_params = None ->
  exists epochs lr,
    resolve (store w) params ["optim"; "epochs"] = Some epochs
    /\ resolve (store w) params ["optim"; "lr"] = Some lr
    /\ Forall (fun e => exists learn,
                 e.1 = fit_one_cycle learn epochs lr epochs (start_epoch_arg restore))
         (calls_of is_fit
            (events_of (train_worker fw pindex project_dir params comm_file
                          checkpoint restore) w))
    /\ start_epoch_arg None = VNone
    /\ forall learn w1 epoch w2 w3,
         build_learner fw params project_dir pindex comm_file (export_rank pindex w).2
         = (Ok learn, w1) ->
         restore_model fw learn pindex restore w1 = (Ok (Proceed epoch), w2) ->
         register_callbacks fw learn w2 = (Ok (), w3) ->
         epoch = start_epoch_arg restore
         /\ train_worker fw pindex project_dir params comm_file checkpoint restore w
            = let c := fit_one_cycle learn epochs lr epochs epoch in
              (match respond fw (trace w3) c with
               | Ok _ => Ok ()
               | Raise e => Raise e
               end, log w3 [(c, respond fw (trace w3) c)]).
Proof.
  intros Hoptim.
  pose proof (proj1 (first_unresolved_none _ _ _) Hoptim) as Hall.
  destruct (resolves_spec (store w) params "optim" "epochs") as [epochs He];
    [apply Hall, list_elem_of_In; cbn; tauto | done |].
  destruct (resolves_spec (store w) params "optim" "lr") as [lr Hl];
    [apply Hall, list_elem_of_In; cbn; tauto | done |].
  exists epochs, lr. split; [done |]. split; [done |].
  split; [| split; [done |]].
  - apply Forall_calls_of.
    eapply spec_events with (Q := fun _ => True). apply train_worker_spec.
    + intros c r Hc Hf. by destruct c.
    + done.
    + done.
    + done.
    + done.
    + intros learn epochs' lr' r He' Hl' _ _.
      rewrite He in He'. rewrite Hl in Hl'.
      injection He' as <-. injection Hl' as <-. by exists learn.
  - intros learn w1 epoch w2 w3 Hbuild Hrestore Hreg.
    destruct (train_worker_after_build fw pindex project_dir params comm_file
                checkpoint restore w learn w1 Hbuild) as [Hs1 ->].
    destruct (restore_model_spec fw learn pindex restore w1 (fun _ => True))
      as (Hs2 & _ & Hq); [done | done |].
    rewrite Hrestore in Hs2, Hq. cbn in Hs2. destruct (Hq _ eq_refl) as [-> _].
    split; [done |].
    erewrite bind_ok by exact Hrestore. cbv beta iota.
    erewrite bind_ok by exact Hreg.
    assert (store w3 = store w) as Hs3.
    { transitivity (store w2); [| congruence].
      eapply run_spec_store; [| exact Hreg].
      by apply register_callbacks_spec with (P := fun _ => True). }
    pose proof (fit_schedule_run fw params learn (start_epoch_arg restore) w3) as E.
    rewrite Hs3, Hoptim in E. destruct E as (epochs' & lr' & He' & Hl' & E).
    rewrite He in He'. rewrite Hl in Hl'.
    injection He' as <-. injection Hl' as <-. exact E.
Qed.

Lemma train_worker_fits_one_cycle_witness :
  (train_worker (Demo.fw true true) 0 "/p" Demo.params VNone VNone
     (Some "run/model_3.pth") (Demo.start Demo.cpu_only)).1 = Ok ()
  /\ last (trace (train_worker (Demo.fw true true) 0 "/p" Demo.params VNone VNone
                    (Some "run/model_3.pth") (Demo.start Demo.cpu_only)).2)
     = Some (fit_one_cycle (Opaque 6) (VInt 3) (VFloat 4562254508917369340)
               (VInt 3) (VInt 4), Ok (Opaque 11)).
Proof.
  destruct (train_worker_fits_one_cycle (Demo.fw true true) 0 "/p" Demo.params
              VNone VNone (Some "run/model_3.pth") (Demo.start Demo.cpu_only))
    as (epochs & lr & He & Hl & _ & _ & Hrun).
  - vm_compute; reflexivity.
  - vm_compute in He. vm_compute in Hl. injection He as <-. injection Hl as <-.
    edestruct Hrun as [_ ->];
      [vm_compute; reflexivity | vm_compute; reflexivity | vm_compute; reflexivity |].
    split; vm_compute; reflexivity.
Defined.

(** ** The [checkpoint] argument and the callbacks *)

Lemma run_spec_trace {A} (m : M A) w P Q r w' :
  run_spec m w P Q -> m w = (r, w') ->
  exists evs, trace w' = trace w ++ evs /\ Forall P evs.
Proof. intros (_ & Ht & _) E. by rewrite E in Ht. Qed.

(** C8: [train_worker] does the same whatever [checkpoint] is, and the
    calls that concern callbacks are these only: once the learner is built
    and the restore block lets the function go on, one
    [SaveModelCallback(learn, every='epoch', name='model')] is constructed
    and, if that returns, registered alone as the callbacks of the
    learner. *)
Theorem train_worker_ignores_checkpoint
    fw pindex project_dir params comm_file restore checkpoint checkpoint' (w : world) :
  train_worker fw pindex project_dir params comm_file checkpoint restore w
  = train_worker fw pindex project_dir params comm_file checkpoint' restore w
  /\ calls_of is_callback_call
       (events_of (train_worker fw pindex project_dir params comm_file checkpoint
                     restore) w)
     = match build_learner fw params project_dir pindex comm_file
               (export_rank pindex w).2 with
       | (Ok learn, w1) =>
           match restore_model fw learn pindex restore w1 with
           | (Ok (Proceed _), w2) =>
               let c := SaveModelCallback learn "epoch" "model" in
               match respond fw (trace w2) c with
               | Ok callback =>
                   [(c, Ok callback); (set_callbacks learn [callback], Ok (Data VNone))]
               | Raise e => [(c, Raise e)]
               end
           | _ => []
           end
       | (Raise _, _) => []
       end.
Proof.
  split; [done |].
  destruct (export_rank_run pindex w) as [env Erank].
  set (w0 := {| store := store w; environ := env; trace := trace w |}) in *.
  rewrite Erank. cbn [snd].
  destruct (build_learner fw params project_dir pindex comm_file w0)
    as [[learn | e] w1] eqn:Ebuild.
  - destruct (run_spec_trace _ _ _ _ _ _ (build_learner_calls _ _ _ _ _ _) Ebuild)
      as (evs1 & Ht1 & Hp1).
    assert (calls_of is_callback_call evs1 = []) as Hc1.
    { apply calls_of_none. eapply Forall_impl; [exact Hp1 |].
      intros [c r] Hc. by destruct c. }
    cbn [trace w0] in Ht1.
    unfold train_worker, events_of.
    erewrite bind_ok by exact Erank. erewrite bind_ok by exact Ebuild.
    destruct (restore_model fw learn pindex restore w1) as [[after | e] w2] eqn:Erest.
    + assert (exists evs2, trace w2 = trace w1 ++ evs2
                           /\ calls_of is_callback_call evs2 = []) as (evs2 & Ht2 & Hc2).
      { destruct (run_spec_trace _ _ _ _ _ _
                    (restore_model_spec fw learn pindex restore w1
                       (fun e => is_callback_call e.1 = false)
                       ltac:(done) ltac:(done)) Erest) as (evs2 & Ht2 & Hp2).
        exists evs2. split; [done |]. by apply calls_of_none. }
      erewrite bind_ok by exact Erest.
      destruct after as [epoch |].
      * pose proof (register_callbacks_run fw learn w2) as Ereg. cbn zeta in *.
        destruct (respond fw (trace w2) _) as [callback | e] eqn:Ecb.
        -- erewrite bind_ok by exact Ereg.
           destruct (fit_schedule_spec fw params learn epoch
                       (log w2 [(SaveModelCallback learn "epoch" "model", Ok callback);
                                (set_callbacks learn [callback], Ok (Data VNone))])
                       (fun e => is_callback_call e.1 = false))
             as (_ & (evs4 & Ht4 & Hp4) & _); [done |].
           rewrite Ht4. cbn [trace log]. rewrite Ht2, Ht1, <- !app_assoc.
           rewrite drop_app_length, !calls_of_app, Hc1, Hc2.
           by rewrite (calls_of_none _ _ Hp4).
        -- erewrite bind_raise by exact Ereg.
           cbn [snd trace log]. rewrite Ht2, Ht1, <- !app_assoc.
           by rewrite drop_app_length, !calls_of_app, Hc1, Hc2.
      * cbn. rewrite Ht2, Ht1, <- !app_assoc.
        by rewrite drop_app_length, !calls_of_app, Hc1, Hc2.
    + assert (exists evs2, trace w2 = trace w1 ++ evs2
                           /\ calls_of is_callback_call evs2 = []) as (evs2 & Ht2 & Hc2).
      { destruct (run_spec_trace _ _ _ _ _ _
                    (restore_model_spec fw learn pindex restore w1
                       (fun e => is_callback_call e.1 = false)
                       ltac:(done) ltac:(done)) Erest) as (evs2 & Ht2 & Hp2).
        exists evs2. split; [done |]. by apply calls_of_none. }
      erewrite bind_raise by exact Erest.
      cbn. rewrite Ht2, Ht1, <- !app_assoc.
      by rewrite drop_app_length, !calls_of_app, Hc1, Hc2.
  - destruct (run_spec_trace _ _ _ _ _ _ (build_learner_calls _ _ _ _ _ _) Ebuild)
      as (evs1 & Ht1 & Hp1).
    cbn [trace w0] in Ht1. unfold train_worker, events_of.
    erewrite bind_ok by exact Erank. erewrite bind_raise by exact Ebuild.
    cbn. rewrite Ht1, drop_app_length. apply calls_of_none.
    eapply Forall_impl; [exact Hp1 |]. intros [c r] Hc. by destruct c.
Qed.

(** ** The start epoch read off the name of the checkpoint *)

Lemma substring_prefix_add s : forall k n,
  substring 0 k s +:+ substring k n s = substring 0 (k + n) s.
Proof.
  induction s as [| c s IH]; intros k n.
  - by destruct k, n.
  - destruct k as [| k]; [by destruct n |].
    simpl. rewrite <- IH. reflexivity.
Qed.

Lemma substring_prefix_all s : forall m,
  (String.length s <= m)%nat -> substring 0 m s = s.
Proof.
  induction s as [| c s IH]; intros m Hm; [by destruct m |].
  destruct m as [| m]; cbn in *; [lia |]. rewrite IH; [done | lia].
Qed.

Lemma string_length_app a b :
  String.length (a +:+ b) = (String.length a + String.length b)%nat.
Proof.
  induction a as [| c a IH]; [done |].
  change (S (String.length (a +:+ b)) = S (String.length a + String.length b)).
  by rewrite IH.
Qed.

Lemma substring_app_prefix a b : substring 0 (String.length a) (a +:+ b) = a.
Proof.
  induction a as [| c a IH]; [by destruct b |].
  change (String c (substring 0 (String.length a) (a +:+ b)) = String c a).
  by rewrite IH.
Qed.

Lemma substring_app_suffix a b :
  substring (String.length a) (String.length b) (a +:+ b) = b.
Proof.
  induction a as [| c a IH]; [by apply substring_prefix_all |].
  exact IH.
Qed.

Lemma strip_pth_extension stem : strip_pth (stem +:+ ".pth") = stem.
Proof.
  unfold strip_pth, PyStr.last_chars, PyStr.drop_last_chars.
  rewrite string_length_app. cbn [String.length].
  replace (String.length stem + 4 - 4)%nat with (String.length stem) by lia.
  pose proof (substring_app_suffix stem ".pth") as Hsuffix.
  cbn [String.length] in Hsuffix. rewrite Hsuffix, substring_app_prefix. done.
Qed.

Lemma strip_pth_other name :
  (forall stem, name <> stem +:+ ".pth") -> strip_pth name = name.
Proof.
  intros Hno. unfold strip_pth.
  destruct (String.eqb (PyStr.last_chars 4 name) ".pth") eqn:E; [| done].
  apply String.eqb_eq in E. exfalso. apply (Hno (PyStr.drop_last_chars 4 name)).
  rewrite <- E. unfold PyStr.drop_last_chars, PyStr.last_chars.
  rewrite substring_prefix_add, substring_prefix_all; [done | lia].
Qed.

Lemma resume_epoch_spec name :
  resume_epoch name = epoch_value (start_epoch_of name).
Proof.
  unfold resume_epoch, start_epoch_of.
  destruct (PyStr.split "_" _) as [| first [| second rest]]; try done.
  cbn. destruct (PyStr.to_int second); cbn; [| done].
  by rewrite Z.add_1_r.
Qed.

(** A run in which the checkpoint loads, from the built learner to the
    schedule. *)
Lemma train_worker_loaded_run fw pindex project_dir params comm_file checkpoint name
    (w : world) learn w1 o w3 :
  build_learner fw params project_dir pindex comm_file (export_rank pindex w).2
  = (Ok learn, w1) ->
  respond fw (trace w1) (learn_load learn (strip_pth name) false) = Ok o ->
  register_callbacks fw learn
    (log w1 ((learn_load learn (strip_pth name) false, Ok o)
             :: if pindex =? 0
                then [(print (loaded_model (strip_pth name)), Ok (Data VNone))]
                else []))
  = (Ok (), w3) ->
  first_unresolved (store w) params optim_params = None ->
  exists epochs lr,
    resolve (store w) params ["optim"; "epochs"] = Some epochs
    /\ resolve (store w) params ["optim"; "lr"] = Some lr
    /\ train_worker fw pindex project_dir params comm_file checkpoint (Some name) w
       = let c := fit_one_cycle learn epochs lr epochs
                    (resume_epoch (strip_pth name)) in
         (match respond fw (trace w3) c with
          | Ok _ => Ok ()
          | Raise e => Raise e
          end, log w3 [(c, respond fw (trace w3) c)]).
Proof.
  intros Hbuild Hload Hreg Hoptim.
  destruct (train_worker_after_build fw pindex project_dir params comm_file
              checkpoint (Some name) w learn w1 Hbuild) as [Hs1 ->].
  pose proof (restore_model_run fw learn pindex name w1) as Hrestore.
  cbn zeta in Hrestore. rewrite Hload in Hrestore.
  erewrite bind_ok by exact Hrestore. cbv beta iota.
  erewrite bind_ok by exact Hreg.
  assert (store w3 = store w) as Hs3.
  { rewrite <- Hs1.
    erewrite (run_spec_store (register_callbacks fw learn)); [| | exact Hreg];
      [done |].
    by apply register_callbacks_spec with (P := fun _ => True). }
  pose proof (fit_schedule_run fw params learn (resume_epoch (strip_pth name)) w3)
    as E.
  rewrite Hs3, Hoptim in E. exact E.
Qed.

(** C10: for a file name given as [restore], the extension [.pth] is
    removed if the name ends with it, and the start epoch that the code
    computes from the name is the one the specification describes: from
    the last component of the path, cut at underscores, [n + 1] when there
    are two fields at least and [int] reads the second as [n], and [None]
    otherwise.  That epoch is the start epoch of every call of
    [fit_one_cycle], and in a run in which the learner is built, the
    checkpoint loads and the callback is registered, [train_worker] loads
    the name without its extension and ends with [fit_one_cycle] from that
    epoch. *)
Theorem train_worker_resumes_after_epoch_of_name
    fw pindex project_dir params comm_file checkpoint name (w : world) :
  (forall stem, strip_pth (stem +:+ ".pth") = stem)
  /\ ((forall stem, name <> stem +:+ ".pth") -> strip_pth name = name)
  /\ resume_epoch (strip_pth name) = epoch_value (start_epoch_of (strip_pth name))
  /\ Forall (fun e => exists learn epochs lr tot_epochs,
               e.1 = fit_one_cycle learn epochs lr tot_epochs
                       (epoch_value (start_epoch_of (strip_pth name))))
       (calls_of is_fit
          (events_of (train_worker fw pindex project_dir params comm_file
                        checkpoint (Some name)) w))
  /\ (forall learn w1 o w3,
        build_learner fw params project_dir pindex comm_file (export_rank pindex w).2
        = (Ok learn, w1) ->
        respond fw (trace w1) (learn_load learn (strip_pth name) false) = Ok o ->
        register_callbacks fw learn
          (log w1 ((learn_load learn (strip_pth name) false, Ok o)
                   :: if pindex =? 0
                      then [(print (loaded_model (strip_pth name)), Ok (Data VNone))]
                      else []))
        = (Ok (), w3) ->
        first_unresolved (store w) params optim_params = None ->
        exists epochs lr,
          resolve (store w) params ["optim"; "epochs"] = Some epochs
          /\ resolve (store w) params ["optim"; "lr"] = Some lr
          /\ train_worker fw pindex project_dir params comm_file checkpoint
               (Some name) w
             = let c := fit_one_cycle learn epochs lr epochs
                          (epoch_value (start_epoch_of (strip_pth name))) in
               (match respond fw (trace w3) c with
                | Ok _ => Ok ()
                | Raise e => Raise e
                end, log w3 [(c, respond fw (trace w3) c)]))
  /\ (forall fields,
        PyStr.split "_" (PyStr.last_field (PyStr.split "/" (strip_pth name))) = fields ->
        (forall n, (2 <= length fields)%nat ->
                   PyStr.to_int (nth 1 fields "") = Some n ->
                   start_epoch_of (strip_pth name) = Some (n + 1)
                   /\ resume_epoch (strip_pth name) = VInt (n + 1))
        /\ ((length fields < 2)%nat \/ PyStr.to_int (nth 1 fields "") = None ->
            start_epoch_of (strip_pth name) = None
            /\ resume_epoch (strip_pth name) = VNone)).
Proof.
  split; [apply strip_pth_extension |].
  split; [apply strip_pth_other |].
  split; [apply resume_epoch_spec |].
  split; [| split].
  - apply Forall_calls_of.
    eapply spec_events with (Q := fun _ => True). apply train_worker_spec.
    + intros c r Hc Hf. by destruct c.
    + done.
    + done.
    + done.
    + done.
    + intros learn epochs lr r _ _ _ _. cbn. rewrite resume_epoch_spec.
      by exists learn, epochs, lr, epochs.
  - intros learn w1 o w3 Hbuild Hload Hreg Hoptim.
    rewrite <- resume_epoch_spec.
    by eapply train_worker_loaded_run.
  - intros fields Hfields. rewrite resume_epoch_spec.
    unfold start_epoch_of. rewrite Hfields.
    split.
    + intros n Hlen Hint. destruct fields as [| first [| second rest]]; cbn in *;
        [lia | lia |].
      rewrite Hint. cbn. by rewrite Z.add_1_r.
    + intros [Hlen | Hint].
      * destruct fields as [| first [| second rest]]; cbn in *; [done | done | lia].
      * destruct fields as [| first [| second rest]]; cbn in *; [done | done |].
        by rewrite Hint.
Qed.

Lemma train_worker_resumes_after_epoch_of_name_witness :
  strip_pth "run/model_41.pth" = "run/model_41"
  /\ resume_epoch (strip_pth "run/model_41.pth") = VInt 42
  /\ train_worker (Demo.fw true true) 0 "/p" Demo.params VNone VNone
       (Some "run/model_41.pth") (Demo.start Demo.cpu_only)
     = (Ok (),
        log {| store := Demo.cpu_only; environ := {["RANK" := "0"]}; trace := [] |}
          [(os_makedirs "/p/model/m", Ok (Opaque 0));
           (torch_device (VStr "cpu"), Ok (Opaque 1));
           (PervasiveDataLoader "/corpus/de.infos" "/corpus/de.h5" "/corpus/en.infos"
              "/corpus/en.h5" (VInt 64) (VInt 50) "m" (VInt 1000) (VInt 100)
              (VInt 100) false, Ok (Opaque 2));
           (Pervasive "m" (Data (VStr "src_vocab")) (Data (VStr "tgt_vocab"))
              (VRef 8%positive) (VInt 52) (VInt 52) (VInt 128) (VInt 128) (VInt 0)
              (VInt 0) (VInt 0) (VInt 0) (VInt 2) (VInt 32) (VBool true)
              (VBool false), Ok (Opaque 3));
           (init_weights (Opaque 3), Ok (Opaque 4));
           (DataBunch (Data (VStr "train")) (Data (VStr "val")) (Data (VStr "test"))
              (Opaque 1), Ok (Opaque 5));
           (Learner (Opaque 5) (Opaque 3) "cross_entropy" "/p/model/m",
            Ok (Opaque 6));
           (learn_load (Opaque 6) "run/model_41" false, Ok (Data VNone));
           (print "Loaded model run/model_41.", Ok (Data VNone));
           (SaveModelCallback (Opaque 6) "epoch" "model", Ok (Opaque 9));
           (set_callbacks (Opaque 6) [Opaque 9], Ok (Data VNone));
           (fit_one_cycle (Opaque 6) (VInt 3) (VFloat 4562254508917369340) (VInt 3)
              (VInt 42), Ok (Opaque 11))])
  /\ resume_epoch (strip_pth "best") = VNone
  /\ resume_epoch (strip_pth "model_best.pth") = VNone.
Proof.
  destruct (train_worker_resumes_after_epoch_of_name (Demo.fw true true) 0 "/p"
              Demo.params VNone VNone "run/model_41.pth" (Demo.start Demo.cpu_only))
    as (Hstrip & _ & _ & _ & Hrun & Hepoch).
  split; [apply (Hstrip "run/model_41") |].
  split.
  { destruct (Hepoch _ eq_refl) as [Hsome _].
    apply (Hsome 41); [vm_compute; lia | vm_compute; reflexivity]. }
  split; [| split; vm_compute; reflexivity].
  edestruct Hrun as (epochs & lr & He & Hl & ->);
    [vm_compute; reflexivity | vm_compute; reflexivity | vm_compute; reflexivity
    | vm_compute; reflexivity |].
  vm_compute in He. vm_compute in Hl. injection He as <-. injection Hl as <-.
  vm_compute. reflexivity.
Defined.

(** ** The program on the concrete configuration *)

Example two_gpus_run :
  calls_of is_init_process_group
    (events_of (build_learner (Demo.fw true true) Demo.params "/p" 1
                  (VStr "/tmp/comm")) (Demo.start Demo.two_gpus))
  = [(init_process_group "nccl" 2 1 "file:///tmp/comm", Ok (Opaque 4))]
  /\ (loader_batch_size ∘ fst) <$>
       calls_of is_loader
         (events_of (build_learner (Demo.fw true true) Demo.params "/p" 1
                       (VStr "/tmp/comm")) (Demo.start Demo.two_gpus))
     = [Some (VInt 32)].
Proof. split; vm_compute; reflexivity. Qed.

Example cpu_only_run :
  calls_of is_init_process_group
    (events_of (build_learner (Demo.fw false true) Demo.params "/p" 0 VNone)
       (Demo.start Demo.cpu_only)) = []
  /\ (loader_batch_size ∘ fst) <$>
       calls_of is_loader
         (events_of (build_learner (Demo.fw false true) Demo.params "/p" 0 VNone)
            (Demo.start Demo.cpu_only))
     = [Some (VInt 64)]
  /\ is_raise (build_learner (Demo.fw false true) Demo.params "/p" 0 VNone
                 (Demo.start Demo.cpu_only)).1 = false.
Proof. repeat split; vm_compute; reflexivity. Qed.

Example train_worker_run :
  environ (train_worker (Demo.fw true true) 3 "/p" Demo.params VNone VNone None
             (Demo.start Demo.two_gpus)).2 !! "RANK" = Some "3"
  /\ calls_of is_fit
       (events_of (train_worker (Demo.fw true true) 1 "/p" Demo.params VNone VNone
                     None) (Demo.start Demo.two_gpus))
     = [(fit_one_cycle (Opaque 12) (VInt 3) (VFloat 4562254508917369340) (VInt 3)
           VNone, Ok (Opaque 15))].
Proof. split; vm_compute; reflexivity. Qed.

(** * Further properties of the code *)

(** ** Rules for runs that return *)

Lemma log_nil w : log w [] = w.
Proof. destruct w. unfold log. cbn. by rewrite app_nil_r. Qed.

Lemma log_log w evs evs' : log (log w evs) evs' = log w (evs ++ evs').
Proof. unfold log. cbn. by rewrite app_assoc. Qed.

Lemma returns_ret {A} (a : A) w (Q : A -> list entry -> Prop) :
  Q a [] -> returns (mret a) w Q.
Proof. intros H. exists a, []. split; [| done]. unfold runs. by rewrite log_nil. Qed.

Lemma returns_bind {A B} (m : M A) (k : A -> M B) w (Q : B -> list entry -> Prop) :
  returns m w (fun a evs =>
                 returns (k a) (log w evs) (fun b evs' => Q b (evs ++ evs'))) ->
  returns (m ≫= k) w Q.
Proof.
  intros (a & evs & Hm & b & evs' & Hk & HQ).
  exists b, (evs ++ evs'). split; [| done].
  unfold runs in *. erewrite bind_ok by exact Hm. by rewrite Hk, log_log.
Qed.

Lemma returns_reading {A} (f : heap -> result A) w (Q : A -> list entry -> Prop) a :
  f (store w) = Ok a -> Q a [] -> returns (reading f) w Q.
Proof.
  intros Hf HQ. exists a, []. split; [| done].
  unfold runs, reading. by rewrite Hf, log_nil.
Qed.

Lemma returns_getitem params key w (Q : value -> list entry -> Prop) v :
  Py.subscript (store w) params key = Ok v -> Q v [] ->
  returns (getitem params key) w Q.
Proof. intros Hv HQ. by eapply (returns_reading (fun h => Py.subscript h params key)). Qed.

Lemma returns_getitem2 params group key w (Q : value -> list entry -> Prop) v :
  resolve (store w) params [group; key] = Some v -> Q v [] ->
  returns (getitem2 params group key) w Q.
Proof.
  intros Hv HQ. exists v, []. split; [| done].
  unfold runs. rewrite log_nil. by apply getitem2_run.
Qed.

Lemma returns_check_params params param_list w (Q : () -> list entry -> Prop) :
  first_unresolved (store w) params param_list = None -> Q () [] ->
  returns (check_params params param_list) w Q.
Proof.
  intros Hc HQ. exists (), []. split; [| done].
  unfold runs. by rewrite check_params_run, Hc, log_nil.
Qed.

Lemma cooperative_returns fw hist c :
  cooperative fw -> (forall path, c <> os_makedirs path) ->
  exists o, respond fw hist c = Ok o.
Proof.
  intros Hc Hno. specialize (Hc hist c).
  destruct (respond fw hist c) as [o | e]; [by exists o |].
  destruct Hc as (_ & path & ->). by destruct (Hno path).
Qed.

Lemma returns_invoke fw c w (Q : pyobj -> list entry -> Prop) :
  cooperative fw -> (forall path, c <> os_makedirs path) ->
  (forall o, Q o [(c, Ok o)]) ->
  returns (invoke fw c) w Q.
Proof.
  intros Hc Hno HQ.
  destruct (cooperative_returns fw (trace w) c Hc Hno) as [o Ho].
  exists o, [(c, Ok o)]. split; [| done].
  unfold runs, invoke, log. by rewrite Ho.
Qed.

Lemma returns_invoke_ fw c w (Q : () -> list entry -> Prop) :
  cooperative fw -> (forall path, c <> os_makedirs path) ->
  (forall o, Q () [(c, Ok o)]) ->
  returns (invoke_ fw c) w Q.
Proof.
  intros Hc Hno HQ. unfold invoke_. apply returns_bind.
  apply returns_invoke; [done | done |]. intros o. apply returns_ret. apply HQ.
Qed.

Lemma returns_makedirs fw path w (Q : () -> list entry -> Prop) :
  cooperative fw ->
  (forall r, r = Raise FileExistsError \/ (exists o, r = Ok o) ->
             Q () [(os_makedirs path, r)]) ->
  returns
    (try_except (invoke_ fw (os_makedirs path))
       (fun e => match e with FileExistsError => mret () | _ => raise e end)) w Q.
Proof.
  intros Hc HQ. specialize (Hc (trace w) (os_makedirs path)).
  exists (), [(os_makedirs path, respond fw (trace w) (os_makedirs path))].
  split.
  - unfold runs, try_except, invoke_, invoke, log, mbind, M_bind. cbn.
    destruct (respond fw (trace w) _) as [o | e]; [done |].
    by destruct Hc as [-> _].
  - apply HQ. destruct (respond fw (trace w) _) as [o | e]; [right; by exists o |].
    left. by destruct Hc as [-> _].
Qed.

Lemma returns_conseq {A} (m : M A) w (Q Q' : A -> list entry -> Prop) :
  returns m w Q -> (forall a evs, Q a evs -> Q' a evs) -> returns m w Q'.
Proof. intros (a & evs & Hr & HQ) H. exists a, evs. auto. Qed.

Ltac ret_step :=
  lazymatch goal with
  | |- returns (mbind _ _) _ _ => apply returns_bind
  | |- returns (mret _) _ _ => apply returns_ret
  | |- returns (getitem2 _ _ _) _ _ =>
      eapply returns_getitem2; [cbn [store log]; eassumption |]
  | |- returns (getitem _ _) _ _ =>
      eapply returns_getitem; [cbn [store log]; eassumption |]
  | |- returns (check_params _ _) _ _ =>
      apply returns_check_params; [cbn [store log]; assumption |]
  | |- returns (invoke_ _ _) _ _ =>
      apply returns_invoke_; [assumption | done | intros ?]
  | |- returns (invoke _ _) _ _ =>
      apply returns_invoke; [assumption | done | intros ?]
  | |- returns (format _ _) _ _ =>
      eapply (returns_reading (fun h => Ok (fmt _ h _))); [reflexivity |]
  end.

(** ** [build_learner] on a sound configuration *)

Lemma world_size_not_zero n : world_size_of n <> 0.
Proof.
  unfold world_size_of. destruct (0 <? n) eqn:E; [| done].
  apply Z.ltb_lt in E. lia.
Qed.

Lemma distributed_iff_many n : (1 <? world_size_of n) = (1 <? n).
Proof.
  unfold world_size_of. destruct (0 <? n) eqn:E; [done |].
  symmetry. apply Z.ltb_ge. apply Z.ltb_ge in E. lia.
Qed.

Lemma holds_data_checked h params c :
  holds h params c -> first_unresolved h params data_params = None.
Proof.
  intros (_ & _ & H1 & H2 & H3 & H4 & H5 & H6 & H7 & H8 & _).
  apply first_unresolved_none. intros param Hin.
  apply list_elem_of_In in Hin. unfold resolves.
  cbn in Hin. destruct Hin as [<- | [<- | [<- | [<- | [<- | [<- | [<- | [<- | []]]]]]]]];
    apply bool_decide_eq_true; by eexists.
Qed.

Lemma holds_network_checked h params c :
  holds h params c -> first_unresolved h params network_params = None.
Proof.
  intros (_ & _ & _ & _ & _ & _ & _ & _ & _ & _
          & H1 & H2 & H3 & H4 & H5 & H6 & H7 & H8 & H9 & H10 & H11).
  apply first_unresolved_none. intros param Hin.
  apply list_elem_of_In in Hin. unfold resolves.
  cbn in Hin.
  destruct Hin as [<- | [<- | [<- | [<- | [<- | [<- | [<- | [<- | [<- | [<- | [<- | []]]]]]]]]]]];
    apply bool_decide_eq_true; by eexists.
Qed.

Lemma device_settings_returns fw params project_dir pindex w c :
  holds (store w) params c -> cooperative fw ->
  (cfg_gpu_ids c = [] \/ exists id, Py.at_index (cfg_gpu_ids c) pindex = Some id) ->
  returns (device_settings fw params project_dir pindex) w
    (fun st evs =>
       exists r name dev set,
         (r = Raise FileExistsError \/ exists o, r = Ok o)
         /\ model_name st = cfg_model_name c
         /\ model_dir st = model_dir_of project_dir c
         /\ world_size st = world_size_of (Z.of_nat (length (cfg_gpu_ids c)))
         /\ distributed st = (1 <? Z.of_nat (length (cfg_gpu_ids c)))
         /\ device_id st = match selected_gpu c pindex with
                           | Some id => id
                           | None => VNone
                           end
         /\ device st = dev
         /\ evs = [(os_makedirs (model_dir_of project_dir c), r)]
                  ++ match selected_gpu c pindex with
                     | Some id =>
                         [(cuda_get_device_name id, Ok name);
                          (torch_device id, Ok dev);
                          (cuda_set_device id, Ok set)]
                     | None => [(torch_device (VStr "cpu"), Ok dev)]
                     end).
Proof.
  intros (Hname & (l & Hgpu & Hl) & _) Hcoop Hsel. unfold device_settings.
  ret_step. ret_step.
  ret_step. eapply (returns_reading (fun _ => Py.as_str _)); [reflexivity |].
  ret_step. apply returns_makedirs; [done |]. intros r Hr.
  ret_step. ret_step.
  ret_step. eapply (returns_reading (fun h => Py.len h _));
    [cbn [store log Py.len]; by rewrite Hl |].
  ret_step. eapply (returns_reading (fun h => Ok (Py.truthy h _))); [reflexivity |].
  cbn [store log Py.truthy]. rewrite Hl.
  pose proof (distributed_iff_many (Z.of_nat (length (cfg_gpu_ids c)))) as Hmany.
  unfold world_size_of in Hmany.
  destruct (cfg_gpu_ids c) as [| id0 ids] eqn:Egpus.
  - cbn [length Nat.eqb negb]. ret_step. ret_step. ret_step.
    exists r, (Data VNone), o, (Data VNone). unfold selected_gpu. rewrite Egpus.
    cbn. by repeat split.
  - destruct Hsel as [? | [id Hid]]; [done |].
    cbn [length Nat.eqb negb].
    ret_step. eapply (returns_reading (fun h => Py.index h _ _));
      [cbn [store log Py.index]; by rewrite Hl, Hid |].
    do 6 ret_step. ret_step.
    exists r, o, o0, o1. unfold selected_gpu. rewrite Egpus, Hid.
    cbn [model_name model_dir world_size distributed device_id device].
    repeat split; try done.
Qed.

Lemma init_distributed_returns fw st pindex comm_file w :
  cooperative fw ->
  returns (init_distributed fw st pindex comm_file) w
    (fun _ evs =>
       exists group,
         evs = if distributed st
               then [(init_process_group "nccl" (world_size st) pindex
                        ("file://" +:+ fmt fw (store w) (Data comm_file)), Ok group)]
               else []).
Proof.
  intros Hcoop. unfold init_distributed. destruct (distributed st).
  - ret_step. ret_step. ret_step. by exists o.
  - ret_step. by exists (Data VNone).
Qed.

Lemma load_data_returns fw params st w c :
  holds (store w) params c -> cooperative fw -> world_size st <> 0 ->
  returns (load_data fw params st) w
    (fun loader evs =>
       evs = [(PervasiveDataLoader
                 (PyStr.path_join (cfg_dir c)
                    (fmt fw (store w) (Data (cfg_src c)) +:+ ".infos"))
                 (PyStr.path_join (cfg_dir c)
                    (fmt fw (store w) (Data (cfg_src c)) +:+ ".h5"))
                 (PyStr.path_join (cfg_dir c)
                    (fmt fw (store w) (Data (cfg_tgt c)) +:+ ".infos"))
                 (PyStr.path_join (cfg_dir c)
                    (fmt fw (store w) (Data (cfg_tgt c)) +:+ ".h5"))
                 (VInt (cfg_batch_size c / world_size st))
                 (VInt (cfg_max_length c)) (model_name st) (cfg_epoch_size c)
                 (cfg_max_val_size c) (cfg_max_test_size c) (distributed st),
               Ok loader)]).
Proof.
  intros Hholds Hcoop Hsize. pose proof (holds_data_checked _ _ _ Hholds) as Hck.
  destruct Hholds as (_ & _ & Hb & Hd & Hs & Ht & Hm & He & Hv & Hte & _).
  apply Z.eqb_neq in Hsize.
  unfold load_data.
  ret_step. ret_step. ret_step. ret_step.
  ret_step. eapply (returns_reading (fun _ => floordiv _ _ _));
    [cbn [floordiv]; by rewrite Hsize |].
  do 6 ret_step.
  ret_step. ret_step.
  ret_step. eapply (returns_reading (fun _ => Py.path_join _ _)); [reflexivity |].
  ret_step. ret_step.
  ret_step. eapply (returns_reading (fun _ => Py.path_join _ _)); [reflexivity |].
  ret_step. ret_step.
  ret_step. eapply (returns_reading (fun _ => Py.path_join _ _)); [reflexivity |].
  ret_step. ret_step.
  ret_step. eapply (returns_reading (fun _ => Py.path_join _ _)); [reflexivity |].
  do 8 ret_step. ret_step. done.
Qed.

Lemma returns_invoke_known fw c w (Q : pyobj -> list entry -> Prop) o :
  respond fw (trace w) c = Ok o -> Q o [(c, Ok o)] -> returns (invoke fw c) w Q.
Proof.
  intros Ho HQ. exists o, [(c, Ok o)]. split; [| done].
  unfold runs, invoke, log. by rewrite Ho.
Qed.

Lemma to_device_returns fw st model w :
  cooperative fw -> cuda_available fw ->
  returns (to_device fw st model) w
    (fun model' evs =>
       exists moved parallel,
         model' = (if decide (device_id st = VNone) then model
                   else if distributed st then parallel else model)
         /\ evs = if decide (device_id st = VNone) then []
                  else [(cuda_is_available, Ok (Data (VBool true)));
                        (model_cuda model (device_id st), Ok moved)]
                       ++ (if distributed st
                           then [(DistributedDataParallel model [device_id st],
                                  Ok parallel)]
                           else [])).
Proof.
  intros Hcoop Hcuda. unfold to_device. destruct (decide _).
  - ret_step. by exists (Data VNone), (Data VNone).
  - ret_step. eapply returns_invoke_known; [apply Hcuda |].
    ret_step. eapply (returns_reading (fun h => Ok (Py.truthy_obj h _))); [reflexivity |].
    cbn [Py.truthy_obj Py.truthy].
    ret_step. ret_step.
    destruct (distributed st).
    + ret_step. by exists o, o0.
    + ret_step. by exists o, (Data VNone).
Qed.

Lemma define_network_returns fw params st loader w c :
  holds (store w) params c -> cooperative fw -> cuda_available fw ->
  returns (define_network fw params st loader) w
    (fun learner evs =>
       exists model weights moved parallel data,
         evs =
           [(Pervasive (model_name st) (attr fw loader "src_vocab")
               (attr fw loader "tgt_vocab") (cfg_block_sizes c)
               (VInt (cfg_max_length c + 2)) (VInt (cfg_max_length c + 2))
               (cfg_enc_embedding_dim c) (cfg_dec_embedding_dim c)
               (cfg_enc_embedding_dropout c) (cfg_dropout c)
               (cfg_dec_embedding_dropout c) (cfg_prediction_dropout c)
               (cfg_division_factor c) (cfg_growth_rate c) (cfg_bias c)
               (cfg_efficient c), Ok model);
            (init_weights model, Ok weights)]
           ++ (if decide (device_id st = VNone) then []
               else [(cuda_is_available, Ok (Data (VBool true)));
                     (model_cuda model (device_id st), Ok moved)]
                    ++ (if distributed st
                        then [(DistributedDataParallel model [device_id st],
                               Ok parallel)]
                        else []))
           ++ [(DataBunch (item fw (attr fw loader "loaders") "train")
                  (item fw (attr fw loader "loaders") "val")
                  (item fw (attr fw loader "loaders") "test") (device st), Ok data);
               (Learner data
                  (if decide (device_id st = VNone) then model
                   else if distributed st then parallel else model)
                  "cross_entropy" (model_dir st), Ok learner)]).
Proof.
  intros Hholds Hcoop Hcuda. pose proof (holds_network_checked _ _ _ Hholds) as Hck.
  destruct Hholds as (_ & _ & _ & _ & _ & _ & Hm & _ & _ & _
                      & H1 & H2 & H3 & H4 & H5 & H6 & H7 & H8 & H9 & H10 & H11).
  unfold define_network.
  ret_step. ret_step. ret_step. ret_step. ret_step. ret_step.
  ret_step. eapply (returns_reading (fun _ => add _ _ _)); [reflexivity |].
  ret_step. ret_step.
  ret_step. eapply (returns_reading (fun _ => add _ _ _)); [reflexivity |].
  do 20 ret_step.
  ret_step. ret_step. ret_step. ret_step.
  ret_step. eapply returns_conseq; [by apply to_device_returns |].
  intros model' evs (moved & parallel & -> & ->).
  ret_step. ret_step. ret_step.
  exists o, o0, moved, parallel, o1. reflexivity.
Qed.

Lemma demo_holds gpu_ids batch_size :
  holds (Demo.config gpu_ids (Demo.data (VInt batch_size)) Demo.network) Demo.params
    (demo_config gpu_ids batch_size).
Proof.
  split; [reflexivity |].
  split; [exists 2%positive; split; reflexivity |].
  repeat split; reflexivity.
Qed.

Lemma demo_cooperative cuda : cooperative (Demo.fw cuda true).
Proof. intros hist c. by destruct c. Qed.

Lemma build_learner_returns fw params project_dir pindex comm_file w c :
  holds (store w) params c ->
  cooperative fw ->
  cuda_available fw ->
  (cfg_gpu_ids c = []
   \/ exists id, Py.at_index (cfg_gpu_ids c) pindex = Some id /\ id <> VNone) ->
  returns (build_learner fw params project_dir pindex comm_file) w
    (fun learner evs =>
       exists a, learner = ans_learner a
                 /\ evs = build_entries fw (store w) c project_dir pindex comm_file a
                 /\ (ans_makedirs a = Raise FileExistsError
                     \/ exists o, ans_makedirs a = Ok o)).
Proof.
  intros Hholds Hcoop Hcuda Hsel.
  unfold build_learner.
  ret_step. eapply returns_conseq.
  { apply device_settings_returns; [done | done |].
    destruct Hsel as [? | (id & ? & _)]; [by left | right; by exists id]. }
  intros st evs1 (r & name & dev & set & Hr & Hname & Hdir & Hsize & Hdist & Hid & Hdev
                  & ->).
  ret_step. eapply returns_conseq; [by apply init_distributed_returns |].
  intros [] evs2 (group & ->).
  ret_step. eapply returns_conseq.
  { apply load_data_returns with (c := c); [done | done |].
    rewrite Hsize. apply world_size_not_zero. }
  intros loader evs3 ->.
  eapply returns_conseq; [by apply define_network_returns with (c := c) |].
  intros learner evs4 (model & weights & moved & parallel & data & ->).
  exists {| ans_makedirs := r; ans_device_name := name; ans_device := dev;
            ans_set_device := set; ans_process_group := group; ans_loader := loader;
            ans_model := model; ans_init_weights := weights; ans_model_cuda := moved;
            ans_parallel := parallel; ans_data := data; ans_learner := learner |}.
  split; [done |]. split; [| done].
  unfold build_entries.
  cbn [ans_makedirs ans_device_name ans_device ans_set_device ans_process_group
       ans_loader ans_model ans_init_weights ans_model_cuda ans_parallel ans_data
       ans_learner store log].
  rewrite Hname, Hdir, Hsize, Hdist, Hid, Hdev.
  destruct (selected_gpu c pindex) as [id |] eqn:Esel.
  - assert (id <> VNone) as Hnot.
    { destruct Hsel as [Hnil | (id' & Hid' & Hnot)].
      - unfold selected_gpu in Esel. by rewrite Hnil in Esel.
      - unfold selected_gpu in Esel. destruct (cfg_gpu_ids c); [done |]. congruence. }
    destruct (decide (id = VNone)); [done |].
    destruct (1 <? Z.of_nat (length (cfg_gpu_ids c))); cbn [app];
      rewrite <- ?app_assoc; reflexivity.
  - destruct (decide (VNone = VNone)); [| done].
    assert ((1 <? Z.of_nat (length (cfg_gpu_ids c))) = false) as ->.
    { unfold selected_gpu in Esel. destruct (cfg_gpu_ids c) as [| x xs] eqn:E; [done |].
      destruct Hsel as [? | (id & Hid' & _)]; congruence. }
    cbn [app]. rewrite <- ?app_assoc. reflexivity.
Qed.

(** X1: on a configuration that holds every entry [build_learner] reads
    (a string as name of the model and as data directory, a list of GPU
    ids, integers as batch size and maximal length), with a GPU id for
    this worker when ids are listed, and a framework whose calls return
    (the directory of the model may exist already), [build_learner]
    returns the learner and makes exactly these calls in this order: the
    directory, the device (of the worker's GPU, or the CPU), the process
    group when there are several GPUs, the data loader on the files of the
    two languages with the batch size divided by the world size, the
    network on the loader's vocabularies with lengths two more than the
    maximal length, its initialisation, its move to the GPU and its
    wrapping for several GPUs, the data bunch on the device, and the
    learner on the directory created at first. *)
Theorem build_learner_returns_learner
    fw params project_dir pindex comm_file (w : world) (c : config) :
  holds (store w) params c ->
  cooperative fw ->
  cuda_available fw ->
  (cfg_gpu_ids c = []
   \/ exists id, Py.at_index (cfg_gpu_ids c) pindex = Some id /\ id <> VNone) ->
  exists a,
    runs (build_learner fw params project_dir pindex comm_file) w (ans_learner a)
      (build_entries fw (store w) c project_dir pindex comm_file a)
    /\ (ans_makedirs a = Raise FileExistsError \/ exists o, ans_makedirs a = Ok o).
Proof.
  intros Hholds Hcoop Hcuda Hsel.
  destruct (build_learner_returns fw params project_dir pindex comm_file w c
              Hholds Hcoop Hcuda Hsel) as (learner & evs & Hrun & a & -> & -> & Hmk).
  by exists a.
Qed.

Lemma build_learner_returns_learner_witness :
  exists a,
    runs (build_learner (Demo.fw true true) Demo.params "/p" 1 (VStr "/tmp/comm"))
      (Demo.start Demo.two_gpus) (ans_learner a)
      (build_entries (Demo.fw true true) Demo.two_gpus
         (demo_config [VInt 0; VInt 1] 64) "/p" 1 (VStr "/tmp/comm") a).
Proof.
  destruct (build_learner_returns_learner (Demo.fw true true) Demo.params "/p" 1
              (VStr "/tmp/comm") (Demo.start Demo.two_gpus)
              (demo_config [VInt 0; VInt 1] 64)) as (a & Hrun & _).
  - apply demo_holds.
  - apply demo_cooperative.
  - intros hist. reflexivity.
  - right. exists (VInt 1). split; [reflexivity | discriminate].
  - by exists a.
Defined.

(** ** [train_worker] on a sound configuration *)

Lemma restore_model_returns fw learn pindex restore w :
  cooperative fw ->
  returns (restore_model fw learn pindex restore) w
    (fun after evs =>
       after = Proceed (start_epoch_arg restore)
       /\ exists loaded, evs = restore_entries learn pindex restore loaded).
Proof.
  intros Hcoop. destruct restore as [name |].
  - pose proof (restore_model_run fw learn pindex name w) as E. cbn zeta in E.
    destruct (cooperative_returns fw (trace w)
                (learn_load learn (strip_pth name) false) Hcoop ltac:(done))
      as [o Ho].
    rewrite Ho in E. eexists _, _. split; [exact E |].
    split; [done |]. by exists o.
  - apply returns_ret. split; [done |]. by exists (Data VNone).
Qed.

Lemma schedule_returns fw params learn epoch w epochs lr :
  cooperative fw ->
  resolve (store w) params ["optim"; "epochs"] = Some epochs ->
  resolve (store w) params ["optim"; "lr"] = Some lr ->
  returns (register_callbacks fw learn;; fit_schedule fw params learn epoch) w
    (fun _ evs => exists callback fitted,
                    evs = schedule_entries learn epochs lr epoch callback fitted).
Proof.
  intros Hcoop He Hl.
  assert (first_unresolved (store w) params optim_params = None) as Hck.
  { apply first_unresolved_none. intros param Hin.
    apply list_elem_of_In in Hin. unfold resolves. cbn in Hin.
    destruct Hin as [<- | [<- | []]]; apply bool_decide_eq_true; by eexists. }
  unfold register_callbacks, fit_schedule.
  ret_step. ret_step. ret_step.
  eexists (), [_]. split; [reflexivity |].
  do 8 ret_step. ret_step. by exists o, o0.
Qed.

(** X2: on a sound configuration that also has [optim.epochs] and
    [optim.lr], with a framework whose calls return (so that a named
    checkpoint loads), [train_worker] returns normally, and after the rank
    is exported its calls are exactly: those of [build_learner], the load
    of the checkpoint without its extension and the message of rank 0 when
    [restore] is given, the construction of the callback, its
    registration, and [fit_one_cycle] on the learner with the configured
    epochs and learning rate and the start epoch of the checkpoint. *)
Theorem train_worker_trains
    fw pindex project_dir params comm_file checkpoint restore (w : world)
    (c : config) epochs lr :
  holds (store w) params c ->
  resolve (store w) params ["optim"; "epochs"] = Some epochs ->
  resolve (store w) params ["optim"; "lr"] = Some lr ->
  cooperative fw ->
  cuda_available fw ->
  (cfg_gpu_ids c = []
   \/ exists id, Py.at_index (cfg_gpu_ids c) pindex = Some id /\ id <> VNone) ->
  exists a loaded callback fitted,
    train_worker fw pindex project_dir params comm_file checkpoint restore w
    = (Ok (),
       log (export_rank pindex w).2
         (build_entries fw (store w) c project_dir pindex comm_file a
          ++ restore_entries (ans_learner a) pindex restore loaded
          ++ schedule_entries (ans_learner a) epochs lr (start_epoch_arg restore)
               callback fitted)).
Proof.
  intros Hholds He Hl Hcoop Hcuda Hsel.
  destruct (export_rank_run pindex w) as [env E]. rewrite E. cbn [snd].
  set (w0 := {| store := store w; environ := env; trace := trace w |}) in *.
  cut (returns
         (learn ← build_learner fw params project_dir pindex comm_file;
          after ← restore_model fw learn pindex restore;
          match after with
          | Returned => mret ()
          | Proceed epoch =>
              register_callbacks fw learn;; fit_schedule fw params learn epoch
          end) w0
         (fun _ evs =>
            exists a loaded callback fitted,
              evs = build_entries fw (store w) c project_dir pindex comm_file a
                    ++ restore_entries (ans_learner a) pindex restore loaded
                    ++ schedule_entries (ans_learner a) epochs lr
                         (start_epoch_arg restore) callback fitted)).
  { intros ([] & evs & Hrun & a & loaded & callback & fitted & ->).
    exists a, loaded, callback, fitted.
    unfold train_worker. erewrite bind_ok by exact E. exact Hrun. }
  ret_step. eapply returns_conseq; [by apply build_learner_returns with (c := c) |].
  intros learner evs1 (a & -> & -> & _).
  ret_step. eapply returns_conseq; [by apply restore_model_returns |].
  intros after evs2 (-> & loaded & ->).
  eapply returns_conseq; [by apply schedule_returns with (epochs := epochs) (lr := lr) |].
  intros [] evs3 (callback & fitted & ->).
  by exists a, loaded, callback, fitted.
Qed.

Lemma train_worker_trains_witness :
  (train_worker (Demo.fw true true) 0 "/p" Demo.params VNone VNone
     (Some "model_3.pth") (Demo.start Demo.two_gpus)).1 = Ok ().
Proof.
  destruct (train_worker_trains (Demo.fw true true) 0 "/p" Demo.params VNone VNone
              (Some "model_3.pth") (Demo.start Demo.two_gpus)
              (demo_config [VInt 0; VInt 1] 64) (VInt 3)
              (VFloat 4562254508917369340))
    as (a & loaded & callback & fitted & ->).
  - apply demo_holds.
  - reflexivity.
  - reflexivity.
  - apply demo_cooperative.
  - intros hist. reflexivity.
  - right. exists (VInt 0). split; [reflexivity | discriminate].
  - reflexivity.
Defined.

(** ** What [build_learner] does on a configuration it cannot use *)

Ltac run_device_block :=
  unfold build_learner, device_settings, try_except, invoke_, invoke, getitem,
    pure, reading, mbind, M_bind, mret, M_ret, raise; cbn [store log].

(** X3: a configuration without [model_name], or with a name that is not
    a string, is not reported by [check_params]: [build_learner] raises
    the [KeyError] or [TypeError] of the lookup before it calls anything,
    and [train_worker] raises the same with nothing called. *)
Theorem build_learner_needs_model_name
    fw params project_dir pindex comm_file checkpoint restore (w : world) :
  (forall name, Py.subscript (store w) params "model_name" <> Ok (VStr name)) ->
  exists e,
    (e = TypeError \/ e = KeyError "model_name")
    /\ build_learner fw params project_dir pindex comm_file w = (Raise e, w)
    /\ (train_worker fw pindex project_dir params comm_file checkpoint restore w).1
       = Raise e
    /\ trace (train_worker fw pindex project_dir params comm_file checkpoint restore
                w).2 = trace w.
Proof.
  intros Hname.
  assert (exists e, (e = TypeError \/ e = KeyError "model_name")
                    /\ forall w', store w' = store w ->
                         build_learner fw params project_dir pindex comm_file w'
                         = (Raise e, w')) as (e & He & Hrun).
  { destruct (Py.subscript (store w) params "model_name") as [v | e] eqn:E.
    - exists TypeError. split; [by left |]. intros w' Hs.
      run_device_block. rewrite Hs, E.
      destruct v; try done. by destruct (Hname s).
    - exists e. split.
      + unfold Py.subscript in E. destruct params; try (left; congruence).
        destruct (store w !! l) as [[d | xs] |]; try (left; congruence).
        destruct (d !! "model_name"); [done |]. right. congruence.
      + intros w' Hs. run_device_block. by rewrite Hs, E. }
  exists e. split; [done |]. split; [by apply Hrun |].
  destruct (export_rank_run pindex w) as [env E].
  unfold train_worker. erewrite bind_ok by exact E.
  erewrite bind_raise by (by apply Hrun). done.
Qed.

Lemma build_learner_needs_model_name_witness :
  build_learner (Demo.fw true true) (VRef 7%positive) "/p" 0 VNone
    (Demo.start Demo.two_gpus)
  = (Raise (KeyError "model_name"), Demo.start Demo.two_gpus).
Proof.
  destruct (build_learner_needs_model_name (Demo.fw true true) (VRef 7%positive)
              "/p" 0 VNone VNone None (Demo.start Demo.two_gpus))
    as (e & He & Hrun & _).
  - intros name. vm_compute. discriminate.
  - rewrite Hrun. vm_compute in Hrun. by injection Hrun as <-.
Defined.

(** X4: an error of [os.makedirs] other than [FileExistsError] is not
    caught: [build_learner] raises it, having made this one call. *)
Theorem build_learner_raises_error_of_makedirs
    fw params project_dir pindex comm_file (w : world) name e :
  Py.subscript (store w) params "model_name" = Ok (VStr name) ->
  respond fw (trace w)
    (os_makedirs (PyStr.path_join (PyStr.path_join project_dir "model") name))
  = Raise e ->
  e <> FileExistsError ->
  build_learner fw params project_dir pindex comm_file w
  = (Raise e,
     log w [(os_makedirs (PyStr.path_join (PyStr.path_join project_dir "model") name),
             Raise e)]).
Proof.
  intros Hname Hmk He. run_device_block. rewrite Hname.
  cbn [Py.as_str trace]. cbv zeta. rewrite Hmk.
  by destruct e.
Qed.

Lemma build_learner_raises_error_of_makedirs_witness :
  build_learner
    {| respond := fun _ _ => Raise (OtherError "PermissionError");
       attr := attr (Demo.fw true true); item := item (Demo.fw true true);
       float_floordiv := float_floordiv (Demo.fw true true);
       float_add := float_add (Demo.fw true true);
       repr := repr (Demo.fw true true) |}
    Demo.params "/p" 0 VNone (Demo.start Demo.two_gpus)
  = (Raise (OtherError "PermissionError"),
     log (Demo.start Demo.two_gpus)
       [(os_makedirs "/p/model/m", Raise (OtherError "PermissionError"))]).
Proof.
  apply (build_learner_raises_error_of_makedirs _ Demo.params "/p" 0 VNone
           (Demo.start Demo.two_gpus) "m" (OtherError "PermissionError"));
    [reflexivity | reflexivity | discriminate].
Defined.

(** X5: [gpu_ids] is looked up after the directory of the model is made:
    on a configuration without [gpu_ids], or whose [gpu_ids] has no
    length, [build_learner] raises the error of the lookup or of [len]
    with [os.makedirs] called already, and nothing else. *)
Theorem build_learner_makes_directory_before_gpu_ids
    fw params project_dir pindex comm_file (w : world) name r e :
  Py.subscript (store w) params "model_name" = Ok (VStr name) ->
  respond fw (trace w)
    (os_makedirs (PyStr.path_join (PyStr.path_join project_dir "model") name)) = r ->
  (r = Raise FileExistsError \/ exists o, r = Ok o) ->
  (Py.subscript (store w) params "gpu_ids" = Raise e
   \/ exists gpu_ids, Py.subscript (store w) params "gpu_ids" = Ok gpu_ids
                      /\ Py.len (store w) gpu_ids = Raise e) ->
  build_learner fw params project_dir pindex comm_file w
  = (Raise e,
     log w [(os_makedirs (PyStr.path_join (PyStr.path_join project_dir "model") name),
             r)]).
Proof.
  intros Hname Hmk Hr Hgpu. run_device_block. rewrite Hname.
  cbn [Py.as_str trace]. cbv zeta. rewrite Hmk.
  destruct Hr as [-> | [o ->]]; cbn;
    (destruct Hgpu as [-> | (gpu_ids & -> & ->)]; done).
Qed.

Lemma build_learner_makes_directory_before_gpu_ids_witness :
  build_learner (Demo.fw true true) (VRef 9%positive) "/p" 0 VNone
    (Demo.start (<[9%positive := ODict {["model_name" := VStr "m"]}]> Demo.two_gpus))
  = (Raise (KeyError "gpu_ids"),
     log (Demo.start (<[9%positive := ODict {["model_name" := VStr "m"]}]>
                        Demo.two_gpus))
       [(os_makedirs "/p/model/m", Ok (Opaque 0))]).
Proof.
  apply (build_learner_makes_directory_before_gpu_ids (Demo.fw true true)
           (VRef 9%positive) "/p" 0 VNone _ "m" (Ok (Opaque 0))
           (KeyError "gpu_ids")).
  - reflexivity.
  - reflexivity.
  - right. by exists (Opaque 0).
  - left. reflexivity.
Defined.

Lemma at_index_out_of_range {A} (xs : list A) i :
  ~ (- Z.of_nat (length xs) <= i < Z.of_nat (length xs)) ->
  Py.at_index xs i = None.
Proof.
  intros Hout. unfold Py.at_index.
  destruct (0 <=? i) eqn:E0.
  - apply Z.leb_le in E0. apply lookup_ge_None. lia.
  - apply Z.leb_gt in E0. destruct (- Z.of_nat (length xs) <=? i) eqn:E1; [| done].
    apply Z.leb_le in E1. lia.
Qed.

Lemma at_index_in_range {A} (xs : list A) i :
  - Z.of_nat (length xs) <= i < Z.of_nat (length xs) ->
  is_Some (Py.at_index xs i).
Proof.
  intros Hin. unfold Py.at_index.
  destruct (0 <=? i) eqn:E0.
  - apply Z.leb_le in E0. apply lookup_lt_is_Some. lia.
  - apply Z.leb_gt in E0.
    replace (- Z.of_nat (length xs) <=? i) with true by (symmetry; apply Z.leb_le; lia).
    apply lookup_lt_is_Some. lia.
Qed.

(** X6: the index of the worker must lie within [gpu_ids], counted from
    the front or, when negative, from the end: with a list of [n] GPU ids
    and [pindex] outside of [-n, n), [build_learner] raises [IndexError]
    once the directory is made, before any device is touched; within the
    range an id is selected. *)
Theorem build_learner_needs_index_within_gpu_ids
    fw params project_dir pindex comm_file (w : world) name r l ids :
  Py.subscript (store w) params "model_name" = Ok (VStr name) ->
  respond fw (trace w)
    (os_makedirs (PyStr.path_join (PyStr.path_join project_dir "model") name)) = r ->
  (r = Raise FileExistsError \/ exists o, r = Ok o) ->
  Py.subscript (store w) params "gpu_ids" = Ok (VRef l) ->
  store w !! l = Some (OList ids) ->
  ids <> [] ->
  (~ (- Z.of_nat (length ids) <= pindex < Z.of_nat (length ids)) ->
   build_learner fw params project_dir pindex comm_file w
   = (Raise IndexError,
      log w [(os_makedirs (PyStr.path_join (PyStr.path_join project_dir "model") name),
              r)]))
  /\ (- Z.of_nat (length ids) <= pindex < Z.of_nat (length ids) ->
      exists id, Py.index (store w) (VRef l) pindex = Ok id).
Proof.
  intros Hname Hmk Hr Hgpu Hl Hne. split.
  - intros Hout. run_device_block. rewrite Hname.
    cbn [Py.as_str trace]. cbv zeta. rewrite Hmk.
    pose proof (at_index_out_of_range ids pindex Hout) as Hat.
    destruct ids as [| id0 ids']; [done |].
    destruct Hr as [-> | [o ->]]; cbn [store];
      rewrite Hgpu; cbn [Py.len Py.truthy Py.index store]; rewrite !Hl;
      cbn [length Nat.eqb negb store]; by rewrite ?Hl, Hat.
  - intros Hin. destruct (at_index_in_range ids pindex Hin) as [id Hid].
    exists id. cbn [Py.index]. by rewrite Hl, Hid.
Qed.

Lemma build_learner_needs_index_within_gpu_ids_witness :
  build_learner (Demo.fw true true) Demo.params "/p" 2 VNone
    (Demo.start Demo.two_gpus)
  = (Raise IndexError,
     log (Demo.start Demo.two_gpus) [(os_makedirs "/p/model/m", Ok (Opaque 0))])
  /\ Py.index Demo.two_gpus (VRef 2%positive) (-1) = Ok (VInt 1).
Proof.
  split.
  - apply (build_learner_needs_index_within_gpu_ids (Demo.fw true true) Demo.params
             "/p" 2 VNone (Demo.start Demo.two_gpus) "m" (Ok (Opaque 0))
             2%positive [VInt 0; VInt 1]); try reflexivity.
    + right. by exists (Opaque 0).
    + discriminate.
    + cbn. lia.
  - destruct (build_learner_needs_index_within_gpu_ids (Demo.fw true true) Demo.params
                "/p" (-1) VNone (Demo.start Demo.two_gpus) "m" (Ok (Opaque 0))
                2%positive [VInt 0; VInt 1] eq_refl eq_refl
                (or_intror (ex_intro _ (Opaque 0) eq_refl)) eq_refl eq_refl
                ltac:(discriminate)) as [_ Hin].
    destruct Hin as [id Hid]; [cbn; lia |].
    change (store (Demo.start Demo.two_gpus)) with Demo.two_gpus in Hid.
    rewrite Hid. vm_compute in Hid. by injection Hid as <-.
Defined.

(** ** The device of a worker *)

Lemma device_settings_devices fw params project_dir pindex w (P : entry -> Prop) :
  (forall path r, P (os_makedirs path, r)) ->
  (forall gpu_ids r,
     Py.subscript (store w) params "gpu_ids" = Ok gpu_ids ->
     Py.truthy (store w) gpu_ids = false ->
     P (torch_device (VStr "cpu"), r)) ->
  (forall gpu_ids id r,
     Py.subscript (store w) params "gpu_ids" = Ok gpu_ids ->
     Py.truthy (store w) gpu_ids = true ->
     Py.index (store w) gpu_ids pindex = Ok id ->
     P (cuda_get_device_name id, r) /\ P (torch_device id, r)
     /\ P (cuda_set_device id, r)) ->
  run_spec (device_settings fw params project_dir pindex) w P
    (settings_for (store w) params project_dir pindex).
Proof.
  intros Hmk Hcpu Hgpu0. unfold device_settings.
  spec_step as name0 Hname.
  spec_step as name Hstr.
  destruct name0; try done. injection Hstr as ->.
  eapply spec_bind.
  { eapply spec_try with (Q := fun _ => True).
    - apply spec_invoke_any. intros r. apply Hmk.
    - intros e ? _ _. destruct e; first [by apply spec_ret | apply spec_raise]. }
  spec_intro ipattern:([]) Hmade. clear Hmade.
  spec_step as gpu_ids Hgpu.
  spec_step as n Hlen.
  spec_step as nonempty Htruth. injection Htruth as Htruth.
  assert (Hdist : (1 <? (if 0 <? n then n else 1)) = (1 <? n)).
  { apply (distributed_iff_many n). }
  destruct nonempty.
  - spec_step as id Hid.
    eapply spec_bind;
      [apply spec_invoke_any; intros r; by apply (Hgpu0 gpu_ids id r) |].
    spec_intro ipattern:([]) H1. clear H1.
    eapply spec_bind; [apply spec_invoke; intros r; by apply (Hgpu0 gpu_ids id r) |].
    spec_intro dev Hdev.
    eapply spec_bind;
      [apply spec_invoke_any; intros r; by apply (Hgpu0 gpu_ids id r) |].
    spec_intro ipattern:([]) H2. clear H2.
    apply spec_ret.
    exists gpu_ids, n. cbn. by rewrite Htruth.
  - eapply spec_bind; [apply spec_invoke; intros r; by apply (Hcpu gpu_ids) |].
    spec_intro dev Hdev.
    apply spec_ret.
    exists gpu_ids, n. cbn. by rewrite Htruth.
Qed.

Lemma to_device_devices fw st model w (P : entry -> Prop) :
  (device_id st <> VNone ->
   forall r, P (cuda_is_available, r) /\ P (model_cuda model (device_id st), r)
             /\ P (DistributedDataParallel model [device_id st], r)) ->
  run_spec (to_device fw st model) w P (fun _ => True).
Proof.
  intros HP. unfold to_device. destruct (decide _) as [| Hid]; [by apply spec_ret |].
  eapply spec_bind; [apply spec_invoke; intros r; by apply (HP Hid r) |].
  spec_intro available Hav.
  spec_step as yes Hyes.
  destruct yes; [| apply spec_raise].
  eapply spec_bind; [apply spec_invoke_any; intros r; by apply (HP Hid r) |].
  spec_intro ipattern:([]) Hc.
  destruct (distributed st); [| by apply spec_ret].
  apply spec_invoke_last. intros r. by apply (HP Hid r).
Qed.

Lemma define_network_devices fw params st loader w (P : entry -> Prop) :
  (forall c r, network_call c = true -> gpu_call c = false -> P (c, r)) ->
  (device_id st <> VNone ->
   forall model r, P (cuda_is_available, r) /\ P (model_cuda model (device_id st), r)
                   /\ P (DistributedDataParallel model [device_id st], r)) ->
  run_spec (define_network fw params st loader) w P (fun _ => True).
Proof.
  intros Hnet Hdev. unfold define_network.
  spec_step as [] Hck.
  do 15 spec_step.
  eapply spec_bind; [apply spec_invoke; intros r; by apply Hnet |].
  spec_intro model Hmodel.
  eapply spec_bind; [apply spec_invoke_any; intros r; by apply Hnet |].
  spec_intro ipattern:([]) Hiw.
  eapply spec_bind; [apply to_device_devices; intros Hid r; by apply Hdev |].
  spec_intro model' Hmodel'.
  eapply spec_bind; [apply spec_invoke; intros r; by apply Hnet |].
  spec_intro data Hdata.
  apply spec_invoke_last. intros r. by apply Hnet.
Qed.

Lemma falsy_has_no_entries h v n :
  Py.truthy h v = false -> Py.len h v = Ok n -> n = 0.
Proof.
  unfold Py.truthy, Py.len. destruct v; try done.
  - intros Ht [= <-]. apply negb_false_iff, String.eqb_eq in Ht. by subst.
  - destruct (h !! l) as [[d | xs] |]; try done.
    + intros Ht [= <-]. apply negb_false_iff, Nat.eqb_eq in Ht. lia.
    + intros Ht [= <-]. apply negb_false_iff, Nat.eqb_eq in Ht. lia.
Qed.

(** X7: a run of [build_learner] works on one device.  With an empty
    [gpu_ids] it is the CPU: no call that needs a GPU is made (no query or
    choice of a CUDA device, no process group, no move or wrapping of the
    network) and the only device constructed is ['cpu'].  With ids, every
    call that names a device names the one [gpu_ids] holds at [pindex]. *)
Theorem build_learner_uses_one_device
    fw params project_dir pindex comm_file (w : world) gpu_ids :
  Py.subscript (store w) params "gpu_ids" = Ok gpu_ids ->
  (Py.truthy (store w) gpu_ids = false ->
   Forall (fun e => gpu_call e.1 = false /\ on_device (VStr "cpu") e.1)
     (events_of (build_learner fw params project_dir pindex comm_file) w))
  /\ (forall id,
        Py.truthy (store w) gpu_ids = true ->
        Py.index (store w) gpu_ids pindex = Ok id ->
        Forall (fun e => on_device id e.1)
          (events_of (build_learner fw params project_dir pindex comm_file) w)).
Proof.
  intros Hgpu. split.
  - intros Hfalse. eapply spec_events with (Q := fun _ => True).
    unfold build_learner.
    eapply spec_bind.
    { apply device_settings_devices.
      - done.
      - done.
      - intros g id r Hg Ht. congruence. }
    spec_intro st Hst.
    destruct Hst as (g & n & Hg & Hlen & _ & Hdist & Hid & _).
    rewrite Hgpu in Hg. injection Hg as <-. rewrite Hfalse in Hid.
    rewrite (falsy_has_no_entries _ _ _ Hfalse Hlen) in Hdist. cbn in Hdist.
    eapply spec_bind.
    { eapply spec_conseq; [apply init_distributed_spec | | done].
      intros e [Hd _]. congruence. }
    spec_intro ipattern:([]) Hi. clear Hi.
    eapply spec_bind.
    { eapply spec_conseq; [apply load_data_spec | | done].
      intros e (_ & ? & ? & ? & ? & ? & ? & ? & ? & ? & ? & _ & _ & He).
      by rewrite He. }
    spec_intro loader Hck.
    apply define_network_devices.
    + intros c r Hc Hg. split; [done |]. by destruct c.
    + done.
  - intros id Htrue Hindex. eapply spec_events with (Q := fun _ => True).
    unfold build_learner.
    eapply spec_bind.
    { apply device_settings_devices.
      - done.
      - intros g r Hg Ht. congruence.
      - intros g id' r Hg _ Hi. rewrite Hgpu in Hg. injection Hg as <-.
        rewrite Hindex in Hi. by injection Hi as <-. }
    spec_intro st Hst.
    destruct Hst as (g & n & Hg & Hlen & _ & Hdist & Hid & _).
    rewrite Hgpu in Hg. injection Hg as <-. rewrite Htrue, Hindex in Hid.
    injection Hid as Hid.
    eapply spec_bind.
    { eapply spec_conseq; [apply init_distributed_spec | | done].
      intros [c r] [_ Hc]. cbn in Hc. by subst c. }
    spec_intro ipattern:([]) Hi. clear Hi.
    eapply spec_bind.
    { eapply spec_conseq; [apply load_data_spec | | done].
      intros e (_ & ? & ? & ? & ? & ? & ? & ? & ? & ? & ? & _ & _ & He).
      by rewrite He. }
    spec_intro loader Hck.
    apply define_network_devices.
    + intros c r Hc Hg. by destruct c.
    + intros _ model r. by rewrite <- Hid.
Qed.

Lemma build_learner_uses_one_device_witness :
  Forall (fun e => gpu_call e.1 = false /\ on_device (VStr "cpu") e.1)
    (events_of (build_learner (Demo.fw true true) Demo.params "/p" 0 VNone)
       (Demo.start Demo.cpu_only))
  /\ Forall (fun e => on_device (VInt 1) e.1)
       (events_of (build_learner (Demo.fw true true) Demo.params "/p" 1 VNone)
          (Demo.start Demo.two_gpus)).
Proof.
  split.
  - apply (build_learner_uses_one_device (Demo.fw true true) Demo.params "/p" 0
             VNone (Demo.start Demo.cpu_only) (VRef 2%positive)); reflexivity.
  - apply (build_learner_uses_one_device (Demo.fw true true) Demo.params "/p" 1
             VNone (Demo.start Demo.two_gpus) (VRef 2%positive)); reflexivity.
Defined.

(** ** Late errors of [train_worker] *)

Lemma optim_checked h params epochs lr :
  resolve h params ["optim"; "epochs"] = Some epochs ->
  resolve h params ["optim"; "lr"] = Some lr ->
  first_unresolved h params optim_params = None.
Proof.
  intros He Hl. apply first_unresolved_none. intros param Hin.
  apply list_elem_of_In in Hin. unfold resolves. cbn in Hin.
  destruct Hin as [<- | [<- | []]]; apply bool_decide_eq_true; by eexists.
Qed.

(** X8: the section [optim] is checked last.  A configuration without
    [optim.epochs] or [optim.lr] never gets to [fit_one_cycle]; but it is
    only turned down, by the [ValueError] of the first missing path, after
    the learner is built, the checkpoint restored and the callback
    registered. *)
Theorem train_worker_checks_optim_last
    fw pindex project_dir params comm_file checkpoint restore (w : world) param :
  first_unresolved (store w) params optim_params = Some param ->
  Forall (fun e => is_fit e.1 = false)
    (events_of (train_worker fw pindex project_dir params comm_file checkpoint
                  restore) w)
  /\ forall learn w1 epoch w2 w3,
       build_learner fw params project_dir pindex comm_file (export_rank pindex w).2
       = (Ok learn, w1) ->
       restore_model fw learn pindex restore w1 = (Ok (Proceed epoch), w2) ->
       register_callbacks fw learn w2 = (Ok (), w3) ->
       train_worker fw pindex project_dir params comm_file checkpoint restore w
       = (Raise (ValueError (not_supplied param)), w3).
Proof.
  intros Hmiss. split.
  - eapply spec_events with (Q := fun _ => True). apply train_worker_spec.
    + intros c r Hc. by destruct c.
    + done.
    + done.
    + done.
    + done.
    + intros learn epochs lr r He Hl _.
      rewrite (optim_checked _ _ _ _ He Hl) in Hmiss. done.
  - intros learn w1 epoch w2 w3 Hbuild Hrestore Hreg.
    destruct (train_worker_after_build fw pindex project_dir params comm_file
                checkpoint restore w learn w1 Hbuild) as [Hs1 ->].
    assert (store w2 = store w1) as Hs2.
    { eapply run_spec_store; [| exact Hrestore].
      by apply restore_model_spec with (P := fun _ => True). }
    assert (store w3 = store w2) as Hs3.
    { eapply run_spec_store; [| exact Hreg].
      by apply register_callbacks_spec with (P := fun _ => True). }
    erewrite bind_ok by exact Hrestore. cbv beta iota.
    erewrite bind_ok by exact Hreg.
    pose proof (fit_schedule_run fw params learn epoch w3) as E.
    rewrite Hs3, Hs2, Hs1, Hmiss in E. exact E.
Qed.

Lemma train_worker_checks_optim_last_witness :
  (train_worker (Demo.fw true true) 0 "/p" Demo.params VNone VNone None
     (Demo.start (delete 7%positive Demo.cpu_only))).1
  = Raise (ValueError (not_supplied "optim.epochs"))
  /\ length (trace (train_worker (Demo.fw true true) 0 "/p" Demo.params VNone VNone
                      None (Demo.start (delete 7%positive Demo.cpu_only))).2)
     = 9%nat.
Proof.
  destruct (train_worker_checks_optim_last (Demo.fw true true) 0 "/p" Demo.params
              VNone VNone None (Demo.start (delete 7%positive Demo.cpu_only))
              "optim.epochs") as [_ Hrun].
  - vm_compute; reflexivity.
  - erewrite Hrun;
      [| vm_compute; reflexivity | vm_compute; reflexivity | vm_compute; reflexivity].
    split; vm_compute; reflexivity.
Defined.

(** X9: only a missing file is forgiven when the checkpoint is loaded.
    Any other error of the load is raised by [train_worker], right after
    the call: nothing is printed and nothing else is called. *)
Theorem train_worker_raises_error_of_load
    fw pindex project_dir params comm_file checkpoint name (w : world) learn w1 e :
  build_learner fw params project_dir pindex comm_file (export_rank pindex w).2
  = (Ok learn, w1) ->
  respond fw (trace w1) (learn_load learn (strip_pth name) false) = Raise e ->
  e <> FileNotFoundError ->
  train_worker fw pindex project_dir params comm_file checkpoint (Some name) w
  = (Raise e, log w1 [(learn_load learn (strip_pth name) false, Raise e)]).
Proof.
  intros Hbuild Hload He.
  destruct (train_worker_after_build fw pindex project_dir params comm_file
              checkpoint (Some name) w learn w1 Hbuild) as [_ ->].
  pose proof (restore_model_run fw learn pindex name w1) as E. cbn zeta in E.
  rewrite Hload in E. apply bind_raise. rewrite E. by destruct e.
Qed.

Lemma train_worker_raises_error_of_load_witness :
  exists w1,
    train_worker corrupt_checkpoint 0 "/p" Demo.params VNone VNone (Some "model_2.pth")
      (Demo.start Demo.cpu_only)
    = (Raise (OtherError "RuntimeError"),
       log w1 [(learn_load (Opaque 6) "model_2" false,
                Raise (OtherError "RuntimeError"))]).
Proof.
  eexists.
  apply (train_worker_raises_error_of_load corrupt_checkpoint 0 "/p" Demo.params
           VNone VNone "model_2.pth" (Demo.start Demo.cpu_only) (Opaque 6) _
           (OtherError "RuntimeError")).
  - vm_compute. reflexivity.
  - reflexivity.
  - discriminate.
Defined.

(** ** Decimal numbers, printed and read *)

Lemma digits_of_uint d : forall acc,
  PyStr.digits true acc (NilEmpty.string_of_uint d) = Some (decimal_value acc d).
Proof. induction d; intros acc; cbn; try done; apply IHd. Qed.

Lemma digits_of_uint_first d acc :
  d <> Decimal.Nil ->
  PyStr.digits false acc (NilEmpty.string_of_uint d) = Some (decimal_value acc d).
Proof. destruct d; intros Hd; try done; cbn; apply digits_of_uint. Qed.

Lemma decimal_value_acc d : forall acc,
  Zpos (Pos.of_uint_acc d acc) = decimal_value (Zpos acc) d.
Proof.
  induction d; intros acc; cbn [Pos.of_uint_acc decimal_value]; try done;
    rewrite IHd; f_equal; lia.
Qed.

Lemma decimal_value_of_uint d : Z.of_N (Pos.of_uint d) = decimal_value 0 d.
Proof.
  induction d; cbn [Pos.of_uint decimal_value Z.of_N]; try done;
    rewrite decimal_value_acc; f_equal.
Qed.

Lemma decimal_value_to_uint p : decimal_value 0 (Pos.to_uint p) = Zpos p.
Proof. by rewrite <- decimal_value_of_uint, DecimalPos.Unsigned.of_to. Qed.

Lemma string_of_uint_digit d :
  d <> Decimal.Nil ->
  exists c rest, NilEmpty.string_of_uint d = String c rest
                 /\ PyStr.is_space c = false /\ c <> "-"%char /\ c <> "+"%char.
Proof. destruct d; intros Hd; try done; by eexists _, _. Qed.

Lemma to_int_within s :
  (PyStr.digit_count s <= PyStr.max_str_digits)%nat ->
  PyStr.to_int s
  = match PyStr.lstrip s with
    | String "-" s' => Z.opp <$> PyStr.digits false 0 s'
    | String "+" s' => PyStr.digits false 0 s'
    | s' => PyStr.digits false 0 s'
    end.
Proof. intros H. unfold PyStr.to_int. apply Nat.leb_le in H. by rewrite H. Qed.

Lemma to_int_beyond s :
  (PyStr.max_str_digits < PyStr.digit_count s)%nat -> PyStr.to_int s = None.
Proof.
  intros H. unfold PyStr.to_int.
  destruct (Nat.leb_spec (PyStr.digit_count s) PyStr.max_str_digits); [lia | done].
Qed.

Lemma digit_count_of_uint d :
  PyStr.digit_count (NilEmpty.string_of_uint d) = Decimal.nb_digits d.
Proof.
  induction d; cbn [NilEmpty.string_of_uint PyStr.digit_count Decimal.nb_digits];
    try done; change (S (PyStr.digit_count (NilEmpty.string_of_uint d))
                      = S (Decimal.nb_digits d)); by rewrite IHd.
Qed.

Lemma to_int_of_uint d :
  d <> Decimal.Nil ->
  (Decimal.nb_digits d <= PyStr.max_str_digits)%nat ->
  PyStr.to_int (NilEmpty.string_of_uint d) = Some (decimal_value 0 d).
Proof.
  intros Hd Hn. rewrite to_int_within by (by rewrite digit_count_of_uint).
  destruct (string_of_uint_digit d Hd) as (c & rest & E & Hsp & Hm & Hp).
  rewrite <- (digits_of_uint_first d 0 Hd). rewrite E.
  cbn [PyStr.lstrip]. rewrite Hsp.
  destruct c as [[] [] [] [] [] [] [] []]; try done.
Qed.

Lemma decimal_value_split d : forall acc,
  decimal_value acc d = acc * 10 ^ Z.of_nat (Decimal.nb_digits d) + decimal_value 0 d.
Proof.
  induction d; intros acc; cbn [decimal_value Decimal.nb_digits];
    [rewrite Z.pow_0_r; lia | ..];
    rewrite IHd, (IHd (10 * 0 + _)), Nat2Z.inj_succ, Z.pow_succ_r by lia; ring.
Qed.

Lemma decimal_value_range d :
  0 <= decimal_value 0 d < 10 ^ Z.of_nat (Decimal.nb_digits d).
Proof.
  induction d; cbn [decimal_value Decimal.nb_digits];
    [rewrite Z.pow_0_r; lia | ..];
    rewrite decimal_value_split, Nat2Z.inj_succ, Z.pow_succ_r by lia;
    pose proof (Z.pow_pos_nonneg 10 (Z.of_nat (Decimal.nb_digits d))); lia.
Qed.

Lemma decimal_value_leading d :
  leading d = true ->
  10 ^ Z.of_nat (Decimal.nb_digits d - 1) <= decimal_value 0 d.
Proof.
  destruct d; intros Hd; try done; cbn [decimal_value Decimal.nb_digits];
    rewrite Nat.sub_succ, Nat.sub_0_r, decimal_value_split;
    pose proof (decimal_value_range d);
    pose proof (Z.pow_pos_nonneg 10 (Z.of_nat (Decimal.nb_digits d))); lia.
Qed.

Lemma to_uint_leading p : leading (Pos.to_uint p) = true.
Proof.
  pose proof (DecimalPos.Unsigned.to_of (Pos.to_uint p)) as Hnorm.
  rewrite DecimalPos.Unsigned.of_to in Hnorm. cbn [N.to_uint] in Hnorm.
  pose proof (DecimalPos.Unsigned.to_uint_nonzero p) as Hzero.
  pose proof (DecimalPos.Unsigned.to_uint_nonnil p) as Hnil.
  destruct (Pos.to_uint p) as [| d | | | | | | | | |]; try done.
  exfalso. unfold Decimal.unorm in Hnorm. cbn [Decimal.nzhead] in Hnorm.
  pose proof (DecimalFacts.nb_digits_nzhead d) as Hle.
  destruct (Decimal.nzhead d) eqn:E.
  - injection Hnorm as Hd. subst d. by apply Hzero.
  - rewrite <- Hnorm in Hle. cbn [Decimal.nb_digits] in Hle. lia.
  - discriminate.
  - discriminate.
  - discriminate.
  - discriminate.
  - discriminate.
  - discriminate.
  - discriminate.
  - discriminate.
  - discriminate.
Qed.

(** A positive number has no more than [k] digits when it is below
    [10 ^ k], and only then. *)
Lemma nb_digits_bound p k :
  (Decimal.nb_digits (Pos.to_uint p) <= k)%nat <-> Zpos p < 10 ^ Z.of_nat k.
Proof.
  rewrite <- (decimal_value_to_uint p).
  pose proof (decimal_value_range (Pos.to_uint p)) as Hr.
  pose proof (decimal_value_leading _ (to_uint_leading p)) as Hl.
  split.
  - intros Hk. eapply Z.lt_le_trans; [apply Hr |].
    apply Z.pow_le_mono_r; lia.
  - intros Hlt.
    destruct (Nat.le_gt_cases (Decimal.nb_digits (Pos.to_uint p)) k) as [| Hgt];
      [done |].
    exfalso.
    assert (10 ^ Z.of_nat k <= 10 ^ Z.of_nat (Decimal.nb_digits (Pos.to_uint p) - 1))
      by (apply Z.pow_le_mono_r; lia).
    lia.
Qed.

Lemma of_int_positive p :
  PyStr.of_int (Zpos p) = NilEmpty.string_of_uint (Pos.to_uint p)
  /\ PyStr.of_int (Zneg p) = String "-" (NilEmpty.string_of_uint (Pos.to_uint p)).
Proof.
  unfold PyStr.of_int. cbn [Z.to_int NilZero.string_of_int NilZero.string_of_uint].
  pose proof (DecimalPos.Unsigned.to_uint_nonnil p) as Hnil.
  assert (NilZero.string_of_uint (Pos.to_uint p)
          = NilEmpty.string_of_uint (Pos.to_uint p)) as ->; [| done].
  by destruct (Pos.to_uint p).
Qed.

Lemma int_limit_positive : 1 < int_limit.
Proof.
  unfold int_limit. apply Z.pow_gt_1; [lia |].
  change PyStr.max_str_digits with (S 4299). lia.
Qed.

(** [int(str(n))] is [n] as long as [n] is below the limit, and raises
    from there on. *)
Lemma to_int_of_int n :
  PyStr.to_int (PyStr.of_int n) = if Z.abs n <? int_limit then Some n else None.
Proof.
  pose proof int_limit_positive as Hlim.
  destruct n as [| p | p].
  - destruct (Z.ltb_spec (Z.abs 0) int_limit); [| cbn in *; lia].
    rewrite to_int_within; [done |].
    change (PyStr.digit_count (PyStr.of_int 0)) with 1%nat.
    change PyStr.max_str_digits with (S 4299). lia.
  - destruct (of_int_positive p) as [-> _].
    pose proof (nb_digits_bound p PyStr.max_str_digits) as Hb.
    pose proof (DecimalPos.Unsigned.to_uint_nonnil p) as Hnil.
    change (Z.abs (Zpos p)) with (Zpos p). fold int_limit in Hb.
    destruct (Z.ltb_spec (Zpos p) int_limit) as [Hlt | Hge].
    + rewrite to_int_of_uint by (by try apply Hb).
      by rewrite decimal_value_to_uint.
    + apply to_int_beyond. rewrite digit_count_of_uint.
      destruct (Nat.le_gt_cases (Decimal.nb_digits (Pos.to_uint p))
                  PyStr.max_str_digits) as [Hle | Hgt]; [| done].
      apply Hb in Hle. lia.
  - destruct (of_int_positive p) as [_ ->].
    pose proof (nb_digits_bound p PyStr.max_str_digits) as Hb.
    pose proof (DecimalPos.Unsigned.to_uint_nonnil p) as Hnil.
    change (Z.abs (Zneg p)) with (Zpos p). fold int_limit in Hb.
    assert (PyStr.digit_count (String "-" (NilEmpty.string_of_uint (Pos.to_uint p)))
            = Decimal.nb_digits (Pos.to_uint p)) as Hcount
      by (by rewrite <- digit_count_of_uint).
    destruct (Z.ltb_spec (Zpos p) int_limit) as [Hlt | Hge].
    + rewrite to_int_within by (rewrite Hcount; by apply Hb).
      change (PyStr.lstrip (String "-" ?s)) with (String "-" s). cbv iota beta.
      rewrite digits_of_uint_first by done. cbn [fmap option_fmap option_map].
      by rewrite decimal_value_to_uint.
    + apply to_int_beyond. rewrite Hcount.
      destruct (Nat.le_gt_cases (Decimal.nb_digits (Pos.to_uint p))
                  PyStr.max_str_digits) as [Hle | Hgt]; [| done].
      apply Hb in Hle. lia.
Qed.

(** ** Fields of a file name *)

Lemma split_not_nil sep s : PyStr.split sep s <> [].
Proof.
  destruct s as [| c s]; [done |]. cbn.
  destruct (Ascii.eqb c sep); [done |]. by destruct (PyStr.split sep s).
Qed.

Lemma split_no_sep sep s : occurs sep s = false -> PyStr.split sep s = [s].
Proof.
  induction s as [| c s IH]; [done |]. cbn.
  destruct (Ascii.eqb c sep); [done |]. cbn. intros H. by rewrite IH.
Qed.

Lemma split_app sep a b :
  PyStr.split sep (a +:+ String sep b) = PyStr.split sep a ++ PyStr.split sep b.
Proof.
  induction a as [| c a IH].
  - change ("" +:+ String sep b) with (String sep b).
    cbn [PyStr.split app]. by rewrite Ascii.eqb_refl.
  - change (String c a +:+ String sep b) with (String c (a +:+ String sep b)).
    cbn [PyStr.split]. rewrite IH.
    destruct (Ascii.eqb c sep); [done |].
    pose proof (split_not_nil sep a) as Ha.
    by destruct (PyStr.split sep a).
Qed.

Lemma last_field_app l x : PyStr.last_field (l ++ [x]) = x.
Proof. apply List.last_last. Qed.

Lemma occurs_in_digits c d :
  PyStr.digit_of c = None -> occurs c (NilEmpty.string_of_uint d) = false.
Proof.
  intros Hc. induction d; cbn [NilEmpty.string_of_uint occurs]; try done;
    rewrite IHd, orb_false_r; apply Ascii.eqb_neq; intros <-; done.
Qed.

Lemma occurs_in_int c n :
  PyStr.digit_of c = None -> c <> "-"%char -> occurs c (PyStr.of_int n) = false.
Proof.
  intros Hc Hm. unfold PyStr.of_int.
  assert (forall d, occurs c (NilZero.string_of_uint d) = false) as Hu.
  { intros d. unfold NilZero.string_of_uint.
    destruct d; try (by apply occurs_in_digits).
    cbn [occurs]. rewrite orb_false_r. apply Ascii.eqb_neq. intros <-. done. }
  destruct n as [| p | p]; cbn [Z.to_int NilZero.string_of_int].
  - apply Hu.
  - apply Hu.
  - cbn [occurs]. rewrite Hu, orb_false_r. apply Ascii.eqb_neq. congruence.
Qed.

Lemma occurs_app c a b : occurs c (a +:+ b) = occurs c a || occurs c b.
Proof.
  induction a as [| c' a IH]; [done |].
  change (String c' a +:+ b) with (String c' (a +:+ b)). cbn [occurs].
  by rewrite IH, orb_assoc.
Qed.

Lemma last_char_app a b : b <> "" -> last_char (a +:+ b) = last_char b.
Proof.
  intros Hb. induction a as [| c a IH]; [done |].
  change (String c a +:+ b) with (String c (a +:+ b)). cbn [last_char].
  rewrite IH. destruct (a +:+ b) eqn:E; [| done].
  destruct a; [| done]. cbn in E. by subst.
Qed.

Lemma last_char_of_digits d :
  d <> Decimal.Nil ->
  exists c, last_char (NilEmpty.string_of_uint d) = Some c
            /\ PyStr.digit_of c <> None.
Proof.
  induction d; intros Hd; try done;
    (assert (d = Decimal.Nil \/ d <> Decimal.Nil) as [-> | Hn]
       by (destruct d; first [by left | by right]);
     [by eexists | destruct (IHd Hn) as (c & Hc & Hdig); exists c; split; [| done];
                   cbn [NilEmpty.string_of_uint last_char];
                   by destruct (NilEmpty.string_of_uint d)]).
Qed.

Lemma of_int_not_empty n : PyStr.of_int n <> "".
Proof.
  unfold PyStr.of_int. destruct n as [| p | p]; [done | | done].
  cbn [Z.to_int NilZero.string_of_int].
  pose proof (DecimalPos.Unsigned.to_uint_nonnil p) as Hnil.
  by destruct (Pos.to_uint p).
Qed.

Lemma last_char_of_int n :
  exists c, last_char (PyStr.of_int n) = Some c /\ PyStr.digit_of c <> None.
Proof.
  unfold PyStr.of_int. destruct n as [| p | p]; [by eexists | |];
    cbn [Z.to_int NilZero.string_of_int];
    pose proof (DecimalPos.Unsigned.to_uint_nonnil p) as Hnil;
    destruct (last_char_of_digits (Pos.to_uint p) Hnil) as (c & Hc & Hd);
    exists c; (split; [| done]).
  - by destruct (Pos.to_uint p).
  - replace (NilZero.string_of_uint (Pos.to_uint p))
      with (NilEmpty.string_of_uint (Pos.to_uint p)) by (by destruct (Pos.to_uint p)).
    cbn [last_char]. by destruct (NilEmpty.string_of_uint (Pos.to_uint p)).
Qed.

(** ** Resuming from a saved model *)

Lemma string_app_assoc a b c : (a +:+ b) +:+ c = a +:+ (b +:+ c).
Proof.
  induction a as [| x a IH]; [done |].
  change (String x ((a +:+ b) +:+ c) = String x (a +:+ (b +:+ c))). by rewrite IH.
Qed.

Lemma strip_pth_keeps name c :
  last_char name = Some c -> c <> "h"%char -> strip_pth name = name.
Proof.
  intros Hlast Hc. apply strip_pth_other. intros stem ->.
  rewrite last_char_app in Hlast by done. cbn in Hlast. congruence.
Qed.

Lemma saved_as_fields stem n :
  occurs "_" stem = false ->
  PyStr.split "_" (saved_as stem n) = [stem; PyStr.of_int n].
Proof.
  intros Hstem. unfold saved_as.
  change ("_" +:+ PyStr.of_int n) with (String "_" (PyStr.of_int n)).
  rewrite split_app, (split_no_sep _ stem Hstem), split_no_sep; [done |].
  by apply occurs_in_int.
Qed.

Lemma saved_as_one_component stem n :
  occurs "/" stem = false -> occurs "/" (saved_as stem n) = false.
Proof.
  intros Hstem. unfold saved_as. rewrite !occurs_app, Hstem.
  rewrite occurs_in_int by done. done.
Qed.

Lemma in_directory_component dir file :
  occurs "/" file = false ->
  PyStr.last_field (PyStr.split "/" (in_directory dir file)) = file.
Proof.
  intros Hfile. destruct dir as [dir |]; cbn [in_directory].
  - change ("/" +:+ file) with (String "/" file).
    rewrite split_app, (split_no_sep _ file Hfile). apply last_field_app.
  - by rewrite split_no_sep.
Qed.

Lemma resume_epoch_saved dir stem n :
  occurs "_" stem = false -> occurs "/" stem = false ->
  resume_epoch (in_directory dir (saved_as stem n)) = epoch_after n.
Proof.
  intros Hu Hs. unfold resume_epoch, epoch_after.
  rewrite in_directory_component by (by apply saved_as_one_component).
  rewrite saved_as_fields by done. cbn [length Nat.ltb Nat.leb nth].
  rewrite to_int_of_int. by destruct (Z.abs n <? int_limit).
Qed.

Lemma in_directory_app dir file ext :
  in_directory dir (file +:+ ext) = in_directory dir file +:+ ext.
Proof.
  destruct dir as [dir |]; cbn [in_directory]; [| done].
  by rewrite !string_app_assoc.
Qed.

Lemma in_directory_last_char dir file :
  file <> "" -> last_char (in_directory dir file) = last_char file.
Proof.
  intros Hf. destruct dir as [dir |]; cbn [in_directory]; [| done].
  rewrite <- string_app_assoc. by apply last_char_app.
Qed.

Lemma string_app_nil s : s +:+ "" = s.
Proof.
  induction s as [| c s IH]; [done |].
  change (String c (s +:+ "") = String c s). by rewrite IH.
Qed.

(** The name that is loaded for a saved file, given with or without its
    extension. *)
Lemma strip_pth_saved dir stem n ext :
  ext = "" \/ ext = ".pth" ->
  strip_pth (in_directory dir (saved_as stem n +:+ ext))
  = in_directory dir (saved_as stem n).
Proof.
  intros [-> | ->].
  - rewrite string_app_nil.
    destruct (last_char_of_int n) as (c & Hc & Hd).
    apply (strip_pth_keeps _ c); [| by intros ->].
    rewrite in_directory_last_char.
    + unfold saved_as. rewrite <- string_app_assoc.
      rewrite last_char_app; [done | apply of_int_not_empty].
    + unfold saved_as. by destruct stem.
  - by rewrite in_directory_app, strip_pth_extension.
Qed.

(** X10: printing and reading the epoch are inverse, as far as [int]
    reads.  Let [restore] be a stem without underscore and slash, an
    underscore and the decimal numeral of [n], in a directory or not, with
    or without the extension [.pth].  Then the file is loaded under that
    name without the extension, and in a run in which the learner is
    built, the file loads and the callback is registered, [train_worker]
    ends with [fit_one_cycle] from the epoch [n + 1] when [n] is below
    [10 ^ 4300] in magnitude; from there on [int] refuses the numeral and
    the start epoch is [None]. *)
Theorem train_worker_resumes_after_saved_epoch
    fw pindex project_dir params comm_file checkpoint (dir : option string)
    (stem ext : string) (n : Z) (w : world) learn w1 o w3 :
  occurs "_" stem = false ->
  occurs "/" stem = false ->
  ext = "" \/ ext = ".pth" ->
  build_learner fw params project_dir pindex comm_file (export_rank pindex w).2
  = (Ok learn, w1) ->
  respond fw (trace w1) (learn_load learn (in_directory dir (saved_as stem n)) false)
  = Ok o ->
  register_callbacks fw learn
    (log w1 ((learn_load learn (in_directory dir (saved_as stem n)) false, Ok o)
             :: if pindex =? 0
                then [(print (loaded_model (in_directory dir (saved_as stem n))),
                       Ok (Data VNone))]
                else []))
  = (Ok (), w3) ->
  first_unresolved (store w) params optim_params = None ->
  strip_pth (in_directory dir (saved_as stem n +:+ ext))
  = in_directory dir (saved_as stem n)
  /\ start_epoch_arg (Some (in_directory dir (saved_as stem n +:+ ext)))
     = (if Z.abs n <? 10 ^ 4300 then VInt (n + 1) else VNone)
  /\ exists epochs lr,
       resolve (store w) params ["optim"; "epochs"] = Some epochs
       /\ resolve (store w) params ["optim"; "lr"] = Some lr
       /\ train_worker fw pindex project_dir params comm_file checkpoint
            (Some (in_directory dir (saved_as stem n +:+ ext))) w
          = let c := fit_one_cycle learn epochs lr epochs
                       (if Z.abs n <? 10 ^ 4300 then VInt (n + 1) else VNone) in
            (match respond fw (trace w3) c with
             | Ok _ => Ok ()
             | Raise e => Raise e
             end, log w3 [(c, respond fw (trace w3) c)]).
Proof.
  intros Hu Hs Hext Hbuild Hload Hreg Hoptim.
  pose proof (strip_pth_saved dir stem n ext Hext) as Hstrip.
  pose proof (resume_epoch_saved dir stem n Hu Hs) as Hepoch.
  unfold epoch_after, int_limit in Hepoch.
  change (Z.of_nat PyStr.max_str_digits) with 4300 in Hepoch.
  split; [done |].
  split; [cbn [start_epoch_arg]; by rewrite Hstrip |].
  rewrite <- Hstrip in Hload, Hreg.
  destruct (train_worker_loaded_run fw pindex project_dir params comm_file checkpoint
              _ w learn w1 o w3 Hbuild Hload Hreg Hoptim)
    as (epochs & lr & He & Hl & Hrun).
  exists epochs, lr. split; [done |]. split; [done |].
  rewrite Hrun, Hstrip, Hepoch. done.
Qed.

Lemma train_worker_resumes_after_saved_epoch_witness :
  strip_pth "runs/model_12.pth" = "runs/model_12"
  /\ start_epoch_arg (Some "runs/model_12.pth") = VInt 13
  /\ (train_worker (Demo.fw true true) 0 "/p" Demo.params VNone VNone
        (Some "runs/model_12.pth") (Demo.start Demo.cpu_only)).1 = Ok ()
  /\ last (trace (train_worker (Demo.fw true true) 0 "/p" Demo.params VNone VNone
                    (Some "runs/model_12.pth") (Demo.start Demo.cpu_only)).2)
     = Some (fit_one_cycle (Opaque 6) (VInt 3) (VFloat 4562254508917369340)
               (VInt 3) (VInt 13), Ok (Opaque 11)).
Proof.
  edestruct (train_worker_resumes_after_saved_epoch (Demo.fw true true) 0 "/p"
               Demo.params VNone VNone (Some "runs") "model" ".pth" 12
               (Demo.start Demo.cpu_only))
    as (Hstrip & Harg & epochs & lr & He & Hl & Hrun);
    [reflexivity | reflexivity | by right | vm_compute; reflexivity
    | vm_compute; reflexivity | vm_compute; reflexivity | vm_compute; reflexivity |].
  split; [exact Hstrip |]. split; [exact Harg |].
  vm_compute in He. vm_compute in Hl. injection He as <-. injection Hl as <-.
  change (in_directory (Some "runs") (saved_as "model" 12 +:+ ".pth"))
    with "runs/model_12.pth" in Hrun.
  rewrite Hrun. split; vm_compute; reflexivity.
Defined.

(** A numeral of 4301 digits is not read, and training starts anew. *)
Example resume_beyond_the_limit :
  start_epoch_arg (Some (saved_as "model" (10 ^ 4300))) = VNone.
Proof.
  cbn [start_epoch_arg].
  pose proof (strip_pth_saved None "model" (10 ^ 4300) "" (or_introl eq_refl)) as H.
  rewrite string_app_nil in H. cbn [in_directory] in H. rewrite H.
  pose proof (resume_epoch_saved None "model" (10 ^ 4300) eq_refl eq_refl) as E.
  cbn [in_directory] in E. rewrite E. vm_compute. reflexivity.
Qed.

(** A name with an underscore of its own is read at the wrong field, and
    training starts anew without a word. *)
Example resume_with_underscore_in_name :
  start_epoch_arg (Some "my_model_3.pth") = VNone
  /\ start_epoch_arg (Some "en_2_7") = VInt 3.
Proof. split; reflexivity. Qed.

(** ** The environment of the process *)

Lemma env_ret {A} (a : A) : keeps_environ (mret a).
Proof. by intros w. Qed.

Lemma env_raise {A} e : keeps_environ (raise e : M A).
Proof. by intros w. Qed.

Lemma env_reading {A} (f : heap -> result A) : keeps_environ (reading f).
Proof. by intros w. Qed.

Lemma env_invoke fw c : keeps_environ (invoke fw c).
Proof. by intros w. Qed.

Lemma env_record c : keeps_environ (record c).
Proof. by intros w. Qed.

Lemma env_bind {A B} (m : M A) (k : A -> M B) :
  keeps_environ m -> (forall a, keeps_environ (k a)) -> keeps_environ (m ≫= k).
Proof.
  intros Hm Hk w. unfold mbind, M_bind. specialize (Hm w).
  destruct (m w) as [[a | e] w'] eqn:E; cbn in *; [| done].
  by rewrite Hk.
Qed.

Lemma env_try {A} (m : M A) handler :
  keeps_environ m -> (forall e, keeps_environ (handler e)) ->
  keeps_environ (try_except m handler).
Proof.
  intros Hm Hh w. unfold try_except. specialize (Hm w).
  destruct (m w) as [[a | e] w'] eqn:E; cbn in *; [done |].
  by rewrite Hh.
Qed.

Ltac env_step :=
  match goal with
  | |- keeps_environ (mret _) => apply env_ret
  | |- keeps_environ (raise _) => apply env_raise
  | |- keeps_environ (reading _) => apply env_reading
  | |- keeps_environ (pure _) => apply env_reading
  | |- keeps_environ (getitem _ _) => apply env_reading
  | |- keeps_environ (format _ _) => apply env_reading
  | |- keeps_environ (invoke _ _) => apply env_invoke
  | |- keeps_environ (record _) => apply env_record
  | |- keeps_environ (_ ≫= _) => apply env_bind; [| intros ?]
  | |- keeps_environ (try_except _ _) => apply env_try; [| intros ?]
  | |- keeps_environ (if ?b then _ else _) => destruct b
  | |- keeps_environ (match ?x with _ => _ end) => destruct x
  | |- keeps_environ (invoke_ _ _) => unfold invoke_
  | |- keeps_environ (getitem2 _ _ _) => unfold getitem2
  end.

Lemma env_lookup_keys keys : forall val, keeps_environ (lookup_keys val keys).
Proof.
  induction keys as [| key keys IH]; intros val; cbn [lookup_keys].
  - apply env_ret.
  - apply env_bind; [apply env_reading | intros v; apply IH].
Qed.

Lemma env_check_params params param_list :
  keeps_environ (check_params params param_list).
Proof.
  induction param_list as [| param param_list IH]; cbn [check_params].
  - apply env_ret.
  - apply env_bind; [| intros ?; apply IH].
    apply env_try; [| intros e; destruct e; apply env_raise].
    apply env_bind; [apply env_lookup_keys | intros ?; apply env_ret].
Qed.

Lemma env_build_learner fw params project_dir pindex comm_file :
  keeps_environ (build_learner fw params project_dir pindex comm_file).
Proof.
  unfold build_learner, device_settings, init_distributed, load_data,
    define_network, to_device.
  repeat first [apply env_check_params | env_step].
Qed.

Lemma env_after_build fw params pindex learn restore :
  keeps_environ
    (after ← restore_model fw learn pindex restore;
     match after with
     | Returned => mret ()
     | Proceed epoch =>
         register_callbacks fw learn;; fit_schedule fw params learn epoch
     end).
Proof.
  unfold restore_model, register_callbacks, fit_schedule.
  repeat first [apply env_check_params | env_step].
Qed.

Lemma export_rank_environ pindex w :
  export_rank pindex w
  = (Ok (), {| store := store w; environ := with_rank pindex (environ w);
               trace := trace w |}).
Proof.
  unfold export_rank, with_rank, os_getenv, os_setenv, mbind, M_bind.
  destruct w as [h env t]; cbn.
  destruct (env !! "RANK") as [[| c s] |]; cbn.
  - rewrite decide_True by (by right). done.
  - rewrite decide_False by (by intros [|]). done.
  - rewrite decide_True by (by left). done.
Qed.

(** X11: the one variable [train_worker] writes.  Whatever the platform
    answers and however the run ends, with a result or an exception, the
    statements of [train_worker] and [build_learner] leave the
    environment as it was but for [RANK], which holds the decimal numeral
    of [pindex] if it was unset or empty, and is kept if it was set: a
    rank that is set is not overwritten, also when it differs from
    [pindex]. *)
Theorem train_worker_writes_rank_only
    fw pindex project_dir params comm_file checkpoint restore (w : world) :
  let env := environ
      (train_worker fw pindex project_dir params comm_file checkpoint restore w).2 in
  env = with_rank pindex (environ w)
  /\ (forall name, name <> "RANK" -> env !! name = environ w !! name)
  /\ (forall rank, environ w !! "RANK" = Some rank -> rank <> "" ->
      env !! "RANK" = Some rank)
  /\ (environ w !! "RANK" = None \/ environ w !! "RANK" = Some "" ->
      env !! "RANK" = Some (PyStr.of_int pindex))
  /\ exists rank, env !! "RANK" = Some rank /\ rank <> "".
Proof.
  intros env.
  assert (env = with_rank pindex (environ w)) as ->.
  { subst env. unfold train_worker.
    unfold mbind at 1, M_bind at 1. rewrite export_rank_environ.
    match goal with |- environ (?m ?w0).2 = _ =>
      assert (keeps_environ m) as Hm; [| by rewrite Hm] end.
    apply env_bind; [apply env_build_learner | intros learn; apply env_after_build]. }
  split; [done |]. unfold with_rank.
  repeat split.
  - intros name Hname. destruct (environ w !! "RANK") as [[| c s] |]; try done;
      by rewrite lookup_insert_ne.
  - intros rank Hrank Hne. rewrite Hrank. destruct rank; [done |]. done.
  - intros [H | H]; rewrite H; by rewrite lookup_insert.
  - destruct (environ w !! "RANK") as [[| c s] |] eqn:E.
    + exists (PyStr.of_int pindex). rewrite lookup_insert. split; [done |].
      apply of_int_not_empty.
    + exists (String c s). by rewrite E.
    + exists (PyStr.of_int pindex). rewrite lookup_insert. split; [done |].
      apply of_int_not_empty.
Qed.

(** ** What is printed *)

Lemma schedule_prints_nothing fw params learn epoch w :
  run_spec (register_callbacks fw learn;; fit_schedule fw params learn epoch) w
    (fun e => is_print e.1 = false) (fun _ => True).
Proof.
  eapply spec_bind; [by apply register_callbacks_spec |].
  intros [] w' _ _ _. by apply fit_schedule_spec.
Qed.

Lemma after_build_prints fw params learn pindex restore w :
  exists evs,
    trace ((after ← restore_model fw learn pindex restore;
            match after with
            | Returned => mret ()
            | Proceed epoch =>
                register_callbacks fw learn;; fit_schedule fw params learn epoch
            end) w).2 = trace w ++ evs
    /\ calls_of is_print evs = restore_messages fw learn pindex restore w.
Proof.
  destruct restore as [name |].
  - pose proof (restore_model_run fw learn pindex name w) as E. cbn zeta in E.
    unfold restore_messages.
    destruct (respond fw (trace w) _) as [o | e].
    + erewrite bind_ok by exact E.
      destruct (schedule_prints_nothing fw params learn
                  (resume_epoch (strip_pth name))
                  (log w ((learn_load learn (strip_pth name) false, Ok o)
                          :: (if pindex =? 0
                              then [(print (loaded_model (strip_pth name)),
                                     Ok (Data VNone))]
                              else []))))
        as (_ & (evs & Ht & Hp) & _).
      eexists. split; [rewrite Ht; cbn [log trace]; by rewrite <- app_assoc |].
      rewrite calls_of_app, (calls_of_none _ evs Hp), app_nil_r.
      by destruct (pindex =? 0).
    + destruct e;
        try (erewrite bind_raise by exact E; eexists; split; [done |];
             by destruct (pindex =? 0)).
      erewrite bind_ok by exact E. eexists. split; [done |].
      by destruct (pindex =? 0).
  - destruct (schedule_prints_nothing fw params learn VNone w)
      as (_ & (evs & Ht & Hp) & _).
    exists evs. split; [exact Ht |]. by apply calls_of_none.
Qed.

Lemma train_worker_prints fw pindex project_dir params comm_file checkpoint restore w :
  calls_of is_print
    (events_of (train_worker fw pindex project_dir params comm_file checkpoint
                  restore) w) = []
  \/ exists learn w1,
       build_learner fw params project_dir pindex comm_file (export_rank pindex w).2
       = (Ok learn, w1)
       /\ calls_of is_print
            (events_of (train_worker fw pindex project_dir params comm_file
                          checkpoint restore) w)
          = restore_messages fw learn pindex restore w1.
Proof.
  destruct (export_rank_run pindex w) as [env E].
  destruct (build_learner fw params project_dir pindex comm_file
              (export_rank pindex w).2) as [[learn | e] w1] eqn:Hb.
  - right. exists learn, w1. split; [done |].
    destruct (train_worker_after_build fw pindex project_dir params comm_file
                checkpoint restore w learn w1 Hb) as [_ Htw].
    destruct (run_spec_trace _ _ _ _ _ _
                (build_learner_calls fw params project_dir pindex comm_file _) Hb)
      as (evs1 & Ht1 & Hp1).
    destruct (after_build_prints fw params learn pindex restore w1)
      as (evs2 & Ht2 & Hp2).
    rewrite (events_of_eq _ w (evs1 ++ evs2)).
    + rewrite calls_of_app, Hp2, (calls_of_none _ evs1); [done |].
      eapply Forall_impl; [exact Hp1 |]. intros [c r] Hc. by destruct c.
    + rewrite Htw, Ht2, Ht1, E. cbn [snd trace]. by rewrite app_assoc.
  - left.
    destruct (run_spec_trace _ _ _ _ _ _
                (build_learner_calls fw params project_dir pindex comm_file _) Hb)
      as (evs1 & Ht1 & Hp1).
    rewrite (events_of_eq _ w evs1).
    + apply calls_of_none.
      eapply Forall_impl; [exact Hp1 |]. intros [c r] Hc. by destruct c.
    + unfold train_worker. erewrite bind_ok by exact E.
      rewrite E in Hb. cbn [snd] in Hb. erewrite bind_raise by exact Hb.
      cbn [snd]. rewrite Ht1. by rewrite E.
Qed.

(** X12: one worker speaks.  In a run of [train_worker] at most one
    message is printed; none is printed by a worker whose [pindex] is not
    0, and none without [restore]; the message of the worker 0 says that
    the model named by [restore], without the extension [.pth], was loaded
    or that its file was not found. *)
Theorem train_worker_prints_once_on_rank_zero
    fw pindex project_dir params comm_file checkpoint restore (w : world) :
  let prints :=
    calls_of is_print
      (events_of (train_worker fw pindex project_dir params comm_file checkpoint
                    restore) w) in
  (length prints <= 1)%nat
  /\ (pindex <> 0 \/ restore = None -> prints = [])
  /\ Forall (fun e =>
       pindex = 0
       /\ exists name, restore = Some name
          /\ (e.1 = print (loaded_model (strip_pth name))
              \/ exists dir, e.1 = print (not_found dir (strip_pth name))))
       prints.
Proof.
  intros prints.
  destruct (train_worker_prints fw pindex project_dir params comm_file checkpoint
              restore w) as [H | (learn & w1 & _ & H)]; subst prints; rewrite H.
  - split; [cbn; lia |]. split; [done | constructor].
  - unfold restore_messages. destruct restore as [name |].
    + destruct (pindex =? 0) eqn:Hp.
      * apply Z.eqb_eq in Hp.
        destruct (respond fw (trace w1) _) as [o | e]; [| destruct e];
          (split; [cbn; lia |]); (split; [by intros [? | ?] |]);
          try constructor; try constructor; try (split; [done |]);
          try (exists name; split; [done |]); by eauto.
      * split; [cbn; lia |]. split; [done | constructor].
    + split; [cbn; lia |]. split; [done | constructor].
Qed.

(** ** More on [check_params] *)

Lemma first_unresolved_app h params l1 l2 :
  first_unresolved h params (l1 ++ l2)
  = match first_unresolved h params l1 with
    | Some param => Some param
    | None => first_unresolved h params l2
    end.
Proof.
  unfold first_unresolved. induction l1 as [| p l1 IH]; [done |].
  cbn [app List.find]. by destruct (negb (resolves h params p)).
Qed.

(** X13: checking two lists one after the other is checking the one list
    of both: the same outcome in every world, so the first missing path
    of the first list is reported if it has one, and that of the second
    list otherwise. *)
Theorem check_params_of_concatenation
    (params : value) (l1 l2 : list string) (w : world) :
  check_params params (l1 ++ l2) w
  = (check_params params l1;; check_params params l2) w
  /\ first_unresolved (store w) params (l1 ++ l2)
     = match first_unresolved (store w) params l1 with
       | Some param => Some param
       | None => first_unresolved (store w) params l2
       end.
Proof.
  split; [| apply first_unresolved_app].
  rewrite check_params_run, first_unresolved_app.
  pose proof (check_params_run params l1 w) as E1.
  destruct (first_unresolved (store w) params l1) as [param |].
  - by erewrite bind_raise by exact E1.
  - erewrite bind_ok by exact E1. by rewrite check_params_run.
Qed.

Lemma resolve_app h keys1 keys2 : forall val,
  resolve h val (keys1 ++ keys2)
  = resolve h val keys1 ≫= fun v => resolve h v keys2.
Proof.
  induction keys1 as [| key keys1 IH]; intros val; [done |].
  cbn [app resolve]. destruct val as [| | | | | l]; try done.
  destruct (h !! l) as [[d | xs] |]; try done.
  destruct (d !! key) as [v |]; [apply IH | done].
Qed.

Lemma resolve_dictionary h val keys v :
  keys <> [] -> resolve h val keys = Some v ->
  exists l d, val = VRef l /\ h !! l = Some (ODict d).
Proof.
  destruct keys as [| key keys]; [done |]. intros _. cbn [resolve].
  destruct val as [| | | | | l]; try done.
  destruct (h !! l) as [[d | xs] |] eqn:E; try done. intros _. by exists l, d.
Qed.

Lemma check_params_one params param w :
  (check_params params [param] w).1 = Ok () <->
  is_Some (resolve (store w) params (PyStr.split "." param)).
Proof.
  rewrite check_params_run. cbn [first_unresolved List.find]. unfold resolves.
  destruct (resolve (store w) params (PyStr.split "." param)) as [v |].
  - rewrite bool_decide_eq_true_2 by (by eexists). cbn. split; [by eexists | done].
  - rewrite bool_decide_eq_false_2 by (by intros [? ?]). cbn.
    split; [done | by intros [? ?]].
Qed.

(** X14: a path leads through dictionaries only.  If [check_params]
    accepts the path [p.q], it accepts [p] as well, and what the
    configuration holds at [p] is a dictionary: below a list, a string, a
    number or [None] no path is accepted, whatever its last part. *)
Theorem check_params_accepts_through_dictionaries
    (params : value) (p q : string) (w : world) :
  (check_params params [p +:+ "." +:+ q] w).1 = Ok () ->
  (check_params params [p] w).1 = Ok ()
  /\ exists l d,
       resolve (store w) params (PyStr.split "." p) = Some (VRef l)
       /\ store w !! l = Some (ODict d).
Proof.
  rewrite !check_params_one.
  change ("." +:+ q) with (String "." q). rewrite split_app, resolve_app.
  intros [v Hv].
  destruct (resolve (store w) params (PyStr.split "." p)) as [x |] eqn:E; [| done].
  cbn [mbind option_bind] in Hv.
  destruct (resolve_dictionary _ _ _ _ (split_not_nil _ _) Hv) as (l & d & -> & Hd).
  split; [by eexists |]. by exists l, d.
Qed.

Lemma check_params_accepts_through_dictionaries_witness :
  (check_params Demo.params ["data"] (Demo.start Demo.two_gpus)).1 = Ok ()
  /\ exists l d,
       resolve Demo.two_gpus Demo.params ["data"] = Some (VRef l)
       /\ Demo.two_gpus !! l = Some (ODict d).
Proof.
  apply (check_params_accepts_through_dictionaries Demo.params "data" "batch_size"
           (Demo.start Demo.two_gpus)).
  vm_compute. reflexivity.
Defined.

(** The first GPU id cannot be asked for by a path: the key of a path is
    a string, and a list takes none. *)
Example check_params_rejects_list_index :
  (check_params Demo.params ["gpu_ids.0"] (Demo.start Demo.two_gpus)).1
  = Raise (ValueError (not_supplied "gpu_ids.0")).
Proof. vm_compute. reflexivity. Qed.

(** ** Errors of the framework *)

Lemma quiet_ok c o : quiet (c, Ok o).
Proof. left. by exists o. Qed.

Lemma surfaces_silent {A} (m : M A) w :
  trace (m w).2 = trace w -> surfaces m w.
Proof. intros H. exists []. rewrite app_nil_r. split; [done | by left]. Qed.

Lemma surfaces_invoke fw c w : surfaces (invoke fw c) w.
Proof.
  exists [(c, respond fw (trace w) c)]. split; [done |]. cbn.
  destruct (respond fw (trace w) c) as [o | e].
  - left. apply Forall_singleton, quiet_ok.
  - right. by exists [], c, e.
Qed.

Lemma surfaces_record c w : surfaces (record c) w.
Proof.
  exists [(c, Ok (Data VNone))]. split; [done |]. left.
  apply Forall_singleton, quiet_ok.
Qed.

Lemma surfaces_bind {A B} (m : M A) (k : A -> M B) w :
  surfaces m w -> (forall a w', surfaces (k a) w') -> surfaces (m ≫= k) w.
Proof.
  intros (evs & Ht & H) Hk. unfold surfaces, mbind, M_bind.
  destruct (m w) as [[a | e] w'] eqn:E; cbn [fst snd] in *.
  - destruct H as [Hq | (evs' & c & e & _ & _ & [=])].
    destruct (Hk a w') as (evs2 & Ht2 & H2).
    exists (evs ++ evs2). split; [by rewrite Ht2, Ht, app_assoc |].
    destruct H2 as [Hq2 | (evs' & c & e & -> & Hq2 & Hr)].
    + left. by apply Forall_app.
    + right. exists (evs ++ evs'), c, e. rewrite app_assoc.
      split; [done |]. split; [by apply Forall_app | done].
  - exists evs. split; [done |].
    destruct H as [Hq | (evs' & c & e0 & -> & Hq & [= ->])]; [by left |].
    right. by exists evs', c, e0.
Qed.

Lemma surfaces_makedirs fw dir w :
  surfaces
    (try_except (invoke_ fw (os_makedirs dir))
       (fun e => match e with FileExistsError => mret () | _ => raise e end)) w.
Proof.
  exists [(os_makedirs dir, respond fw (trace w) (os_makedirs dir))].
  unfold try_except, invoke_, invoke, mbind, M_bind. cbn.
  destruct (respond fw (trace w) (os_makedirs dir)) as [o | e]; cbn.
  - split; [done |]. left. apply Forall_singleton, quiet_ok.
  - destruct e; cbn; (split; [done |]);
      first [ left; apply Forall_singleton; by right
            | by right; eexists [], _, _ ].
Qed.

Lemma surfaces_restore_model fw learn pindex restore w :
  surfaces (restore_model fw learn pindex restore) w.
Proof.
  destruct restore as [name |]; [| by apply surfaces_silent].
  unfold surfaces. rewrite (restore_model_run fw learn pindex name w). cbn zeta.
  destruct (respond fw (trace w) _) as [o | e]; [| destruct e];
    (eexists; split; [reflexivity |]);
    try (by right; eexists [], _, _).
  - left. apply Forall_cons. split; [apply quiet_ok |].
    destruct (pindex =? 0); [apply Forall_singleton, quiet_ok | constructor].
  - left. apply Forall_cons. split; [by right |].
    destruct (pindex =? 0); [apply Forall_singleton, quiet_ok | constructor].
Qed.

Lemma surfaces_check_params params param_list w :
  surfaces (check_params params param_list) w.
Proof. apply surfaces_silent. by rewrite check_params_run. Qed.

Ltac surfaces_step :=
  match goal with
  | |- surfaces (check_params _ _) _ => apply surfaces_check_params
  | |- surfaces (mret _) _ => by apply surfaces_silent
  | |- surfaces (raise _) _ => by apply surfaces_silent
  | |- surfaces (reading _) _ => by apply surfaces_silent
  | |- surfaces (pure _) _ => by apply surfaces_silent
  | |- surfaces (getitem _ _) _ => by apply surfaces_silent
  | |- surfaces (format _ _) _ => by apply surfaces_silent
  | |- surfaces (invoke _ _) _ => apply surfaces_invoke
  | |- surfaces (record _) _ => apply surfaces_record
  | |- surfaces (try_except _ _) _ => apply surfaces_makedirs
  | |- surfaces (_ ≫= _) _ => apply surfaces_bind; [| intros ? ?]
  | |- surfaces (if ?b then _ else _) _ => destruct b
  | |- surfaces (invoke_ _ _) _ => unfold invoke_
  | |- surfaces (getitem2 _ _ _) _ => unfold getitem2
  end.

Lemma surfaces_build_learner fw params project_dir pindex comm_file w :
  surfaces (build_learner fw params project_dir pindex comm_file) w.
Proof.
  unfold build_learner, device_settings, init_distributed, load_data,
    define_network, to_device.
  repeat surfaces_step.
Qed.

(** After [os.makedirs] has returned, or has found the directory in
    place, [build_learner] goes on with line 47. *)
Lemma build_learner_after_makedirs fw params project_dir pindex comm_file w name r :
  Py.subscript (store w) params "model_name" = Ok (VStr name) ->
  respond fw (trace w)
    (os_makedirs (PyStr.path_join (PyStr.path_join project_dir "model") name)) = r ->
  (r = Raise FileExistsError \/ exists o, r = Ok o) ->
  build_learner fw params project_dir pindex comm_file w
  = after_makedirs fw params project_dir pindex comm_file name
      (log w [(os_makedirs (PyStr.path_join (PyStr.path_join project_dir "model")
                              name), r)]).
Proof.
  intros Hname Hmk Hr.
  unfold after_makedirs, choose_device. run_device_block. rewrite Hname.
  cbn [Py.as_str trace]. cbv zeta. rewrite Hmk.
  by destruct Hr as [-> | [o ->]].
Qed.

(** X15: two errors are caught, and no other.  When [os.makedirs] raises
    [FileExistsError], [build_learner] goes on with [gpu_ids] as it does
    after a call that returned; when [load] raises [FileNotFoundError],
    [train_worker] returns normally, the worker 0 having said so.  Every
    other call into the framework that raises ends the run of
    [train_worker], which raises the same error with that call as its
    last. *)
Theorem train_worker_catches_two_errors_only
    fw pindex project_dir params comm_file checkpoint restore (w : world) :
  let run := train_worker fw pindex project_dir params comm_file checkpoint restore in
  (Forall quiet (events_of run w)
   \/ exists evs c e,
        events_of run w = evs ++ [(c, Raise e)]
        /\ Forall quiet evs
        /\ (run w).1 = Raise e)
  /\ (forall w0 name r,
        Py.subscript (store w0) params "model_name" = Ok (VStr name) ->
        respond fw (trace w0)
          (os_makedirs (PyStr.path_join (PyStr.path_join project_dir "model") name))
        = r ->
        r = Raise FileExistsError \/ (exists o, r = Ok o) ->
        build_learner fw params project_dir pindex comm_file w0
        = after_makedirs fw params project_dir pindex comm_file name
            (log w0 [(os_makedirs
                        (PyStr.path_join (PyStr.path_join project_dir "model") name),
                      r)]))
  /\ (forall name learn w1,
        restore = Some name ->
        build_learner fw params project_dir pindex comm_file (export_rank pindex w).2
        = (Ok learn, w1) ->
        respond fw (trace w1) (learn_load learn (strip_pth name) false)
        = Raise FileNotFoundError ->
        run w
        = (Ok (),
           log w1 ((learn_load learn (strip_pth name) false, Raise FileNotFoundError)
                   :: if pindex =? 0
                      then [(print (not_found
                                      (fmt fw (store w1) (attr fw learn "model_dir"))
                                      (strip_pth name)), Ok (Data VNone))]
                      else []))).
Proof.
  intros run. split; [| split].
  - assert (surfaces run w) as (evs & Ht & H).
    { subst run. unfold train_worker.
      apply surfaces_bind.
      { apply surfaces_silent. destruct (export_rank_run pindex w) as [env ->]. done. }
      intros [] w0. apply surfaces_bind; [apply surfaces_build_learner |].
      intros learn w1. apply surfaces_bind; [apply surfaces_restore_model |].
      intros [epoch |] w2; [| by apply surfaces_silent].
      unfold register_callbacks, fit_schedule. repeat surfaces_step. }
    rewrite (events_of_eq _ _ _ Ht). exact H.
  - intros w0 name r. apply build_learner_after_makedirs.
  - intros name learn w1 -> Hbuild Hload. subst run.
    destruct (train_worker_after_build fw pindex project_dir params comm_file
                checkpoint (Some name) w learn w1 Hbuild) as [_ ->].
    pose proof (restore_model_run fw learn pindex name w1) as E. cbn zeta in E.
    rewrite Hload in E. by erewrite bind_ok by exact E.
Qed.

Lemma train_worker_catches_two_errors_only_witness :
  build_learner second_run Demo.params "/p" 0 VNone (Demo.start Demo.cpu_only)
  = after_makedirs second_run Demo.params "/p" 0 VNone "m"
      (log (Demo.start Demo.cpu_only)
         [(os_makedirs "/p/model/m", Raise FileExistsError)])
  /\ exists w1,
       train_worker second_run 0 "/p" Demo.params VNone VNone (Some "model_2.pth")
         (Demo.start Demo.cpu_only)
       = (Ok (),
          log w1 [(learn_load (Opaque 6) "model_2" false, Raise FileNotFoundError);
                  (print "The model file model_dir/model_2.pth was not found!",
                   Ok (Data VNone))]).
Proof.
  destruct (train_worker_catches_two_errors_only second_run 0 "/p" Demo.params
              VNone VNone (Some "model_2.pth") (Demo.start Demo.cpu_only))
    as (_ & Hmk & Hload).
  split.
  - apply (Hmk (Demo.start Demo.cpu_only) "m" (Raise FileExistsError));
      [reflexivity | reflexivity | by left].
  - eexists. apply (Hload "model_2.pth" (Opaque 6)).
    + reflexivity.
    + vm_compute. reflexivity.
    + reflexivity.
Defined.

(** On a platform whose [load] fails with another error, the run ends
    there. *)
Example corrupt_checkpoint_is_raised :
  last (events_of (train_worker corrupt_checkpoint 0 "/p" Demo.params VNone VNone
                     (Some "model_2.pth")) (Demo.start Demo.cpu_only))
  = Some (learn_load (Opaque 6) "model_2" false, Raise (OtherError "RuntimeError")).
Proof. vm_compute. reflexivity. Qed.
